(** * Climate seed bank: the seed recommendation engine and its API

    A shallow embedding of [backend/services/recommendation_engine.py],
    of the soil service it calls, and of the route handlers of
    [backend/api/], with the properties of the compatibility scoring
    pipeline.

    Numbers.  Python floats are modelled by exact rationals ([Q]): the
    decimal constants of the source are the rationals they denote, and
    [==] is numeric equality.  Rounding, infinities and NaN are outside
    the model.  Python raises [ZeroDivisionError] on a float division by
    zero; that is modelled.

    Exceptions.  A computation that may raise returns a [result]; a
    [try]/[except Exception] block is [try_except]. *)

From Stdlib Require Import QArith Qminmax Qabs Lqa.
From Stdlib Require Import List String ZArith Lia Bool.
From Stdlib Require Import Sorted Permutation.
Import ListNotations.

Open Scope Q_scope.

(** ** Python values and exceptions *)

Inductive exn : Type :=
| AttributeError
| TypeError
| KeyError (key : string)
| NameError
| ZeroDivisionError
| NotFittedError
| StopIteration
| RequestException
| SQLAlchemyError
| HTTPException (status_code : Z).

Inductive result (A : Type) : Type :=
| Ok (a : A)
| Raise (e : exn).
Arguments Ok {A} a.
Arguments Raise {A} e.

Definition rbind {A B} (r : result A) (k : A -> result B) : result B :=
  match r with
  | Ok a => k a
  | Raise e => Raise e
  end.

Declare Scope result_scope.
Delimit Scope result_scope with result.
Notation "x <- c ;; k" := (rbind c (fun x => k))
  (at level 61, c at next level, right associativity) : result_scope.

(** [try: body except Exception as e: handler e]. *)
Definition try_except {A} (body : result A) (handler : exn -> A) : A :=
  match body with
  | Ok a => a
  | Raise e => handler e
  end.

(** Strict order on floats, as a boolean. *)
Definition Qltb (a b : Q) : bool := negb (Qle_bool b a).

(** Python's [max(a, b)]: [b] when [b > a], else [a]. *)
Definition py_max (a b : Q) : Q := if Qltb a b then b else a.

(** Python's [min(a, b)]: [b] when [b < a], else [a]. *)
Definition py_min (a b : Q) : Q := if Qltb b a then b else a.

(** Float division [a / b]. *)
Definition py_div (a b : Q) : result Q :=
  if Qeq_bool b 0 then Raise ZeroDivisionError else Ok (a / b).

(** Truth value of an optional float: [None] and [0.0] are falsy. *)
Definition truthy (o : option Q) : bool :=
  match o with
  | Some q => negb (Qeq_bool q 0)
  | None => false
  end.

(** [o or d] on an optional float. *)
Definition or_default (o : option Q) (d : Q) : Q :=
  match o with
  | Some q => if Qeq_bool q 0 then d else q
  | None => d
  end.

(** Using an optional float in arithmetic: [None] raises [TypeError]. *)
Definition need (o : option Q) : result Q :=
  match o with
  | Some q => Ok q
  | None => Raise TypeError
  end.

(** Dictionaries with string keys, in insertion order. *)
Definition dict (V : Type) : Type := list (string * V).

Fixpoint dict_lookup {V} (d : dict V) (k : string) : option V :=
  match d with
  | [] => None
  | (k', v) :: d' => if String.eqb k k' then Some v else dict_lookup d' k
  end.

(** [d.get(k, default)]. *)
Definition dict_get {V} (d : dict V) (k : string) (default : V) : V :=
  match dict_lookup d k with
  | Some v => v
  | None => default
  end.

(** [d[k]]. *)
Definition dict_item {V} (d : dict V) (k : string) : result V :=
  match dict_lookup d k with
  | Some v => Ok v
  | None => Raise (KeyError k)
  end.

(** ** The data model *)

(** [models.database_models.Seed], the columns the engine reads.  Every
    [Column(Float)] and [Column(String)] without [nullable=False] may hold
    [None]. *)
Record Seed : Type := {
  Seed_id : Z;
  variety_name : string;
  crop_type : string;
  maturity_days : Z;
  yield_potential : option Q;
  drought_tolerance : option Q;
  flood_tolerance : option Q;
  heat_tolerance : option Q;
  cold_tolerance : option Q;
  preferred_ph_min : option Q;
  preferred_ph_max : option Q;
  nitrogen_requirement : option string;
  phosphorus_requirement : option string;
  potassium_requirement : option string;
  min_rainfall : option Q;
  max_rainfall : option Q;
  optimal_temp_min : option Q;
  optimal_temp_max : option Q;
  altitude_min : option Q;
  altitude_max : option Q;
  market_demand : option string;
  is_available : option bool
}.

(** [models.database_models.Farm], the columns the engine and the routes
    read. *)
Record Farm : Type := {
  Farm_id : Z;
  owner_id : Z;
  farm_name : string;
  latitude : Q;
  longitude : Q;
  elevation : option Q;
  total_area : Q;
  cultivated_area : Q
}.

Record EnvironmentalConditions : Type := {
  temperature_avg : Q;
  temperature_range : Q;
  annual_rainfall : Q;
  rainfall_variability : Q;
  humidity_avg : Q;
  soil_ph : Q;
  soil_organic_matter : Q;
  soil_nitrogen : Q;
  soil_phosphorus : Q;
  soil_potassium : Q;
  soil_texture_score : Q;
  drainage_score : Q;
  altitude : Q;
  climate_risk_score : Q
}.

Record SeedCompatibility : Type := {
  seed_id : Z;
  compatibility_score : Q;
  climate_match_score : Q;
  soil_match_score : Q;
  yield_prediction : Q;
  risk_score : Q;
  confidence_level : Q;
  reasons : list string
}.

(** ** The range-compatibility function *)

Section RangeCompatibility.
Local Open Scope result_scope.

Definition _score_range_compatibility (value min_val max_val : Q) : result Q :=
  if Qle_bool min_val value && Qle_bool value max_val then Ok 1
  else if Qltb value min_val then
    d <- py_div (min_val - value) min_val ;;
    Ok (py_max 0 (1 - d))
  else
    d <- py_div (value - max_val) max_val ;;
    Ok (py_max 0 (1 - d)).
End RangeCompatibility.

(** ** The interpreter the module is loaded in

    [ML_AVAILABLE] is the flag set by the guarded import at the top of
    [recommendation_engine.py]: when one of numpy, pandas, scikit-learn or
    joblib is missing, the name [np] is bound to [None] there.
    [HAS_NUMPY] is the flag of [soil_service.py], whose guarded import
    leaves [np] unbound when numpy is missing.  [np_std] is numpy's
    population standard deviation, a square root, which the rationals
    cannot compute: it is taken as given. *)
Record Runtime : Type := {
  ML_AVAILABLE : bool;
  HAS_NUMPY : bool;
  np_std : list Q -> Q
}.

Definition Qsum (xs : list Q) : Q := fold_right Qplus 0 xs.

Section Scoring.
Variable rt : Runtime.
Local Open Scope result_scope.

(** [np.mean(xs)] in [recommendation_engine.py].  With [np = None] the
    attribute access raises.  Every call of the engine passes a
    non-empty list. *)
Definition np_mean (xs : list Q) : result Q :=
  if ML_AVAILABLE rt
  then Ok (Qsum xs / inject_Z (Z.of_nat (List.length xs)))
  else Raise AttributeError.

(** [np.mean] of a list that may hold [None]. *)
Definition np_mean_opt (xs : list (option Q)) : result Q :=
  if ML_AVAILABLE rt
  then
    ys <- fold_right (fun o acc => q <- need o ;; qs <- acc ;; Ok (q :: qs))
                     (Ok []) xs ;;
    np_mean ys
  else Raise AttributeError.

(** [np.mean(scores) if scores else 0.5] *)
Definition mean_or_half (scores : list Q) : result Q :=
  match scores with
  | [] => Ok 0.5
  | _ :: _ => np_mean scores
  end.

(** One optional range score: [if lo and hi: scores.append(...)]. *)
Definition range_scores (value : Q) (lo hi : option Q) : result (list Q) :=
  if truthy lo && truthy hi then
    match lo, hi with
    | Some l, Some h =>
        s <- _score_range_compatibility value l h ;; Ok [s]
    | _, _ => Ok []
    end
  else Ok [].

Definition _calculate_climate_compatibility
           (seed : Seed) (env_conditions : EnvironmentalConditions) : Q :=
  try_except
    (temp <- range_scores (temperature_avg env_conditions)
                          (optimal_temp_min seed) (optimal_temp_max seed) ;;
     rainfall <- range_scores (annual_rainfall env_conditions)
                              (min_rainfall seed) (max_rainfall seed) ;;
     alt <- range_scores (altitude env_conditions)
                         (altitude_min seed) (altitude_max seed) ;;
     dt <- need (drought_tolerance seed) ;;
     let drought_tolerance_score := dt * (1 - climate_risk_score env_conditions) in
     let flood_risk := py_max 0 (1 - drainage_score env_conditions) in
     ft <- need (flood_tolerance seed) ;;
     let flood_tolerance_score := 1 - Qabs (ft - flood_risk) in
     mean_or_half (temp ++ rainfall ++ alt
                        ++ [drought_tolerance_score; flood_tolerance_score]))
    (fun _ => 0.5).

Definition _requirement_to_score (requirement : option string) : Q :=
  match requirement with
  | Some r => dict_get [("low", 0.3); ("medium", 0.6); ("high", 0.9)]%string r 0.6
  | None => 0.6
  end.

Definition _calculate_texture_compatibility
           (crop : string) (texture_score : Q) : Q :=
  let preference :=
    dict_get [("maize", 0.8); ("beans", 0.9); ("cassava", 0.7);
              ("sweet_potato", 0.9); ("groundnuts", 0.9); ("rice", 0.3)]%string
             crop 0.7 in
  if String.eqb crop "rice" then 1 - texture_score
  else py_min 1 (texture_score * preference).

(** [1 - abs(requirement - min(1.0, available / scale))] *)
Definition nutrient_score (requirement : option string) (available scale : Q)
  : result Q :=
  let req := _requirement_to_score requirement in
  a <- py_div available scale ;;
  Ok (1 - Qabs (req - py_min 1 a)).

Definition _calculate_soil_compatibility
           (seed : Seed) (env_conditions : EnvironmentalConditions) : Q :=
  try_except
    (ph <- range_scores (soil_ph env_conditions)
                        (preferred_ph_min seed) (preferred_ph_max seed) ;;
     n_score <- nutrient_score (nitrogen_requirement seed)
                               (soil_nitrogen env_conditions) 50 ;;
     p_score <- nutrient_score (phosphorus_requirement seed)
                               (soil_phosphorus env_conditions) 40 ;;
     k_score <- nutrient_score (potassium_requirement seed)
                               (soil_potassium env_conditions) 200 ;;
     om <- py_div (soil_organic_matter env_conditions) 4 ;;
     let om_score := py_min 1 om in
     let texture_score :=
       _calculate_texture_compatibility (crop_type seed)
                                        (soil_texture_score env_conditions) in
     mean_or_half (ph ++ [n_score; p_score; k_score] ++ [om_score; texture_score]))
    (fun _ => 0.5).

Definition _calculate_risk_score
           (seed : Seed) (env_conditions : EnvironmentalConditions) : Q :=
  try_except
    (let climate_risk := climate_risk_score env_conditions in
     adaptation_score <- np_mean_opt [drought_tolerance seed; flood_tolerance seed;
                                      heat_tolerance seed; cold_tolerance seed] ;;
     let climate_mismatch := 1 - _calculate_climate_compatibility seed env_conditions in
     let soil_mismatch := 1 - _calculate_soil_compatibility seed env_conditions in
     let variability_risk := rainfall_variability env_conditions in
     let total_risk :=
       climate_risk * 0.3 + (1 - adaptation_score) * 0.25
       + climate_mismatch * 0.2 + soil_mismatch * 0.15 + variability_risk * 0.1 in
     Ok (py_min 1 (py_max 0 total_risk)))
    (fun _ => 0.5).

Definition _estimate_yield_simple
           (seed : Seed) (env_conditions : EnvironmentalConditions) : Q :=
  try_except
    (let base_yield := or_default (yield_potential seed) 2 in
     let climate_factor := _calculate_climate_compatibility seed env_conditions in
     let soil_factor := _calculate_soil_compatibility seed env_conditions in
     let risk_factor := 1 - _calculate_risk_score seed env_conditions in
     let yield_factor := climate_factor * 0.4 + soil_factor * 0.4 + risk_factor * 0.2 in
     Ok (base_yield * yield_factor))
    (fun _ => or_default (yield_potential seed) 2).
End Scoring.

(** ** State and exceptions

    Methods that read or assign attributes of [self] run in a state
    monad whose state survives a raised exception, as Python's does. *)

Definition M (S A : Type) : Type := S -> result A * S.

Definition mret {S A} (a : A) : M S A := fun s => (Ok a, s).

Definition mbind {S A B} (c : M S A) (k : A -> M S B) : M S B :=
  fun s =>
    match c s with
    | (Ok a, s') => k a s'
    | (Raise e, s') => (Raise e, s')
    end.

Definition mraise {S A} (e : exn) : M S A := fun s => (Raise e, s).

Definition mgets {S A} (f : S -> A) : M S A := fun s => (Ok (f s), s).

Definition mmodify {S} (f : S -> S) : M S unit := fun s => (Ok tt, f s).

Definition mlift {S A} (r : result A) : M S A := fun s => (r, s).

(** [try: body except Exception as e: handler e] *)
Definition mtry {S A} (body : M S A) (handler : exn -> M S A) : M S A :=
  fun s =>
    match body s with
    | (Ok a, s') => (Ok a, s')
    | (Raise e, s') => handler e s'
    end.

(** [for x in xs: ys.append(f x)] *)
Fixpoint mfor {S A B} (f : A -> M S B) (xs : list A) : M S (list B) :=
  match xs with
  | [] => mret []
  | x :: xs' =>
      mbind (f x) (fun y => mbind (mfor f xs') (fun ys => mret (y :: ys)))
  end.

Declare Scope monad_scope.
Delimit Scope monad_scope with monad.
Notation "x <- c ;; k" := (mbind c (fun x => k))
  (at level 61, c at next level, right associativity) : monad_scope.
Notation "c ;;; k" := (mbind c (fun _ => k))
  (at level 61, right associativity) : monad_scope.

(** ** The engine object *)

(** A scikit-learn regressor: [predict] raises until the model is fitted. *)
Record Estimator : Type := { predict : list Q -> result Q }.

(** A scikit-learn scaler: [transform] raises until the scaler is fitted. *)
Record Scaler : Type := { transform : list Q -> result (list Q) }.

Definition unfitted_estimator : Estimator :=
  {| predict := fun _ => Raise NotFittedError |}.

Definition unfitted_scaler : Scaler :=
  {| transform := fun _ => Raise NotFittedError |}.

Record SeedRecommendationEngine : Type := {
  models : dict Estimator;
  scalers : dict Scaler;
  is_trained : bool;
  use_fallback : bool;
  feature_weights : dict Q
}.

(** The state a call runs in: the engine object, and a log of the seeds
    [_analyze_seed_compatibility] was called on (the log is not in the
    source; it counts the calls). *)
Record Heap : Type := {
  self : SeedRecommendationEngine;
  analysis_calls : list Z
}.

Definition set_self (f : SeedRecommendationEngine -> SeedRecommendationEngine)
  (h : Heap) : Heap :=
  {| self := f (self h); analysis_calls := analysis_calls h |}.

Definition log_analysis (i : Z) (h : Heap) : Heap :=
  {| self := self h; analysis_calls := analysis_calls h ++ [i] |}.

(** Values of the preferences dictionary. *)
Inductive pyval : Type :=
| PNone
| PFloat (q : Q)
| PStr (s : string)
| PBool (b : bool).

Definition pyval_is_str (v : pyval) (s : string) : bool :=
  match v with
  | PStr s' => String.eqb s' s
  | _ => false
  end.

Definition opt_str_is (o : option string) (s : string) : bool :=
  match o with
  | Some s' => String.eqb s' s
  | None => false
  end.

Definition default_feature_weights : dict Q :=
  [("climate_compatibility", 0.3); ("soil_compatibility", 0.25);
   ("yield_potential", 0.2); ("risk_tolerance", 0.15);
   ("market_factors", 0.1)]%string.

Section Engine.
Variable rt : Runtime.

(** [_initialize_models] *)
Definition _initialize_models (e : SeedRecommendationEngine)
  : SeedRecommendationEngine :=
  if negb (ML_AVAILABLE rt) then
    {| models := []; scalers := []; is_trained := is_trained e;
       use_fallback := use_fallback e; feature_weights := feature_weights e |}
  else
    {| models := [("yield_predictor", unfitted_estimator);
                  ("climate_compatibility", unfitted_estimator);
                  ("soil_compatibility", unfitted_estimator);
                  ("risk_predictor", unfitted_estimator)]%string;
       scalers := [("environmental", unfitted_scaler);
                   ("seed_features", unfitted_scaler);
                   ("yield_features", unfitted_scaler)]%string;
       is_trained := is_trained e;
       use_fallback := use_fallback e;
       feature_weights := feature_weights e |}.

(** [SeedRecommendationEngine.__init__] *)
Definition __init__ : SeedRecommendationEngine :=
  _initialize_models
    {| models := []; scalers := []; is_trained := false;
       use_fallback := negb (ML_AVAILABLE rt);
       feature_weights := default_feature_weights |}.

(** The status dictionary [train_models] returns. *)
Inductive TrainStatus : Type :=
| Skipped (fallback_mode : bool)
| Performance (metrics : dict Q)
| TrainingFailed.

(** [train_models].  Without the ML packages it returns at once.  With
    them, what scikit-learn does to the models is given by [fit]: the
    fitted models, scalers and metrics, or the exception raised on the
    way. *)
Definition train_models
           (fit : SeedRecommendationEngine ->
                  result (dict Estimator * dict Scaler * dict Q))
  : M Heap TrainStatus :=
  if negb (ML_AVAILABLE rt) then mret (Skipped true)
  else
    mtry
      (e <- mgets self ;;
       r <- mlift (fit e) ;;
       let '(ms, ss, perf) := r in
       mmodify (set_self (fun e =>
         {| models := ms; scalers := ss; is_trained := true;
            use_fallback := use_fallback e;
            feature_weights := feature_weights e |})) ;;;
       mret (Performance perf))%monad
      (fun _ => mret TrainingFailed).

(** [load_models], with [load] the models and scalers found on disk (or
    the exception raised while reading them). *)
Definition load_models
           (load : SeedRecommendationEngine ->
                   result (dict Estimator * dict Scaler))
  : M Heap unit :=
  mtry
    (e <- mgets self ;;
     r <- mlift (load e) ;;
     let '(ms, ss) := r in
     mmodify (set_self (fun e =>
       {| models := ms; scalers := ss; is_trained := true;
          use_fallback := use_fallback e;
          feature_weights := feature_weights e |})))%monad
    (fun _ =>
       mmodify (set_self (fun e =>
         {| models := models e; scalers := scalers e; is_trained := false;
            use_fallback := use_fallback e;
            feature_weights := feature_weights e |}))).

Definition _environmental_conditions_to_features
           (env_conditions : EnvironmentalConditions) : list Q :=
  [temperature_avg env_conditions; temperature_range env_conditions;
   annual_rainfall env_conditions; rainfall_variability env_conditions;
   humidity_avg env_conditions; soil_ph env_conditions;
   soil_organic_matter env_conditions; soil_nitrogen env_conditions;
   soil_phosphorus env_conditions; soil_potassium env_conditions;
   soil_texture_score env_conditions; drainage_score env_conditions;
   altitude env_conditions; climate_risk_score env_conditions; 0].

(** [_seed_to_features]; a [None] among the tolerances makes the later
    [transform] raise, which is where [need] raises here. *)
Definition _seed_to_features (seed : Seed) : result (list Q) :=
  (dt <- need (drought_tolerance seed) ;;
   ft <- need (flood_tolerance seed) ;;
   ht <- need (heat_tolerance seed) ;;
   ct <- need (cold_tolerance seed) ;;
   Ok [(if Z.eqb (maturity_days seed) 0 then 120
        else inject_Z (maturity_days seed));
       or_default (yield_potential seed) 2;
       dt; ft; ht; ct;
       or_default (preferred_ph_min seed) 6;
       or_default (preferred_ph_max seed) 7;
       or_default (min_rainfall seed) 500;
       or_default (max_rainfall seed) 1200])%result.

Definition _predict_yield
           (seed : Seed) (env_conditions : EnvironmentalConditions) : M Heap Q :=
  mtry
    (trained <- mgets (fun h => is_trained (self h)) ;;
     if negb (ML_AVAILABLE rt) || negb trained then
       mret (_estimate_yield_simple rt seed env_conditions)
     else
       let env_features := _environmental_conditions_to_features env_conditions in
       seed_features <- mlift (_seed_to_features seed) ;;
       let features := env_features ++ seed_features in
       ss <- mgets (fun h => scalers (self h)) ;;
       scaler <- mlift (dict_item ss "environmental") ;;
       features_scaled <- mlift (transform scaler features) ;;
       ms <- mgets (fun h => models (self h)) ;;
       model <- mlift (dict_item ms "yield_predictor") ;;
       predicted_yield <- mlift (predict model features_scaled) ;;
       let max_yield := or_default (yield_potential seed) 5 in
       mret (py_max 0.1 (py_min predicted_yield (max_yield * 1.2))))%monad
    (fun _ => mret (_estimate_yield_simple rt seed env_conditions)).

Definition _calculate_market_score
           (seed : Seed) (preferences : option (dict pyval)) : Q :=
  match preferences with
  | None | Some [] => 0.7
  | Some prefs =>
      let score := 0.7 in
      let demand := market_demand seed in
      let pref := dict_get prefs "market_preference" PNone in
      let score :=
        if pyval_is_str pref "export" && opt_str_is demand "high"
        then score + 0.2
        else if pyval_is_str pref "local"
                && (opt_str_is demand "medium" || opt_str_is demand "high")
        then score + 0.1
        else score in
      py_min 1 score
  end.

Definition _generate_reasoning
           (seed : Seed) (env_conditions : EnvironmentalConditions)
           (climate_score soil_score risk : Q) : list string :=
  try_except
    (let r1 :=
       if Qltb 0.8 climate_score
       then ("Excellent climate match for " ++ variety_name seed)%string
       else if Qltb 0.6 climate_score
       then ("Good climate compatibility for " ++ variety_name seed)%string
       else ("Climate challenges may affect " ++ variety_name seed
               ++ " performance")%string in
     let r2 :=
       if Qltb 0.8 soil_score
       then "Soil conditions are ideal for this variety"%string
       else if Qltb 0.6 soil_score
       then "Soil conditions are suitable with minor adjustments"%string
       else "Soil amendments recommended for optimal performance"%string in
     let r3 :=
       if Qltb risk 0.3
       then "Low risk option with stable performance expected"%string
       else if Qltb risk 0.6
       then "Moderate risk with good adaptation potential"%string
       else "Higher risk option requiring careful management"%string in
     dt <- need (drought_tolerance seed) ;;
     let r4 :=
       if Qltb 0.7 dt
       then ["High drought tolerance suitable for dry conditions"%string]
       else [] in
     let r5 :=
       if truthy (yield_potential seed)
          && Qltb 5 (or_default (yield_potential seed) 0)
       then ["High yield potential variety"%string]
       else [] in
     Ok ([r1; r2; r3] ++ r4 ++ r5))%result
    (fun _ => [("Analysis completed for " ++ variety_name seed)%string]).

Definition _calculate_confidence_level
           (env_conditions : EnvironmentalConditions) (seed : Seed) : M Heap Q :=
  (let confidence := 1 in
   let confidence :=
     if Qeq_bool (climate_risk_score env_conditions) 0.3
     then confidence - 0.1 else confidence in
   let confidence :=
     if negb (truthy (yield_potential seed))
     then confidence - 0.1 else confidence in
   let confidence :=
     if negb (truthy (optimal_temp_min seed))
        || negb (truthy (optimal_temp_max seed))
     then confidence - 0.1 else confidence in
   trained <- mgets (fun h => is_trained (self h)) ;;
   let confidence :=
     if negb trained then confidence - 0.2 else confidence in
   mret (py_max 0.3 confidence))%monad.

(** The record the [except] branch of [_analyze_seed_compatibility]
    returns. *)
Definition neutral_compatibility (seed : Seed) : SeedCompatibility :=
  {| seed_id := Seed_id seed;
     compatibility_score := 0.5;
     climate_match_score := 0.5;
     soil_match_score := 0.5;
     yield_prediction := or_default (yield_potential seed) 1;
     risk_score := 0.5;
     confidence_level := 0.3;
     reasons := ["Analysis error occurred"%string] |}.

(** The [try] block of [_analyze_seed_compatibility]. *)
Definition _analyze_seed_compatibility_body
           (seed : Seed) (env_conditions : EnvironmentalConditions)
           (farm : Farm) (preferences : option (dict pyval))
  : M Heap SeedCompatibility :=
  (let climate_score := _calculate_climate_compatibility rt seed env_conditions in
   let soil_score := _calculate_soil_compatibility rt seed env_conditions in
   trained <- mgets (fun h => is_trained (self h)) ;;
   yield_prediction <-
     (if trained then _predict_yield seed env_conditions
      else mret (_estimate_yield_simple rt seed env_conditions)) ;;
   let risk := _calculate_risk_score rt seed env_conditions in
   let market_score := _calculate_market_score seed preferences in
   weights <- mgets (fun h => feature_weights (self h)) ;;
   w_climate <- mlift (dict_item weights "climate_compatibility") ;;
   w_soil <- mlift (dict_item weights "soil_compatibility") ;;
   yield_ratio <- mlift (py_div yield_prediction
                                (or_default (yield_potential seed) 1)) ;;
   w_yield <- mlift (dict_item weights "yield_potential") ;;
   w_risk <- mlift (dict_item weights "risk_tolerance") ;;
   w_market <- mlift (dict_item weights "market_factors") ;;
   let score :=
     climate_score * w_climate + soil_score * w_soil
     + yield_ratio * w_yield + (1 - risk) * w_risk
     + market_score * w_market in
   let reasons :=
     _generate_reasoning seed env_conditions climate_score soil_score risk in
   confidence <- _calculate_confidence_level env_conditions seed ;;
   mret {| seed_id := Seed_id seed;
           compatibility_score := py_min 1 (py_max 0 score);
           climate_match_score := climate_score;
           soil_match_score := soil_score;
           yield_prediction := yield_prediction;
           risk_score := risk;
           confidence_level := confidence;
           reasons := reasons |})%monad.

Definition _analyze_seed_compatibility
           (seed : Seed) (env_conditions : EnvironmentalConditions)
           (farm : Farm) (preferences : option (dict pyval))
  : M Heap SeedCompatibility :=
  (mmodify (log_analysis (Seed_id seed)) ;;;
   mtry (_analyze_seed_compatibility_body seed env_conditions farm preferences)
        (fun _ => mret (neutral_compatibility seed)))%monad.
End Engine.

(** ** The services the engine calls

    What the outside world answers during one call of
    [generate_recommendations] is collected in a [World]: the reply of the
    weather service, the risks computed by the climate service, the
    replies of the SoilGrids HTTP API, and the values numpy's random
    generator yields to the soil service, in order. *)

Record SoilData : Type := {
  ph_level : Q;
  organic_matter : Q;
  nitrogen : Q;
  phosphorus : Q;
  potassium : Q;
  texture : string;
  drainage : string;
  depth : Q;
  salinity : Q;
  cec : Q;
  bulk_density : Q
}.

(** One season of the dictionary [get_seasonal_patterns] returns. *)
Record SeasonalPattern : Type := {
  avg_temp : Q;
  total_rainfall : Q;
  avg_humidity : Q;
  extreme_temps_max : Q;
  extreme_temps_min : Q
}.

(** One month of the dictionary [get_seasonal_patterns] returns. *)
Record MonthlyStats : Type := {
  month_avg_temp : Q;
  avg_rainfall : Q;
  month_avg_humidity : Q;
  temp_variability : Q;
  month_rainfall_variability : Q
}.

(** The dictionary [get_seasonal_patterns] returns; the empty dictionary
    of its [except] branch has no month, no season and no summary. *)
Record WeatherPatterns : Type := {
  monthly : dict MonthlyStats;
  seasonal : dict SeasonalPattern;
  total_annual_rainfall : option Q
}.

(** What one [requests.get] to SoilGrids does: it raises, it answers with
    a status other than 200, or it answers 200 with the ["mean"] value of
    the property ([None] for a JSON null). *)
Inductive HttpReply : Type :=
| RequestRaises
| StatusNot200
| Status200 (mean : option Q).

Record World : Type := {
  seasonal_patterns : WeatherPatterns;
  climate_risks : dict Q;
  soilgrids : string -> HttpReply;
  random_draws : nat -> Q
}.

Section SoilService.
Variable rt : Runtime.
Variable w : World.

(** The next value of the random generator; the state is the number of
  values drawn so far.  Without numpy the name [np] is unbound. *)
Definition np_random : M nat Q :=
if HAS_NUMPY rt
then fun n => (Ok (random_draws w n), S n)
else mraise NameError.

(** [np.random.normal(loc, scale)], from a standard normal draw. *)
Definition np_random_normal (loc scale : Q) : M nat Q :=
(z <- np_random ;; mret (loc + scale * z))%monad.

(** [np.random.choice(options, p=p)] with three options, from a uniform
  draw in the unit interval. *)
Definition np_random_choice3 (o1 o2 o3 : string) (p1 p2 : Q) : M nat string :=
(u <- np_random ;;
 mret (if Qltb u p1 then o1
       else if Qltb u (p1 + p2) then o2
       else o3))%monad.

Definition texture_classes : list (string * (Q * Q) * (Q * Q) * (Q * Q)) :=
[("clay", (40, 100), (0, 60), (0, 45));
 ("sandy_clay", (35, 40), (0, 20), (45, 65));
 ("silty_clay", (35, 40), (40, 60), (0, 20));
 ("sandy_clay_loam", (20, 35), (0, 28), (45, 80));
 ("clay_loam", (27, 40), (15, 53), (20, 45));
 ("silty_clay_loam", (27, 40), (40, 73), (0, 20));
 ("sandy_loam", (0, 20), (0, 50), (50, 85));
 ("loam", (7, 27), (28, 50), (23, 52));
 ("silt_loam", (0, 27), (50, 88), (0, 50));
 ("silt", (0, 12), (80, 100), (0, 20));
 ("loamy_sand", (0, 15), (0, 30), (70, 90));
 ("sand", (0, 10), (0, 15), (85, 100))]%string.

Definition in_range (r : Q * Q) (x : Q) : bool :=
Qle_bool (fst r) x && Qle_bool x (snd r).

Definition _classify_texture (sand_pct silt_pct clay_pct : Q) : string :=
let total := sand_pct + silt_pct + clay_pct in
let '(sand_pct, silt_pct, clay_pct) :=
  if Qltb 0 total
  then ((sand_pct / total) * 100, (silt_pct / total) * 100,
        (clay_pct / total) * 100)
  else (sand_pct, silt_pct, clay_pct) in
match find (fun c => let '(_, clay, silt, sand) := c in
                     in_range clay clay_pct && in_range silt silt_pct
                     && in_range sand sand_pct) texture_classes with
| Some (name, _, _, _) => name
| None =>
    if Qltb 40 clay_pct then "clay"
    else if Qltb 70 sand_pct then "sandy_loam"
    else "loam"
end%string.

Definition _estimate_drainage (texture : string) (organic_matter : Q) : string :=
let base_drainage :=
  dict_get [("sand", "excellent"); ("loamy_sand", "excellent");
            ("sandy_loam", "good"); ("loam", "good");
            ("silt_loam", "fair"); ("silt", "fair");
            ("sandy_clay_loam", "fair"); ("clay_loam", "fair");
            ("silty_clay_loam", "poor"); ("sandy_clay", "poor");
            ("silty_clay", "poor"); ("clay", "poor")]%string
           texture "fair"%string in
if Qltb 4 organic_matter then
  if String.eqb base_drainage "poor" then "fair"%string
  else if String.eqb base_drainage "fair" then "good"%string
  else base_drainage
else base_drainage.

Definition _generate_synthetic_soil_data (lat lon : Q) : M nat SoilData :=
(drawn <-
   (if Qltb 2 lat then
      ph <- np_random_normal 6.2 0.5 ;;
      om <- np_random_normal 2 0.5 ;;
      t <- np_random_choice3 "sandy_loam" "loam" "clay_loam" 0.4 0.4 ;;
      mret (ph, om, t)
    else if Qltb lat 0.5 then
      ph <- np_random_normal 6 0.4 ;;
      om <- np_random_normal 3 0.7 ;;
      t <- np_random_choice3 "loam" "clay_loam" "clay" 0.3 0.4 ;;
      mret (ph, om, t)
    else
      ph <- np_random_normal 6.5 0.3 ;;
      om <- np_random_normal 2.8 0.6 ;;
      t <- np_random_choice3 "loam" "clay_loam" "silt_loam" 0.4 0.3 ;;
      mret (ph, om, t)) ;;
 let '(ph, om, t) := drawn in
 n <- np_random_normal 25 8 ;;
 p <- np_random_normal 20 10 ;;
 k <- np_random_normal 120 40 ;;
 let dr := _estimate_drainage t om in
 d <- np_random_normal 80 20 ;;
 sal <- np_random_normal 0.3 0.2 ;;
 c <- np_random_normal 15 5 ;;
 bd <- np_random_normal 1.3 0.2 ;;
 mret {| ph_level := py_max 4 (py_min 8 ph);
         organic_matter := py_max 1 om;
         nitrogen := n; phosphorus := p; potassium := k;
         texture := t; drainage := dr;
         depth := d; salinity := sal; cec := c; bulk_density := bd |})%monad.

(** The loop over the SoilGrids properties: a raised request stores
  [None], a status other than 200 stores nothing. *)
Definition soilgrids_properties : list string :=
["phh2o"; "soc"; "nitrogen"; "cec"; "bdod"; "sand"; "silt"; "clay"]%string.

Definition fetch_soilgrids : dict (option Q) :=
flat_map (fun prop =>
            match soilgrids w prop with
            | RequestRaises => [(prop, None)]
            | StatusNot200 => []
            | Status200 v => [(prop, v)]
            end) soilgrids_properties.

(** [soil_data.get(prop, default) / scale] *)
Definition soil_value (d : dict (option Q)) (prop : string) (default scale : Q)
: result Q :=
(v <- need (dict_get d prop (Some default)) ;; Ok (v / scale))%result.

Definition get_soil_data_from_coordinates (lat lon : Q) : M nat SoilData :=
mtry
  (let soil_data := fetch_soilgrids in
   ph <- mlift (soil_value soil_data "phh2o" 65 10) ;;
   organic_carbon <- mlift (soil_value soil_data "soc" 15 10) ;;
   let om := if Qeq_bool organic_carbon 0 then 2.5
             else organic_carbon * 1.72 in
   sand_pct <- mlift (soil_value soil_data "sand" 400 10) ;;
   silt_pct <- mlift (soil_value soil_data "silt" 300 10) ;;
   clay_pct <- mlift (soil_value soil_data "clay" 300 10) ;;
   let t := _classify_texture sand_pct silt_pct clay_pct in
   let dr := _estimate_drainage t om in
   n <- mlift (soil_value soil_data "nitrogen" 2000 100) ;;
   p <- np_random_normal 25 10 ;;
   k <- np_random_normal 150 50 ;;
   c <- mlift (soil_value soil_data "cec" 150 10) ;;
   bd <- mlift (soil_value soil_data "bdod" 1400 100) ;;
   mret {| ph_level := ph; organic_matter := om;
           nitrogen := n; phosphorus := p; potassium := k;
           texture := t; drainage := dr;
           depth := 100; salinity := 0.2; cec := c; bulk_density := bd |})%monad
  (fun _ => _generate_synthetic_soil_data lat lon).
End SoilService.

(** ** The pipeline *)

Section Pipeline.
Variable rt : Runtime.
Variable w : World.

Definition _get_seasonal_key (season : string) : string :=
  dict_get [("A", "wet_season_1"); ("B", "wet_season_2");
            ("perennial", "wet_season_1")]%string season "wet_season_1"%string.

Definition _calculate_rainfall_variability (weather_patterns : WeatherPatterns) : Q :=
  try_except
    (match monthly weather_patterns with
     | [] => Ok 0.3
     | monthly_data =>
         let rainfall_values := map (fun kv => avg_rainfall (snd kv)) monthly_data in
         mean_rainfall <- np_mean rt rainfall_values ;;
         let std_rainfall := np_std rt rainfall_values in
         if Qltb 0 mean_rainfall then Ok (std_rainfall / mean_rainfall)
         else Ok 0.3
     end)%result
    (fun _ => 0.3).

Definition _texture_to_score (t : string) : Q :=
  dict_get [("clay", 0.4); ("sandy_clay", 0.5); ("silty_clay", 0.6);
            ("sandy_clay_loam", 0.7); ("clay_loam", 0.8);
            ("silty_clay_loam", 0.7); ("sandy_loam", 0.8); ("loam", 1);
            ("silt_loam", 0.9); ("silt", 0.6); ("loamy_sand", 0.6);
            ("sand", 0.4)]%string t 0.7.

Definition _drainage_to_score (d : string) : Q :=
  dict_get [("poor", 0.3); ("fair", 0.6); ("good", 0.8);
            ("excellent", 1)]%string d 0.7.

(** The conditions the [except] branch of
    [_analyze_environmental_conditions] returns. *)
Definition default_conditions : EnvironmentalConditions :=
  {| temperature_avg := 25; temperature_range := 10; annual_rainfall := 1200;
     rainfall_variability := 0.3; humidity_avg := 70; soil_ph := 6.5;
     soil_organic_matter := 2.5; soil_nitrogen := 25; soil_phosphorus := 20;
     soil_potassium := 120; soil_texture_score := 0.7; drainage_score := 0.7;
     altitude := 1200; climate_risk_score := 0.3 |}.

(** [_analyze_environmental_conditions].  The three service calls are
    answered by the world; of the three only the soil service can raise
    (from its own [except] branch). *)
Definition _analyze_environmental_conditions
           (farm : Farm) (season : string) (year : Z) : EnvironmentalConditions :=
  try_except
    (let weather_patterns := seasonal_patterns w in
     soil_data <- fst (get_soil_data_from_coordinates rt w
                         (latitude farm) (longitude farm) O) ;;
     let risks := climate_risks w in
     let seasonal_key := _get_seasonal_key season in
     let seasonal_data := dict_lookup (seasonal weather_patterns) seasonal_key in
     Ok {| temperature_avg :=
             match seasonal_data with Some d => avg_temp d | None => 25 end;
           temperature_range :=
             match seasonal_data with Some d => extreme_temps_max d | None => 30 end
             - match seasonal_data with Some d => extreme_temps_min d | None => 20 end;
           annual_rainfall :=
             match total_annual_rainfall weather_patterns with
             | Some r => r
             | None => 1200
             end;
           rainfall_variability := _calculate_rainfall_variability weather_patterns;
           humidity_avg :=
             match seasonal_data with Some d => avg_humidity d | None => 70 end;
           soil_ph := ph_level soil_data;
           soil_organic_matter := organic_matter soil_data;
           soil_nitrogen := nitrogen soil_data;
           soil_phosphorus := phosphorus soil_data;
           soil_potassium := potassium soil_data;
           soil_texture_score := _texture_to_score (texture soil_data);
           drainage_score := _drainage_to_score (drainage soil_data);
           altitude := or_default (elevation farm) 1200;
           climate_risk_score := dict_get risks "overall_risk" 0.3 |})%result
    (fun _ => default_conditions).

(** [recommendations.sort(key=lambda x: x.compatibility_score,
    reverse=True)]: a stable sort into non-increasing order of the key.
    [insert_desc] puts a record before the first one whose key is not
    greater, so records with equal keys keep their order. *)
Fixpoint insert_desc (x : SeedCompatibility) (l : list SeedCompatibility)
  : list SeedCompatibility :=
  match l with
  | [] => [x]
  | y :: l' =>
      if Qltb (compatibility_score x) (compatibility_score y)
      then y :: insert_desc x l'
      else x :: y :: l'
  end.

Definition sort_desc (l : list SeedCompatibility) : list SeedCompatibility :=
  fold_right insert_desc [] l.

(** [generate_recommendations], over the method [analyze] that
    [self._analyze_seed_compatibility] dispatches to. *)
Definition generate_recommendations_body
           (analyze : Seed -> EnvironmentalConditions -> Farm ->
                      option (dict pyval) -> M Heap SeedCompatibility)
           (farm : Farm) (available_seeds : list Seed) (season : string)
           (year : Z) (preferences : option (dict pyval))
  : M Heap (list SeedCompatibility) :=
  (let env_conditions := _analyze_environmental_conditions farm season year in
   recommendations <-
     mfor (fun seed => analyze seed env_conditions farm preferences)
          available_seeds ;;
   let recommendations := sort_desc recommendations in
   mret (firstn 10 recommendations))%monad.

Definition generate_recommendations_with
           (analyze : Seed -> EnvironmentalConditions -> Farm ->
                      option (dict pyval) -> M Heap SeedCompatibility)
           (farm : Farm) (available_seeds : list Seed) (season : string)
           (year : Z) (preferences : option (dict pyval))
  : M Heap (list SeedCompatibility) :=
  mtry (generate_recommendations_body analyze farm available_seeds season year
                                      preferences)
       (fun _ => mret []).

(** [SeedRecommendationEngine.generate_recommendations] *)
Definition generate_recommendations
  : Farm -> list Seed -> string -> Z -> option (dict pyval) ->
    M Heap (list SeedCompatibility) :=
  generate_recommendations_with (_analyze_seed_compatibility rt).
End Pipeline.

(** ** The database session and the routes *)

Record User : Type := {
  User_id : Z;
  email : string
}.

(** A row of [SeedRecommendation], the columns [get_recommendations] sets. *)
Record SeedRecommendation : Type := {
  rec_farm_id : Z;
  rec_seed_id : Z;
  rec_season : string;
  rec_year : Z;
  suitability_score : Q;
  rec_climate_match_score : Q;
  rec_soil_match_score : Q;
  rec_risk_score : Q;
  rec_confidence_level : Q;
  expected_yield : Q;
  reasoning : list string
}.

(** Rows of [SoilProfile], [ClimateRecord] and [CropCycle], the columns
    the farm routes read.  A [DateTime] is the number of seconds it
    denotes.  [ClimateRecord.farm_id] may hold [None]. *)
Record SoilProfile : Type := {
  SoilProfile_id : Z;
  SoilProfile_farm_id : Z;
  test_date : Z
}.

Record ClimateRecord : Type := {
  ClimateRecord_id : Z;
  ClimateRecord_farm_id : option Z;
  record_date : Z;
  temp_avg : option Q;
  rainfall : option Q
}.

Record CropCycle : Type := {
  CropCycle_id : Z;
  CropCycle_farm_id : Z;
  cycle_season : string;
  cycle_year : Z;
  yield_achieved : option Q;
  total_cost : option Q;
  total_revenue : option Q;
  profit : option Q
}.

(** A SQLAlchemy session on the database: the committed tables, the
    [SeedRecommendation] objects added and not yet committed, and the
    tables queried so far (the last is not in the source; it records the
    reads). *)
Record Session : Type := {
  farms_table : list Farm;
  seeds_table : list Seed;
  seed_recommendations : list SeedRecommendation;
  soil_profiles : list SoilProfile;
  climate_records : list ClimateRecord;
  crop_cycles : list CropCycle;
  pending : list SeedRecommendation;
  queried : list string
}.

Definition db_query (table : string) (s : Session) : Session :=
  {| farms_table := farms_table s; seeds_table := seeds_table s;
     seed_recommendations := seed_recommendations s;
     soil_profiles := soil_profiles s; climate_records := climate_records s;
     crop_cycles := crop_cycles s;
     pending := pending s; queried := queried s ++ [table] |}.

Definition db_add (r : SeedRecommendation) (s : Session) : Session :=
  {| farms_table := farms_table s; seeds_table := seeds_table s;
     seed_recommendations := seed_recommendations s;
     soil_profiles := soil_profiles s; climate_records := climate_records s;
     crop_cycles := crop_cycles s;
     pending := pending s ++ [r]; queried := queried s |}.

Definition db_rollback (s : Session) : Session :=
  {| farms_table := farms_table s; seeds_table := seeds_table s;
     seed_recommendations := seed_recommendations s;
     soil_profiles := soil_profiles s; climate_records := climate_records s;
     crop_cycles := crop_cycles s;
     pending := []; queried := queried s |}.

Definition db_flush (s : Session) : Session :=
  {| farms_table := farms_table s; seeds_table := seeds_table s;
     seed_recommendations := seed_recommendations s ++ pending s;
     soil_profiles := soil_profiles s; climate_records := climate_records s;
     crop_cycles := crop_cycles s;
     pending := []; queried := queried s |}.

Definition set_farms (fs : list Farm) (s : Session) : Session :=
  {| farms_table := fs; seeds_table := seeds_table s;
     seed_recommendations := seed_recommendations s;
     soil_profiles := soil_profiles s; climate_records := climate_records s;
     crop_cycles := crop_cycles s;
     pending := pending s; queried := queried s |}.

(** [db.add(row); db.commit(); db.refresh(row)] on the three tables of
    rows that belong to a farm. *)
Definition set_soil_profiles (rows : list SoilProfile) (s : Session) : Session :=
  {| farms_table := farms_table s; seeds_table := seeds_table s;
     seed_recommendations := seed_recommendations s;
     soil_profiles := rows; climate_records := climate_records s;
     crop_cycles := crop_cycles s;
     pending := pending s; queried := queried s |}.

Definition set_climate_records (rows : list ClimateRecord) (s : Session)
  : Session :=
  {| farms_table := farms_table s; seeds_table := seeds_table s;
     seed_recommendations := seed_recommendations s;
     soil_profiles := soil_profiles s; climate_records := rows;
     crop_cycles := crop_cycles s;
     pending := pending s; queried := queried s |}.

Definition set_crop_cycles (rows : list CropCycle) (s : Session) : Session :=
  {| farms_table := farms_table s; seeds_table := seeds_table s;
     seed_recommendations := seed_recommendations s;
     soil_profiles := soil_profiles s; climate_records := climate_records s;
     crop_cycles := rows;
     pending := pending s; queried := queried s |}.

(** What the database does when asked: a query or a commit may raise. *)
Record Faults : Type := {
  seed_query_raises : bool;
  commit_raises : bool
}.

(** The state a request runs in: its session and the module-level
    engine. *)
Record App : Type := {
  db : Session;
  recommendation_engine : Heap
}.

Definition on_db (f : Session -> Session) (a : App) : App :=
  {| db := f (db a); recommendation_engine := recommendation_engine a |}.

(** Running an engine method inside a request. *)
Definition on_engine {A} (c : M Heap A) : M App A :=
  fun a =>
    let '(r, h) := c (recommendation_engine a) in
    (r, {| db := db a; recommendation_engine := h |}).

(** Running a session operation inside a request. *)
Definition on_session {A} (c : M Session A) : M App A :=
  fun a =>
    let '(r, s) := c (db a) in
    (r, {| db := s; recommendation_engine := recommendation_engine a |}).

(** [db.query(Farm).filter(Farm.id == farm_id,
    Farm.owner_id == current_user.id).first()] *)
Definition owned_farm (farm_id : Z) (current_user : User)
  : M Session (option Farm) :=
  (mmodify (db_query "farms") ;;;
   fs <- mgets farms_table ;;
   mret (find (fun f => Z.eqb (Farm_id f) farm_id
                        && Z.eqb (owner_id f) (User_id current_user)) fs))%monad.

Record RecommendationRequest : Type := {
  req_farm_id : Z;
  req_season : string;
  req_year : Z;
  preferred_crops : option (list string);
  budget_constraint : option Q;
  risk_tolerance : option Q;
  market_preference : option string;
  include_experimental : bool
}.

(** One entry of the list [get_recommendations] returns. *)
Record RecommendationEntry : Type := {
  entry_id : Z;
  entry_seed_id : Z;
  entry_seed_name : string;
  entry_crop_type : string;
  entry_suitability_score : Q;
  entry_market_potential_score : Q;
  entry_expected_yield : Q;
  entry_seed_rate : Q
}.

Definition opt_float (o : option Q) : pyval :=
  match o with Some q => PFloat q | None => PNone end.

Definition opt_string (o : option string) : pyval :=
  match o with Some s => PStr s | None => PNone end.

(** The [preferences] dictionary [get_recommendations] builds. *)
Definition request_preferences (request : RecommendationRequest) : dict pyval :=
  [("budget_constraint", opt_float (budget_constraint request));
   ("risk_tolerance", opt_float (risk_tolerance request));
   ("market_preference", opt_string (market_preference request));
   ("include_experimental", PBool (include_experimental request))]%string.

Section Recommendations.
Variable rt : Runtime.
Variable w : World.
Variable faults : Faults.

(** [db.commit()] *)
Definition db_commit : M App unit :=
  if commit_raises faults then mraise SQLAlchemyError
  else mmodify (on_db db_flush).

(** The seed query of [get_recommendations]. *)
Definition available_seeds_query (request : RecommendationRequest)
  : M App (list Seed) :=
  (mmodify (on_db (db_query "seeds")) ;;;
   if seed_query_raises faults then mraise SQLAlchemyError
   else
     ss <- mgets (fun a => seeds_table (db a)) ;;
     let available :=
       filter (fun s => match is_available s with
                        | Some true => true
                        | _ => false
                        end) ss in
     mret (match preferred_crops request with
           | None | Some [] => available
           | Some crops =>
               filter (fun s => existsb (String.eqb (crop_type s)) crops) available
           end))%monad.

Definition recommendation_row (request : RecommendationRequest)
           (rec : SeedCompatibility) : SeedRecommendation :=
  {| rec_farm_id := req_farm_id request;
     rec_seed_id := seed_id rec;
     rec_season := req_season request;
     rec_year := req_year request;
     suitability_score := compatibility_score rec;
     rec_climate_match_score := climate_match_score rec;
     rec_soil_match_score := soil_match_score rec;
     rec_risk_score := risk_score rec;
     rec_confidence_level := confidence_level rec;
     expected_yield := yield_prediction rec;
     reasoning := reasons rec |}.

Definition recommendation_entry (seed : Seed) (rec : SeedCompatibility)
  : RecommendationEntry :=
  {| entry_id := 0;
     entry_seed_id := seed_id rec;
     entry_seed_name := variety_name seed;
     entry_crop_type := crop_type seed;
     entry_suitability_score := compatibility_score rec;
     entry_market_potential_score := 0.7;
     entry_expected_yield := yield_prediction rec;
     entry_seed_rate :=
       if truthy (yield_potential seed)
       then or_default (yield_potential seed) 0 * 0.1 else 25 |}.

(** The body of the loop that saves one recommendation. *)
Definition save_recommendation (request : RecommendationRequest)
           (available_seeds : list Seed) (rec : SeedCompatibility)
  : M App RecommendationEntry :=
  match find (fun s => Z.eqb (Seed_id s) (seed_id rec)) available_seeds with
  | None => mraise StopIteration
  | Some seed =>
      (mmodify (on_db (db_add (recommendation_row request rec))) ;;;
       mret (recommendation_entry seed rec))%monad
  end.

(** The [try] block of [get_recommendations]. *)
Definition get_recommendations_body (request : RecommendationRequest) (farm : Farm)
  : M App (list RecommendationEntry) :=
  (available_seeds <- available_seeds_query request ;;
   match available_seeds with
   | [] => mraise (HTTPException 404)
   | _ =>
       let preferences := request_preferences request in
       recommendations <-
         on_engine (generate_recommendations rt w farm available_seeds
                      (req_season request) (req_year request) (Some preferences)) ;;
       db_recommendations <-
         mfor (save_recommendation request available_seeds) recommendations ;;
       db_commit ;;;
       mret db_recommendations
   end)%monad.

(** The function [get_recommendations] of [api/recommendations.py], on the
    request body and the current user. *)
Definition get_recommendations (request : RecommendationRequest)
           (current_user : User) : M App (list RecommendationEntry) :=
  (farm <- on_session (owned_farm (req_farm_id request) current_user) ;;
   match farm with
   | None => mraise (HTTPException 404)
   | Some farm =>
       mtry (get_recommendations_body request farm)
            (fun _ => mmodify (on_db db_rollback) ;;;
                      mraise (HTTPException 500))
   end)%monad.
End Recommendations.

(** ** Routes and their dependencies *)









(** The body of a farm, as [FarmCreate] carries it. *)
Record FarmCreate : Type := {
  new_farm_name : string;
  new_latitude : Q;
  new_longitude : Q;
  new_elevation : option Q;
  new_total_area : Q;
  new_cultivated_area : Q
}.

(** The bodies of the rows of a farm, the fields the handlers read. *)
Record SoilProfileCreate : Type := {
  soil_profile_farm_id : Z;
  new_test_date : Z
}.

Record ClimateRecordCreate : Type := {
  climate_record_farm_id : option Z;
  new_record_date : Z;
  new_temp_avg : option Q;
  new_rainfall : option Q
}.

Record CropCycleCreate : Type := {
  crop_cycle_farm_id : Z;
  new_season : string;
  new_year : Z;
  new_yield_achieved : option Q;
  new_total_cost : option Q;
  new_total_revenue : option Q
}.

(** The fields of the four payload models of [models/pydantic_models.py],
    which are the keys of [payload.dict()]. *)
Definition FarmCreate_fields : list string :=
  ["farm_name"; "latitude"; "longitude"; "elevation"; "district";
   "sub_county"; "village"; "total_area"; "cultivated_area";
   "irrigation_available"; "irrigation_type"; "storage_capacity";
   "market_distance"; "road_access"]%string.

Definition SoilProfileCreate_fields : list string :=
  ["ph_level"; "organic_matter"; "nitrogen"; "phosphorus"; "potassium";
   "soil_texture"; "drainage"; "depth"; "salinity"; "test_date";
   "testing_method"; "lab_name"; "farm_id"]%string.

Definition ClimateRecordCreate_fields : list string :=
  ["record_date"; "data_source"; "temp_min"; "temp_max"; "temp_avg";
   "rainfall"; "humidity"; "wind_speed"; "solar_radiation";
   "evapotranspiration"; "drought_index"; "flood_risk"; "frost_occurrence";
   "farm_id"]%string.

Definition CropCycleCreate_fields : list string :=
  ["seed_id"; "season"; "year"; "planting_date"; "harvest_date";
   "area_planted"; "yield_achieved"; "total_production"; "seeds_used";
   "labor_hours"; "total_cost"; "total_revenue"; "germination_rate";
   "survival_rate"; "irrigation_used"; "grain_quality"; "market_grade";
   "notes"; "farm_id"; "fertilizer_used"; "pesticide_used";
   "disease_incidence"; "pest_incidence"; "weather_events"]%string.

(** [Model( **payload.dict(), name=value)].  Python raises [TypeError]
    ("got multiple values for keyword argument") when the dictionary of
    the payload has the key [name] already. *)
Definition keyword_call {A} (payload_fields : list string) (name : string)
           (row : A) : result A :=
  if existsb (String.eqb name) payload_fields then Raise TypeError else Ok row.

(** [query.order_by(...)]: the rows in the order of [before], each row
    in front of the rows that do not go before it.  Rows that compare
    equal keep the order of the table (the database may return them in
    any order). *)
Fixpoint insert_by {A} (before : A -> A -> bool) (x : A) (l : list A) : list A :=
  match l with
  | [] => [x]
  | y :: l' => if before y x then y :: insert_by before x l' else x :: y :: l'
  end.

Definition order_by {A} (before : A -> A -> bool) (l : list A) : list A :=
  fold_right (insert_by before) [] l.

(** [SoilProfile.test_date.desc()] *)
Definition test_date_desc (a b : SoilProfile) : bool :=
  Z.ltb (test_date b) (test_date a).

(** [ClimateRecord.record_date.desc()] *)
Definition record_date_desc (a b : ClimateRecord) : bool :=
  Z.ltb (record_date b) (record_date a).

(** [CropCycle.year.desc(), CropCycle.season.desc()] *)
Definition year_season_desc (a b : CropCycle) : bool :=
  Z.ltb (cycle_year b) (cycle_year a)
  || (Z.eqb (cycle_year b) (cycle_year a)
      && String.ltb (cycle_season b) (cycle_season a)).

Definition of_farm (farm_id : Z) (row_farm_id : Z) : bool :=
  Z.eqb row_farm_id farm_id.

(** [ClimateRecord.farm_id == farm_id], false on a row without farm. *)
Definition climate_of_farm (farm_id : Z) (r : ClimateRecord) : bool :=
  match ClimateRecord_farm_id r with
  | Some i => Z.eqb i farm_id
  | None => false
  end.

(** The dictionary [get_farm_dashboard] returns. *)
Record FarmDashboard : Type := {
  dashboard_farm : Farm;
  total_cycles : nat;
  average_yield : Q;
  total_profit : Q;
  dashboard_cultivated_area : Q;
  utilization_rate : Q;
  latest_soil_profile : option SoilProfile;
  recent_crop_cycles : list CropCycle;
  records_count : nat;
  avg_temperature : option Q;
  dashboard_total_rainfall : option Q
}.

(** A request on one of the routes of [api/farms.py], with the path and
    body parameters of its handler. *)
Inductive FarmRequest : Type :=
| CreateFarm (farm : FarmCreate)
| GetMyFarms
| GetFarm (farm_id : Z)
| UpdateFarm (farm_id : Z) (farm_update : FarmCreate)
| DeleteFarm (farm_id : Z)
| CreateSoilProfile (farm_id : Z) (soil_profile : SoilProfileCreate)
| GetSoilProfiles (farm_id : Z)
| CreateClimateRecord (farm_id : Z) (climate_record : ClimateRecordCreate)
| GetClimateRecords (farm_id : Z) (limit : nat)
| CreateCropCycle (farm_id : Z) (crop_cycle : CropCycleCreate)
| GetCropCycles (farm_id : Z) (season : option string) (year : option Z)
| GetFarmDashboard (farm_id : Z).

(** What the handlers return. *)
Inductive FarmResponse : Type :=
| FarmRow (f : Farm)
| FarmRows (fs : list Farm)
| FarmDeleted
| SoilProfileRow (r : SoilProfile)
| SoilProfileRows (rs : list SoilProfile)
| ClimateRecordRow (r : ClimateRecord)
| ClimateRecordRows (rs : list ClimateRecord)
| CropCycleRow (r : CropCycle)
| CropCycleRows (rs : list CropCycle)
| Dashboard (d : FarmDashboard).



Section Routes.
(** What validating a bearer token gives: the user it was issued to, or
    nothing for a token that is not valid. *)
Variable decode : string -> option User.

(** Python's [round(x, ndigits)] on floats, which the rationals of this
    file do not model. *)
Variable round : Q -> Z -> Q.




Definition fresh_id (ids : list Z) : Z := 1 + fold_right Z.max 0%Z ids.

Definition fresh_farm_id (fs : list Farm) : Z := fresh_id (map Farm_id fs).

Definition create_farm (farm : FarmCreate) (current_user : User) : M Session Farm :=
  (fs <- mgets farms_table ;;
   db_farm <-
     mlift (keyword_call FarmCreate_fields "owner_id"
              {| Farm_id := fresh_farm_id fs; owner_id := User_id current_user;
                 farm_name := new_farm_name farm; latitude := new_latitude farm;
                 longitude := new_longitude farm;
                 elevation := new_elevation farm;
                 total_area := new_total_area farm;
                 cultivated_area := new_cultivated_area farm |}) ;;
   mmodify (set_farms (fs ++ [db_farm])) ;;;
   mret db_farm)%monad.

Definition get_my_farms (current_user : User) : M Session (list Farm) :=
  (mmodify (db_query "farms") ;;;
   fs <- mgets farms_table ;;
   mret (filter (fun f => Z.eqb (owner_id f) (User_id current_user)) fs))%monad.

Definition get_farm (farm_id : Z) (current_user : User) : M Session Farm :=
  (farm <- owned_farm farm_id current_user ;;
   match farm with
   | None => mraise (HTTPException 404)
   | Some farm => mret farm
   end)%monad.

Definition update_farm (farm_id : Z) (farm_update : FarmCreate)
           (current_user : User) : M Session Farm :=
  (db_farm <- owned_farm farm_id current_user ;;
   match db_farm with
   | None => mraise (HTTPException 404)
   | Some db_farm =>
       let updated :=
         {| Farm_id := Farm_id db_farm; owner_id := owner_id db_farm;
            farm_name := new_farm_name farm_update;
            latitude := new_latitude farm_update;
            longitude := new_longitude farm_update;
            elevation := new_elevation farm_update;
            total_area := new_total_area farm_update;
            cultivated_area := new_cultivated_area farm_update |} in
       fs <- mgets farms_table ;;
       mmodify (set_farms
                  (map (fun f => if Z.eqb (Farm_id f) (Farm_id db_farm)
                                 then updated else f) fs)) ;;;
       mret updated
   end)%monad.

Definition delete_farm (farm_id : Z) (current_user : User) : M Session unit :=
  (db_farm <- owned_farm farm_id current_user ;;
   match db_farm with
   | None => mraise (HTTPException 404)
   | Some db_farm =>
       fs <- mgets farms_table ;;
       mmodify (set_farms
                  (filter (fun f => negb (Z.eqb (Farm_id f) (Farm_id db_farm))) fs))
   end)%monad.

(** [create_soil_profile].  [SoilProfileCreate] has a field [farm_id], so
    the call [SoilProfile( **soil_profile.dict(), farm_id=farm_id)] is
    given the keyword twice. *)
Definition create_soil_profile (farm_id : Z) (soil_profile : SoilProfileCreate)
           (current_user : User) : M Session SoilProfile :=
  (farm <- owned_farm farm_id current_user ;;
   match farm with
   | None => mraise (HTTPException 404)
   | Some _ =>
       rows <- mgets soil_profiles ;;
       db_soil_profile <-
         mlift (keyword_call SoilProfileCreate_fields "farm_id"
                  {| SoilProfile_id := fresh_id (map SoilProfile_id rows);
                     SoilProfile_farm_id := farm_id;
                     test_date := new_test_date soil_profile |}) ;;
       mmodify (set_soil_profiles (rows ++ [db_soil_profile])) ;;;
       mret db_soil_profile
   end)%monad.

Definition get_soil_profiles (farm_id : Z) (current_user : User)
  : M Session (list SoilProfile) :=
  (farm <- owned_farm farm_id current_user ;;
   match farm with
   | None => mraise (HTTPException 404)
   | Some _ =>
       mmodify (db_query "soil_profiles") ;;;
       rows <- mgets soil_profiles ;;
       mret (filter (fun r => of_farm farm_id (SoilProfile_farm_id r)) rows)
   end)%monad.

(** [create_climate_record]; [ClimateRecordCreate] has a field [farm_id]
    too. *)
Definition create_climate_record (farm_id : Z)
           (climate_record : ClimateRecordCreate) (current_user : User)
  : M Session ClimateRecord :=
  (farm <- owned_farm farm_id current_user ;;
   match farm with
   | None => mraise (HTTPException 404)
   | Some _ =>
       rows <- mgets climate_records ;;
       db_climate_record <-
         mlift (keyword_call ClimateRecordCreate_fields "farm_id"
                  {| ClimateRecord_id := fresh_id (map ClimateRecord_id rows);
                     ClimateRecord_farm_id := Some farm_id;
                     record_date := new_record_date climate_record;
                     temp_avg := new_temp_avg climate_record;
                     rainfall := new_rainfall climate_record |}) ;;
       mmodify (set_climate_records (rows ++ [db_climate_record])) ;;;
       mret db_climate_record
   end)%monad.

Definition get_climate_records (farm_id : Z) (limit : nat) (current_user : User)
  : M Session (list ClimateRecord) :=
  (farm <- owned_farm farm_id current_user ;;
   match farm with
   | None => mraise (HTTPException 404)
   | Some _ =>
       mmodify (db_query "climate_records") ;;;
       rows <- mgets climate_records ;;
       mret (firstn limit
               (order_by record_date_desc
                  (filter (climate_of_farm farm_id) rows)))
   end)%monad.

(** [create_crop_cycle]; [CropCycleCreate] has a field [farm_id] too. *)
Definition create_crop_cycle (farm_id : Z) (crop_cycle : CropCycleCreate)
           (current_user : User) : M Session CropCycle :=
  (farm <- owned_farm farm_id current_user ;;
   match farm with
   | None => mraise (HTTPException 404)
   | Some _ =>
       rows <- mgets crop_cycles ;;
       db_crop_cycle <-
         mlift (keyword_call CropCycleCreate_fields "farm_id"
                  {| CropCycle_id := fresh_id (map CropCycle_id rows);
                     CropCycle_farm_id := farm_id;
                     cycle_season := new_season crop_cycle;
                     cycle_year := new_year crop_cycle;
                     yield_achieved := new_yield_achieved crop_cycle;
                     total_cost := new_total_cost crop_cycle;
                     total_revenue := new_total_revenue crop_cycle;
                     profit := None |}) ;;
       let db_crop_cycle :=
         if truthy (total_cost db_crop_cycle)
            && truthy (total_revenue db_crop_cycle)
         then {| CropCycle_id := CropCycle_id db_crop_cycle;
                 CropCycle_farm_id := CropCycle_farm_id db_crop_cycle;
                 cycle_season := cycle_season db_crop_cycle;
                 cycle_year := cycle_year db_crop_cycle;
                 yield_achieved := yield_achieved db_crop_cycle;
                 total_cost := total_cost db_crop_cycle;
                 total_revenue := total_revenue db_crop_cycle;
                 profit := Some (or_default (total_revenue db_crop_cycle) 0
                                 - or_default (total_cost db_crop_cycle) 0) |}
         else db_crop_cycle in
       mmodify (set_crop_cycles (rows ++ [db_crop_cycle])) ;;;
       mret db_crop_cycle
   end)%monad.

Definition get_crop_cycles (farm_id : Z) (season : option string)
           (year : option Z) (current_user : User)
  : M Session (list CropCycle) :=
  (farm <- owned_farm farm_id current_user ;;
   match farm with
   | None => mraise (HTTPException 404)
   | Some _ =>
       mmodify (db_query "crop_cycles") ;;;
       rows <- mgets crop_cycles ;;
       let query := filter (fun r => of_farm farm_id (CropCycle_farm_id r)) rows in
       let query :=
         match season with
         | Some s => if String.eqb s "" then query
                     else filter (fun r => String.eqb (cycle_season r) s) query
         | None => query
         end in
       let query :=
         match year with
         | Some y => if Z.eqb y 0 then query
                     else filter (fun r => Z.eqb (cycle_year r) y) query
         | None => query
         end in
       mret (order_by year_season_desc query)
   end)%monad.

Definition get_farm_dashboard (farm_id : Z) (current_user : User)
  : M Session FarmDashboard :=
  (farm <- owned_farm farm_id current_user ;;
   match farm with
   | None => mraise (HTTPException 404)
   | Some farm =>
       mmodify (db_query "crop_cycles") ;;;
       cycles <- mgets crop_cycles ;;
       let recent_cycles :=
         firstn 5 (order_by year_season_desc
                     (filter (fun r => of_farm farm_id (CropCycle_farm_id r))
                             cycles)) in
       let total_cycles := List.length recent_cycles in
       let avg_yield :=
         if Nat.ltb 0 total_cycles
         then Qsum (map (fun c => or_default (yield_achieved c) 0) recent_cycles)
              / inject_Z (Z.of_nat total_cycles)
         else 0 in
       let total_profit :=
         Qsum (map (fun c => or_default (profit c) 0) recent_cycles) in
       mmodify (db_query "soil_profiles") ;;;
       soils <- mgets soil_profiles ;;
       let latest_soil :=
         hd_error (order_by test_date_desc
                     (filter (fun r => of_farm farm_id (SoilProfile_farm_id r))
                             soils)) in
       mmodify (db_query "climate_records") ;;;
       records <- mgets climate_records ;;
       let recent_climate :=
         firstn 30 (order_by record_date_desc
                      (filter (climate_of_farm farm_id) records)) in
       utilization <- mlift (py_div (cultivated_area farm) (total_area farm)) ;;
       mret {| dashboard_farm := farm;
               total_cycles := total_cycles;
               average_yield := round avg_yield 2;
               total_profit := round total_profit 2;
               dashboard_cultivated_area := cultivated_area farm;
               utilization_rate := round (utilization * 100) 1;
               latest_soil_profile := latest_soil;
               recent_crop_cycles := recent_cycles;
               records_count := List.length recent_climate;
               avg_temperature :=
                 match recent_climate with
                 | [] => None
                 | _ :: _ =>
                     Some (round
                             (Qsum (map (fun c => or_default (temp_avg c) 0)
                                        recent_climate)
                              / inject_Z (Z.of_nat (List.length recent_climate)))
                             1)
                 end;
               dashboard_total_rainfall :=
                 match recent_climate with
                 | [] => None
                 | _ :: _ =>
                     Some (round
                             (Qsum (map (fun c => or_default (rainfall c) 0)
                                        recent_climate))
                             1)
                 end |}
   end)%monad.

(** The handler of a request of [api/farms.py]. *)
Definition farm_handler (q : FarmRequest) (current_user : User)
  : M Session FarmResponse :=
  match q with
  | CreateFarm farm =>
      (r <- create_farm farm current_user ;; mret (FarmRow r))%monad
  | GetMyFarms =>
      (rs <- get_my_farms current_user ;; mret (FarmRows rs))%monad
  | GetFarm farm_id =>
      (r <- get_farm farm_id current_user ;; mret (FarmRow r))%monad
  | UpdateFarm farm_id farm_update =>
      (r <- update_farm farm_id farm_update current_user ;;
       mret (FarmRow r))%monad
  | DeleteFarm farm_id =>
      (delete_farm farm_id current_user ;;; mret FarmDeleted)%monad
  | CreateSoilProfile farm_id soil_profile =>
      (r <- create_soil_profile farm_id soil_profile current_user ;;
       mret (SoilProfileRow r))%monad
  | GetSoilProfiles farm_id =>
      (rs <- get_soil_profiles farm_id current_user ;;
       mret (SoilProfileRows rs))%monad
  | CreateClimateRecord farm_id climate_record =>
      (r <- create_climate_record farm_id climate_record current_user ;;
       mret (ClimateRecordRow r))%monad
  | GetClimateRecords farm_id limit =>
      (rs <- get_climate_records farm_id limit current_user ;;
       mret (ClimateRecordRows rs))%monad
  | CreateCropCycle farm_id crop_cycle =>
      (r <- create_crop_cycle farm_id crop_cycle current_user ;;
       mret (CropCycleRow r))%monad
  | GetCropCycles farm_id season year =>
      (rs <- get_crop_cycles farm_id season year current_user ;;
       mret (CropCycleRows rs))%monad
  | GetFarmDashboard farm_id =>
      (d <- get_farm_dashboard farm_id current_user ;; mret (Dashboard d))%monad
  end.


End Routes.

(** ** Predicates of the statements *)

(** The order of the returned list: a record is followed only by
    records whose score is not greater. *)
Definition ranked (a b : SeedCompatibility) : Prop :=
  compatibility_score b <= compatibility_score a.

(** The field bounds of a compatibility record. *)
Definition within_bounds (r : SeedCompatibility) : Prop :=
  0 <= compatibility_score r <= 1
  /\ 0 <= risk_score r <= 1
  /\ 0.3 <= confidence_level r <= 1.

(** A farm of the user. *)
Definition owned_by (u : User) (f : Farm) : bool :=
  Z.eqb (owner_id f) (User_id u).

(** The farms of the other users. *)
Definition foreign_farms (u : User) (s : Session) : list Farm :=
  filter (fun f => negb (owned_by u f)) (farms_table s).



(** What a request of the user leaves as it was: the farms of the other
    users, and every other table. *)
Definition others_untouched (u : User) (s s' : Session) : Prop :=
  foreign_farms u s' = foreign_farms u s
  /\ seeds_table s' = seeds_table s
  /\ seed_recommendations s' = seed_recommendations s
  /\ soil_profiles s' = soil_profiles s
  /\ climate_records s' = climate_records s
  /\ crop_cycles s' = crop_cycles s
  /\ pending s' = pending s.

(** A computation on the engine that leaves the heap as it found it and
    whose result depends on the engine object only, not on the calls
    logged so far. *)
Definition reads_only_self {A} (m : M Heap A) : Prop :=
  forall h,
    snd (m h) = h
    /\ forall h', self h' = self h -> fst (m h') = fst (m h).

(** [r] is the record the engine's own [_analyze_seed_compatibility]
    returns for [seed] on the engine of [h]. *)
Definition analysis_of (rt : Runtime) (env : EnvironmentalConditions)
           (farm : Farm) (prefs : option (dict pyval)) (h : Heap)
           (seed : Seed) (r : SeedCompatibility) : Prop :=
  fst (_analyze_seed_compatibility rt seed env farm prefs h) = Ok r.

(** Two worlds in which one call gets the same answers: the same
    weather patterns and climate risks, the same SoilGrids replies for
    the eight properties the soil service asks for, and the same first
    twelve values of the random generator (the soil service draws two
    when SoilGrids answers and ten when it makes up its data). *)
Definition same_answers (w1 w2 : World) : Prop :=
  seasonal_patterns w1 = seasonal_patterns w2
  /\ climate_risks w1 = climate_risks w2
  /\ (forall prop, In prop soilgrids_properties ->
                   soilgrids w1 prop = soilgrids w2 prop)
  /\ (forall i, (i < 12)%nat -> random_draws w1 i = random_draws w2 i).

(** ** Sample inputs *)

(** An interpreter with every ML package installed. *)
Definition rt_ml : Runtime :=
  {| ML_AVAILABLE := true; HAS_NUMPY := true; np_std := fun _ => 0 |}.

(** An interpreter without numpy. *)
Definition rt_fallback : Runtime :=
  {| ML_AVAILABLE := false; HAS_NUMPY := false; np_std := fun _ => 0 |}.

(** The first sample variety of [init_sample_data]. *)
Definition longe_10h : Seed :=
  {| Seed_id := 1; variety_name := "Longe 10H"; crop_type := "maize";
     maturity_days := 120; yield_potential := Some 6.5;
     drought_tolerance := Some 0.7; flood_tolerance := Some 0.4;
     heat_tolerance := Some 0.6; cold_tolerance := Some 0.5;
     preferred_ph_min := Some 5.8; preferred_ph_max := Some 7;
     nitrogen_requirement := Some "medium"%string;
     phosphorus_requirement := Some "medium"%string;
     potassium_requirement := Some "medium"%string;
     min_rainfall := Some 500; max_rainfall := Some 1200;
     optimal_temp_min := Some 18; optimal_temp_max := Some 30;
     altitude_min := Some 1000; altitude_max := Some 2100;
     market_demand := None; is_available := Some true |}.

(** The same variety with no yield potential recorded. *)
Definition unrated_variety : Seed :=
  {| Seed_id := 2; variety_name := "Local landrace"; crop_type := "maize";
     maturity_days := 120; yield_potential := None;
     drought_tolerance := Some 0.7; flood_tolerance := Some 0.4;
     heat_tolerance := Some 0.6; cold_tolerance := Some 0.5;
     preferred_ph_min := Some 5.8; preferred_ph_max := Some 7;
     nitrogen_requirement := Some "medium"%string;
     phosphorus_requirement := Some "medium"%string;
     potassium_requirement := Some "medium"%string;
     min_rainfall := Some 500; max_rainfall := Some 1200;
     optimal_temp_min := Some 18; optimal_temp_max := Some 30;
     altitude_min := Some 1000; altitude_max := Some 2100;
     market_demand := None; is_available := Some true |}.

Definition kampala_farm : Farm :=
  {| Farm_id := 1; owner_id := 7; farm_name := "Kampala plot";
     latitude := 0.3; longitude := 32.6; elevation := Some 1200;
     total_area := 4; cultivated_area := 3 |}.

Definition fresh_heap (rt : Runtime) : Heap :=
  {| self := __init__ rt; analysis_calls := [] |}.

(** An engine whose weight table lost its entries. *)
Definition broken_heap : Heap :=
  {| self := {| models := []; scalers := []; is_trained := false;
                use_fallback := true; feature_weights := [] |};
     analysis_calls := [] |}.

(** A method that raises on every seed, for the [except] branch of
    [generate_recommendations]. *)
Definition failing_analysis
  : Seed -> EnvironmentalConditions -> Farm -> option (dict pyval) ->
    M Heap SeedCompatibility :=
  fun _ _ _ _ => mraise TypeError.

(** The risks [calculate_climate_risks] returns for an empty list
    of projections. *)
Definition no_projection_risks : dict Q :=
  [("drought_risk", 0); ("flood_risk", 0); ("temperature_stress_risk", 0);
   ("rainfall_variability_risk", 0); ("overall_risk", 0)]%string.

(** A world in which the weather service answers with the empty
    dictionary, every SoilGrids request fails and the random generator
    yields 0 each time. *)
Definition quiet_world : World :=
  {| seasonal_patterns :=
       {| monthly := []; seasonal := []; total_annual_rainfall := None |};
     climate_risks := no_projection_risks;
     soilgrids := fun _ => RequestRaises;
     random_draws := fun _ => 0 |}.

(** The same world, except that the random generator yields [1/2] each
    time. *)
Definition other_world : World :=
  {| seasonal_patterns :=
       {| monthly := []; seasonal := []; total_annual_rainfall := None |};
     climate_risks := no_projection_risks;
     soilgrids := fun _ => RequestRaises;
     random_draws := fun _ => 0.5 |}.

(** A world that gives a call the answers of [quiet_world] and differs
    from it elsewhere: in the later values of the random generator and in
    the SoilGrids replies no call asks for. *)
Definition noisy_world : World :=
  {| seasonal_patterns :=
       {| monthly := []; seasonal := []; total_annual_rainfall := None |};
     climate_risks := no_projection_risks;
     soilgrids := fun prop =>
                    if existsb (String.eqb prop) soilgrids_properties
                    then RequestRaises else Status200 (Some 1);
     random_draws := fun i => if (i <? 12)%nat then 0 else 1 |}.

Definition sample_user : User := {| User_id := 7; email := "farmer@example.org" |}.

Definition other_farm : Farm :=
  {| Farm_id := 2; owner_id := 8; farm_name := "Gulu plot";
     latitude := 2.8; longitude := 32.3; elevation := None;
     total_area := 10; cultivated_area := 6 |}.

Definition kampala_soil : SoilProfile :=
  {| SoilProfile_id := 1; SoilProfile_farm_id := 1; test_date := 1700000000 |}.

Definition gulu_soil : SoilProfile :=
  {| SoilProfile_id := 2; SoilProfile_farm_id := 2; test_date := 1710000000 |}.

Definition kampala_climate : ClimateRecord :=
  {| ClimateRecord_id := 1; ClimateRecord_farm_id := Some 1%Z;
     record_date := 1705000000; temp_avg := Some 24; rainfall := Some 12 |}.

Definition kampala_cycle : CropCycle :=
  {| CropCycle_id := 1; CropCycle_farm_id := 1; cycle_season := "A";
     cycle_year := 2024; yield_achieved := Some 4; total_cost := Some 100;
     total_revenue := Some 250; profit := Some 150 |}.

Definition gulu_cycle : CropCycle :=
  {| CropCycle_id := 2; CropCycle_farm_id := 2; cycle_season := "B";
     cycle_year := 2024; yield_achieved := None; total_cost := None;
     total_revenue := None; profit := None |}.

Definition sample_session : Session :=
  {| farms_table := [kampala_farm; other_farm];
     seeds_table := [longe_10h; unrated_variety];
     seed_recommendations := [];
     soil_profiles := [kampala_soil; gulu_soil];
     climate_records := [kampala_climate];
     crop_cycles := [kampala_cycle; gulu_cycle];
     pending := []; queried := [] |}.

Definition sample_app : App :=
  {| db := sample_session; recommendation_engine := fresh_heap rt_ml |}.

Definition sample_request : RecommendationRequest :=
  {| req_farm_id := 1; req_season := "A"; req_year := 2025;
     preferred_crops := None; budget_constraint := None;
     risk_tolerance := Some 0.5; market_preference := Some "local"%string;
     include_experimental := false |}.

Definition no_faults : Faults :=
  {| seed_query_raises := false; commit_raises := false |}.

Definition commit_fault : Faults :=
  {| seed_query_raises := false; commit_raises := true |}.




(** ** Further predicates and services *)

(** A bound of a seed range that is absent or not negative. *)
Definition bound_ok (o : option Q) : Prop :=
  match o with
  | Some q => 0 <= q
  | None => True
  end.

(** A tolerance that is absent or on the 0-1 scale. *)
Definition tolerance_ok (o : option Q) : Prop :=
  match o with
  | Some q => 0 <= q <= 1
  | None => True
  end.

Definition unit_interval (x : Q) : Prop := 0 <= x <= 1.

(** What [load_models] finds when the model directory has no file: every
    model and scaler stays the one the engine has. *)
Definition nothing_on_disk (e : SeedRecommendationEngine)
  : result (dict Estimator * dict Scaler) :=
  Ok (models e, scalers e).

Definition scored (k : Q) (r : SeedCompatibility) : bool :=
  Qeq_bool (compatibility_score r) k.

Definition texture_names : list string :=
  map (fun c => let '(name, _, _, _) := c in name) texture_classes.

Definition drainage_levels : list string :=
  ["poor"; "fair"; "good"; "excellent"]%string.

(** ** Soil suitability ([soil_service.py]) *)

Module SoilAnalysis.

(** One entry of [crop_requirements].  [ph_range_text] is the text the
    f-strings print for the two bounds, ["{ph_min}-{ph_max}"]. *)
Record CropRequirements : Type := {
  ph_range : Q * Q;
  ph_range_text : string;
  organic_matter_min : Q;
  nitrogen_level : string;
  phosphorus_level : string;
  potassium_level : string;
  preferred_textures : list string;
  preferred_drainage : list string;
  depth_min : Q
}.

Definition crop_requirements : dict CropRequirements :=
  [("maize",
    {| ph_range := (5.8, 7); ph_range_text := "5.8-7.0";
       organic_matter_min := 2;
       nitrogen_level := "medium"; phosphorus_level := "medium";
       potassium_level := "medium";
       preferred_textures := ["loam"; "clay_loam"; "silt_loam"];
       preferred_drainage := ["good"; "excellent"]; depth_min := 50 |});
   ("beans",
    {| ph_range := (6, 7.5); ph_range_text := "6.0-7.5";
       organic_matter_min := 2.5;
       nitrogen_level := "low"; phosphorus_level := "high";
       potassium_level := "medium";
       preferred_textures := ["loam"; "sandy_loam"; "clay_loam"];
       preferred_drainage := ["good"; "excellent"]; depth_min := 40 |});
   ("cassava",
    {| ph_range := (4.5, 7); ph_range_text := "4.5-7.0";
       organic_matter_min := 1.5;
       nitrogen_level := "low"; phosphorus_level := "medium";
       potassium_level := "high";
       preferred_textures := ["sandy_loam"; "loam"; "clay_loam"];
       preferred_drainage := ["good"; "fair"]; depth_min := 100 |});
   ("sweet_potato",
    {| ph_range := (5.5, 7); ph_range_text := "5.5-7.0";
       organic_matter_min := 2;
       nitrogen_level := "medium"; phosphorus_level := "medium";
       potassium_level := "high";
       preferred_textures := ["sandy_loam"; "loam"];
       preferred_drainage := ["excellent"; "good"]; depth_min := 30 |});
   ("groundnuts",
    {| ph_range := (6, 7.5); ph_range_text := "6.0-7.5";
       organic_matter_min := 2;
       nitrogen_level := "low"; phosphorus_level := "high";
       potassium_level := "medium";
       preferred_textures := ["sandy_loam"; "loam"];
       preferred_drainage := ["excellent"; "good"]; depth_min := 40 |});
   ("rice",
    {| ph_range := (5.5, 7); ph_range_text := "5.5-7.0";
       organic_matter_min := 2.5;
       nitrogen_level := "high"; phosphorus_level := "medium";
       potassium_level := "medium";
       preferred_textures := ["clay"; "clay_loam"; "silty_clay"];
       preferred_drainage := ["poor"; "fair"]; depth_min := 20 |})]%string.

Record SoilSuitability : Type := {
  suitability_score : Q;
  limiting_factors : list string;
  recommendations : list string;
  confidence_level : Q
}.

(** One scored aspect of the soil: its score, its weight, and the
    limiting factors and recommendations it adds. *)
Record Component : Type := {
  score : Q;
  weight : Q;
  limitations : list string;
  advice : list string
}.

Definition component (s w : Q) (ls rs : list string) : Component :=
  {| score := s; weight := w; limitations := ls; advice := rs |}.

(** [x in xs] on strings. *)
Definition str_in (x : string) (xs : list string) : bool :=
  existsb (String.eqb x) xs.

(** [min(xs)] and [max(xs)].  On the empty list Python raises
    [ValueError]; [analyze_soil_suitability] catches every exception
    alike, and no list of the table is empty. *)
Definition py_min_list (xs : list Q) : result Q :=
  match xs with
  | [] => Raise TypeError
  | x :: xs' => Ok (fold_left py_min xs' x)
  end.

Definition py_max_list (xs : list Q) : result Q :=
  match xs with
  | [] => Raise TypeError
  | x :: xs' => Ok (fold_left py_max xs' x)
  end.

Definition drainage_level (d : string) : Q :=
  dict_get [("poor", 1); ("fair", 2); ("good", 3); ("excellent", 4)]%string d 2.

Section Assessment.
Variable soil_data : SoilData.
Variable requirements : CropRequirements.
Local Open Scope result_scope.

Definition ph_component : Component :=
  let '(ph_min, ph_max) := ph_range requirements in
  let ph := ph_level soil_data in
  if Qle_bool ph_min ph && Qle_bool ph ph_max then component 1 0.2 [] []
  else if Qltb ph ph_min then
    component (py_max 0 (1 - (ph_min - ph) / 2)) 0.2
      ["Soil too acidic"%string]
      [("Apply lime to raise pH to " ++ ph_range_text requirements)%string]
  else
    component (py_max 0 (1 - (ph - ph_max) / 2)) 0.2
      ["Soil too alkaline"%string]
      [("Apply sulfur or organic matter to lower pH to "
          ++ ph_range_text requirements)%string].

Definition organic_matter_component : result Component :=
  let om_min := organic_matter_min requirements in
  let om := organic_matter soil_data in
  if Qle_bool om_min om then
    d <- py_div om (om_min * 2) ;;
    Ok (component (py_min 1 d) 0.15 [] [])
  else
    d <- py_div om om_min ;;
    Ok (component d 0.15
          ["Low organic matter"%string]
          ["Increase organic matter through compost, manure, or cover crops"%string]).

Definition texture_component : Component :=
  if str_in (texture soil_data) (preferred_textures requirements)
  then component 1 0.15 [] []
  else component 0.6 0.15
         [("Suboptimal soil texture: " ++ texture soil_data)%string]
         ["Consider soil amendments to improve texture"%string].

Definition drainage_component : result Component :=
  let preferred := preferred_drainage requirements in
  if str_in (drainage soil_data) preferred then Ok (component 1 0.15 [] [])
  else
    let current_level := drainage_level (drainage soil_data) in
    let preferred_levels := map drainage_level preferred in
    min_preferred <- py_min_list preferred_levels ;;
    max_preferred <- py_max_list preferred_levels ;;
    if Qltb current_level min_preferred then
      r <- py_div current_level min_preferred ;;
      Ok (component (py_max 0.3 r) 0.15
            ["Poor drainage"%string]
            ["Improve drainage through channels or raised beds"%string])
    else
      r <- py_div max_preferred current_level ;;
      Ok (component (py_max 0.3 r) 0.15
            ["Excessive drainage"%string]
            ["Improve water retention through mulching or organic matter"%string]).

(** One nutrient of [_evaluate_nutrients]. *)
Definition nutrient (available threshold : Q) (limitation recommendation : string)
  : Component :=
  if Qle_bool threshold available then component 1 0.15 [] []
  else component (available / threshold) 0.15 [limitation] [recommendation].

(** [_evaluate_nutrients]: nitrogen, phosphorus, potassium, in this order. *)
Definition _evaluate_nutrients : list Component :=
  [nutrient (nitrogen soil_data)
            (dict_get [("low", 20); ("medium", 40); ("high", 60)]%string
                      (nitrogen_level requirements) 40)
            "Low nitrogen levels" "Apply nitrogen fertilizer or organic matter";
   nutrient (phosphorus soil_data)
            (dict_get [("low", 15); ("medium", 25); ("high", 40)]%string
                      (phosphorus_level requirements) 25)
            "Low phosphorus levels" "Apply phosphorus fertilizer or rock phosphate";
   nutrient (potassium soil_data)
            (dict_get [("low", 80); ("medium", 120); ("high", 200)]%string
                      (potassium_level requirements) 120)
            "Low potassium levels" "Apply potassium fertilizer or wood ash"]%string.

(** A nutrient adds its limitations only when its score is below 0.7. *)
Definition reported (c : Component) : Component :=
  if Qltb (score c) 0.7 then c
  else component (score c) (weight c) [] [].

Definition depth_component : result Component :=
  if Qle_bool (depth_min requirements) (depth soil_data)
  then Ok (component 1 0.1 [] [])
  else
    r <- py_div (depth soil_data) (depth_min requirements) ;;
    Ok (component (py_max 0.3 r) 0.1
          ["Shallow soil depth"%string]
          ["Consider deep tillage or raised beds"%string]).

Definition _calculate_confidence : Q :=
  let confidence := 1 in
  let confidence :=
    if Qeq_bool (ph_level soil_data) 6.5 then confidence - 0.1 else confidence in
  let confidence :=
    if Qeq_bool (organic_matter soil_data) 2.5 then confidence - 0.1
    else confidence in
  let confidence :=
    if Qeq_bool (nitrogen soil_data) 20 then confidence - 0.1 else confidence in
  let confidence :=
    if Qltb (phosphorus soil_data) 10 || Qltb 100 (phosphorus soil_data)
    then confidence - 0.1 else confidence in
  let confidence :=
    if Qltb (potassium soil_data) 50 || Qltb 300 (potassium soil_data)
    then confidence - 0.1 else confidence in
  py_max 0.3 confidence.

(** The scored aspects, in the order the method appends them. *)
Definition score_components : result (list Component) :=
  let ph := ph_component in
  om <- organic_matter_component ;;
  let tx := texture_component in
  dr <- drainage_component ;;
  let nutrients := map reported _evaluate_nutrients in
  dp <- depth_component ;;
  Ok ([ph; om; tx; dr] ++ nutrients ++ [dp]).

(** The [try] block of [analyze_soil_suitability], for a crop of the
    table. *)
Definition assess : result SoilSuitability :=
  cs <- score_components ;;
  let total_score := Qsum (map (fun c => score c * weight c) cs) in
  let total_weight := Qsum (map weight cs) in
  s <- (if Qltb 0 total_weight then py_div total_score total_weight
        else Ok 0.5) ;;
  Ok {| suitability_score := s;
        limiting_factors := flat_map limitations cs;
        recommendations := flat_map advice cs;
        confidence_level := _calculate_confidence |}.
End Assessment.

Definition analyze_soil_suitability (soil_data : SoilData) (crop : string)
  : SoilSuitability :=
  match dict_lookup crop_requirements crop with
  | None =>
      {| suitability_score := 0.5;
         limiting_factors := ["Unknown crop type"%string];
         recommendations := ["Crop requirements not available"%string];
         confidence_level := 0.3 |}
  | Some requirements =>
      try_except (assess soil_data requirements)
        (fun _ =>
           {| suitability_score := 0.5;
              limiting_factors := ["Analysis error"%string];
              recommendations := ["Unable to complete soil analysis"%string];
              confidence_level := 0.3 |})
  end.

(** The level [get_soil_analysis] ([main.py]) reports for a score. *)
Definition suitability_level (s : Q) : string :=
  if Qltb 0.8 s then "Excellent"
  else if Qltb 0.6 s then "Good"
  else if Qltb 0.4 s then "Fair"
  else "Poor".

(** The entries of the requirement table. *)
Definition known_crop (req : CropRequirements) : Prop :=
  In req (map snd crop_requirements).

(** A component with as many recommendations as limiting factors, at
    most one of each. *)
Definition paired (c : Component) : Prop :=
  List.length (limitations c) = List.length (advice c)
  /\ (List.length (limitations c) <= 1)%nat.

(** A component of weight [w] whose score is between [lo] and 1, and at
    least [clean] when it reports no limiting factor. *)
Definition graded (w lo clean : Q) (c : Component) : Prop :=
  weight c = w /\ lo <= score c <= 1
  /\ (limitations c = [] -> clean <= score c).

End SoilAnalysis.

(** A soil that differs from [soil_data] in its organic matter only. *)
Definition with_organic_matter (soil_data : SoilData) (om : Q) : SoilData :=
  {| ph_level := ph_level soil_data; organic_matter := om;
     nitrogen := nitrogen soil_data; phosphorus := phosphorus soil_data;
     potassium := potassium soil_data; texture := texture soil_data;
     drainage := drainage soil_data; depth := depth soil_data;
     salinity := salinity soil_data; cec := cec soil_data;
     bulk_density := bulk_density soil_data |}.

(** A loam with good drainage. *)
Definition sample_soil : SoilData :=
  {| ph_level := 6; organic_matter := 3; nitrogen := 30; phosphorus := 20;
     potassium := 120; texture := "loam"; drainage := "good"; depth := 80;
     salinity := 0.3; cec := 15; bulk_density := 1.3 |}.

(** ** Climate projections and risks ([climate_service.py]) *)

Module Climate.

Record ClimateProjection : Type := {
  year : Z;
  temperature_change : Q;
  precipitation_change : Q;
  extreme_events_probability : dict Q;
  confidence_level : Q
}.

(** The dictionary [calculate_climate_risks] starts from. *)
Definition no_risks : dict Q :=
  [("drought_risk", 0); ("flood_risk", 0); ("temperature_stress_risk", 0);
   ("rainfall_variability_risk", 0); ("overall_risk", 0)]%string.

(** The dictionary of its [except] branch. *)
Definition fallback_risks : dict Q :=
  [("drought_risk", 0.5); ("flood_risk", 0.3);
   ("temperature_stress_risk", 0.4); ("rainfall_variability_risk", 0.3);
   ("overall_risk", 0.4)]%string.

Section Service.
Variable rt : Runtime.
Variable w : World.
(** [datetime.now().year] *)
Variable current_year : Z.

(** [np.mean(xs)] in [climate_service.py]; without numpy the name [np]
    is unbound.  Every call passes a non-empty list. *)
Definition np_mean (xs : list Q) : result Q :=
  if HAS_NUMPY rt
  then Ok (Qsum xs / inject_Z (Z.of_nat (List.length xs)))
  else Raise NameError.

(** The body of the loop of [get_climate_projections]. *)
Definition project (year_offset : Z) : M nat ClimateProjection :=
  (let projection_year := (current_year + year_offset)%Z in
   temp_noise <- np_random_normal rt w 0 0.1 ;;
   let temp_change := 0.2 * inject_Z year_offset + temp_noise in
   precip_noise <- np_random_normal rt w 0 5 ;;
   let precip_change := -2 * inject_Z year_offset + precip_noise in
   let extreme_events :=
     [("drought", py_min 0.9 (0.05 + 0.02 * inject_Z year_offset));
      ("flood", py_min 0.8 (0.03 + 0.01 * inject_Z year_offset));
      ("heat_wave", py_min 0.9 (0.02 + 0.03 * inject_Z year_offset))]%string in
   mret {| year := projection_year;
           temperature_change := temp_change;
           precipitation_change := precip_change;
           extreme_events_probability := extreme_events;
           confidence_level := py_max 0.6 (0.9 - 0.02 * inject_Z year_offset) |})%monad.

(** [range(1, years_ahead + 1)] *)
Definition year_offsets (years_ahead : Z) : list Z :=
  map Z.of_nat (seq 1 (Z.to_nat years_ahead)).

Definition get_climate_projections (years_ahead : Z)
  : M nat (list ClimateProjection) :=
  mtry (mfor project (year_offsets years_ahead)) (fun _ => mret []).

(** [p.extreme_events_probability.get(event, 0)] over the projections. *)
Definition event_probabilities (event : string)
           (projections : list ClimateProjection) : list Q :=
  map (fun p => dict_get (extreme_events_probability p) event 0) projections.

(** [calculate_climate_risks], on the patterns [get_seasonal_patterns]
    returns: their annual summary has no ["rainfall_variability"], and
    each of their months has one. *)
Definition calculate_climate_risks (weather_patterns : WeatherPatterns)
           (projections : list ClimateProjection) : dict Q :=
  try_except
    (match projections with
     | [] => Ok no_risks
     | _ :: _ =>
         avg_precip_change <- np_mean (map precipitation_change projections) ;;
         drought_prob <- np_mean (event_probabilities "drought" projections) ;;
         let drought_risk :=
           py_min 1 (Qabs avg_precip_change / 20 * 0.5 + drought_prob * 0.5) in
         flood_prob <- np_mean (event_probabilities "flood" projections) ;;
         let rainfall_variability := 0 in
         let flood_risk :=
           py_min 1 (flood_prob * 0.7 + rainfall_variability / 100 * 0.3) in
         avg_temp_change <- np_mean (map temperature_change projections) ;;
         heat_wave_prob <- np_mean (event_probabilities "heat_wave" projections) ;;
         let temperature_stress_risk :=
           py_min 1 (avg_temp_change / 4 * 0.6 + heat_wave_prob * 0.4) in
         rainfall_variability_risk <-
           match monthly weather_patterns with
           | [] => Ok 0
           | _ :: _ =>
               avg_variability <-
                 np_mean (map (fun m => month_rainfall_variability (snd m))
                              (monthly weather_patterns)) ;;
               Ok (py_min 1 (avg_variability / 50))
           end ;;
         Ok [("drought_risk", drought_risk); ("flood_risk", flood_risk);
             ("temperature_stress_risk", temperature_stress_risk);
             ("rainfall_variability_risk", rainfall_variability_risk);
             ("overall_risk",
              drought_risk * 0.3 + flood_risk * 0.2
              + temperature_stress_risk * 0.3
              + rainfall_variability_risk * 0.2)]%string
     end)%result
    (fun _ => fallback_risks).
End Service.

(** One recommendation of [get_adaptation_recommendations]. *)
Record Adaptation : Type := {
  category : string;
  recommendation : string;
  priority : string;
  implementation : string
}.

(** [get_adaptation_recommendations]; the crop type is not read. *)
Definition get_adaptation_recommendations (climate_risks : dict Q)
           (crop_type : string) : list Adaptation :=
  let recommendations := [] in
  let recommendations :=
    if Qltb 0.5 (dict_get climate_risks "drought_risk" 0) then
      recommendations ++
      [{| category := "drought_adaptation";
          recommendation := "Invest in drought-tolerant seed varieties";
          priority := "high";
          implementation := "Select seeds with drought tolerance score > 0.7" |};
       {| category := "water_management";
          recommendation := "Implement water conservation techniques";
          priority := "high";
          implementation :=
            "Use mulching, rainwater harvesting, and drip irrigation" |}]
    else recommendations in
  let recommendations :=
    if Qltb 0.4 (dict_get climate_risks "flood_risk" 0) then
      recommendations ++
      [{| category := "flood_adaptation";
          recommendation := "Improve drainage systems";
          priority := "medium";
          implementation := "Create drainage channels and raise planting beds" |};
       {| category := "timing";
          recommendation :=
            "Adjust planting schedules to avoid peak flood season";
          priority := "high";
          implementation := "Plant early in the season before heavy rains" |}]
    else recommendations in
  let recommendations :=
    if Qltb 0.5 (dict_get climate_risks "temperature_stress_risk" 0) then
      recommendations ++
      [{| category := "temperature_adaptation";
          recommendation := "Use heat-tolerant varieties";
          priority := "high";
          implementation := "Select seeds with heat tolerance score > 0.6" |};
       {| category := "microclimate";
          recommendation := "Create shade and windbreaks";
          priority := "medium";
          implementation :=
            "Plant trees or use shade nets during extreme heat" |}]
    else recommendations in
  let recommendations :=
    if Qltb 0.4 (dict_get climate_risks "overall_risk" 0) then
      recommendations ++
      [{| category := "diversification";
          recommendation := "Diversify crop varieties and planting times";
          priority := "high";
          implementation :=
            "Plant multiple varieties with different maturity periods" |};
       {| category := "monitoring";
          recommendation := "Implement weather monitoring systems";
          priority := "medium";
          implementation :=
            "Use weather forecasts and early warning systems" |}]
    else recommendations in
  recommendations.

(** What [get_climate_projections] gives every projection, whatever is
    drawn. *)
Definition well_formed (p : ClimateProjection) : Prop :=
  0.07 <= dict_get (extreme_events_probability p) "drought" 0 <= 0.9
  /\ 0.04 <= dict_get (extreme_events_probability p) "flood" 0 <= 0.8
  /\ 0.05 <= dict_get (extreme_events_probability p) "heat_wave" 0 <= 0.9
  /\ 0.6 <= confidence_level p <= 0.88.

Definition risk_names : list string :=
  ["drought_risk"; "flood_risk"; "temperature_stress_risk";
   "rainfall_variability_risk"; "overall_risk"]%string.

End Climate.

(** * Properties *)

(** ** Floats *)

Lemma Qltb_true (a b : Q) : Qltb a b = true <-> a < b.
Proof.
  unfold Qltb. rewrite negb_true_iff.
  destruct (Qle_bool b a) eqn:E; split; intro H; try discriminate.
  - apply Qle_bool_iff in E. lra.
  - apply Qnot_le_lt. intro L. apply Qle_bool_iff in L. congruence.
  - reflexivity.
Qed.

Lemma Qltb_false (a b : Q) : Qltb a b = false <-> b <= a.
Proof.
  unfold Qltb. rewrite negb_false_iff. apply Qle_bool_iff.
Qed.

Lemma py_max_is_Qmax (a b : Q) : py_max a b == Qmax a b.
Proof.
  unfold py_max. destruct (Qltb a b) eqn:E.
  - apply Qltb_true in E. symmetry. apply Q.max_r. lra.
  - apply Qltb_false in E. symmetry. apply Q.max_l. exact E.
Qed.

Lemma py_min_is_Qmin (a b : Q) : py_min a b == Qmin a b.
Proof.
  unfold py_min. destruct (Qltb b a) eqn:E.
  - apply Qltb_true in E. symmetry. apply Q.min_r. lra.
  - apply Qltb_false in E. symmetry. apply Q.min_l. exact E.
Qed.

Lemma py_max_cases (a b : Q) :
  (a < b /\ py_max a b = b) \/ (b <= a /\ py_max a b = a).
Proof.
  unfold py_max. destruct (Qltb a b) eqn:E.
  - left. split; [now apply Qltb_true | reflexivity].
  - right. split; [now apply Qltb_false | reflexivity].
Qed.

Lemma py_min_cases (a b : Q) :
  (b < a /\ py_min a b = b) \/ (a <= b /\ py_min a b = a).
Proof.
  unfold py_min. destruct (Qltb b a) eqn:E.
  - left. split; [now apply Qltb_true | reflexivity].
  - right. split; [now apply Qltb_false | reflexivity].
Qed.

(** [min(1.0, max(0.0, x))] lies in the unit interval. *)
Lemma clamp_unit (x : Q) : 0 <= py_min 1 (py_max 0 x) <= 1.
Proof.
  destruct (py_min_cases 1 (py_max 0 x)) as [[H E] | [H E]]; rewrite E;
    destruct (py_max_cases 0 x) as [[H' E'] | [H' E']]; rewrite ?E' in *; lra.
Qed.

Lemma py_div_ok (a b : Q) : ~ b == 0 -> py_div a b = Ok (a / b).
Proof.
  intro H. unfold py_div. destruct (Qeq_bool b 0) eqn:E; [| reflexivity].
  apply Qeq_bool_iff in E. contradiction.
Qed.

Lemma Qdiv_pos (a b : Q) : 0 < a -> 0 < b -> 0 < a / b.
Proof.
  intros Ha Hb. apply Qlt_shift_div_l; [exact Hb | lra].
Qed.

Lemma or_default_nonzero (o : option Q) (d : Q) :
  ~ d == 0 -> ~ or_default o d == 0.
Proof.
  intros Hd. unfold or_default. destruct o as [q |]; [| exact Hd].
  destruct (Qeq_bool q 0) eqn:E; [exact Hd |].
  intro H. apply Qeq_bool_iff in H. congruence.
Qed.

(** ** The range-compatibility function *)

(** C4.  For bounds [0 < min_val] and [0 < max_val] the function returns a
    score (no division by zero), the score lies in the unit interval, it
    is 1 exactly when [min_val <= value <= max_val], and outside the
    range it is the linear fall-off floored at 0. *)
Theorem score_range_compatibility_spec (value min_val max_val : Q) :
  0 < min_val -> 0 < max_val ->
  exists s,
    _score_range_compatibility value min_val max_val = Ok s
    /\ 0 <= s <= 1
    /\ (s == 1 <-> min_val <= value <= max_val)
    /\ (value < min_val ->
        s == Qmax 0 (1 - (min_val - value) / min_val))
    /\ (min_val <= value -> max_val < value ->
        s == Qmax 0 (1 - (value - max_val) / max_val)).
Proof.
  intros Hmin Hmax. unfold _score_range_compatibility.
  destruct (Qle_bool min_val value) eqn:E1; simpl.
  - apply Qle_bool_iff in E1.
    destruct (Qle_bool value max_val) eqn:E2.
    + apply Qle_bool_iff in E2. exists 1. repeat split; try lra.
    + assert (L : max_val < value).
      { apply Qnot_le_lt. intro L. apply Qle_bool_iff in L. congruence. }
      assert (F : Qltb value min_val = false) by now apply Qltb_false.
      rewrite F. rewrite py_div_ok by lra. simpl.
      exists (py_max 0 (1 - (value - max_val) / max_val)).
      assert (D : 0 < (value - max_val) / max_val) by (apply Qdiv_pos; lra).
      split; [reflexivity |].
      destruct (py_max_cases 0 (1 - (value - max_val) / max_val))
        as [[H E] | [H E]]; rewrite E.
      * repeat split; try lra. intros _ _.
        symmetry. apply Q.max_r. lra.
      * repeat split; try lra. intros _ _.
        symmetry. apply Q.max_l. lra.
  - assert (L : value < min_val).
    { apply Qnot_le_lt. intro L. apply Qle_bool_iff in L. congruence. }
    assert (T : Qltb value min_val = true) by now apply Qltb_true.
    rewrite T. rewrite py_div_ok by lra. simpl.
    exists (py_max 0 (1 - (min_val - value) / min_val)).
    assert (D : 0 < (min_val - value) / min_val) by (apply Qdiv_pos; lra).
    split; [reflexivity |].
    destruct (py_max_cases 0 (1 - (min_val - value) / min_val))
      as [[H E] | [H E]]; rewrite E.
    + repeat split; try lra. intros _.
      symmetry. apply Q.max_r. lra.
    + repeat split; try lra. intros _.
      symmetry. apply Q.max_l. lra.
Qed.

Lemma score_range_compatibility_spec_witness :
  exists s,
    _score_range_compatibility 15 18 30 = Ok s
    /\ 0 <= s <= 1
    /\ (s == 1 <-> 18 <= 15 <= 30)
    /\ (15 < 18 -> s == Qmax 0 (1 - (18 - 15) / 18))
    /\ (18 <= 15 -> 30 < 15 -> s == Qmax 0 (1 - (15 - 30) / 30)).
Proof.
  apply (score_range_compatibility_spec 15 18 30); reflexivity.
Defined.

(** ** The engine *)

Ltac run :=
  unfold mtry, mbind, mgets, mlift, mret, mraise, mmodify in *; cbn beta iota in *.

Lemma risk_score_unit rt seed env :
  0 <= _calculate_risk_score rt seed env <= 1.
Proof.
  unfold _calculate_risk_score.
  destruct (np_mean_opt rt _) as [a | e]; simpl.
  - apply clamp_unit.
  - lra.
Qed.

Lemma predict_yield_run rt seed env h :
  exists y, _predict_yield rt seed env h = (Ok y, h).
Proof.
  unfold _predict_yield. run.
  destruct (negb (ML_AVAILABLE rt) || negb (is_trained (self h))); [eauto |].
  destruct (_seed_to_features seed); [| eauto].
  destruct (dict_item (scalers (self h)) "environmental"); [| eauto].
  destruct (transform _ _); [| eauto].
  destruct (dict_item (models (self h)) "yield_predictor"); [| eauto].
  destruct (predict _ _); eauto.
Qed.

Lemma confidence_level_run env seed h :
  exists c, _calculate_confidence_level env seed h = (Ok c, h)
            /\ 0.3 <= c <= 1.
Proof.
  unfold _calculate_confidence_level. run.
  eexists. split; [reflexivity |].
  destruct (Qeq_bool (climate_risk_score env) 0.3);
    destruct (negb (truthy (yield_potential seed)));
    destruct (negb (truthy (optimal_temp_min seed))
              || negb (truthy (optimal_temp_max seed)));
    destruct (negb (is_trained (self h)));
    vm_compute; split; discriminate.
Qed.

Lemma default_weight_items h :
  feature_weights (self h) = default_feature_weights ->
  dict_item (feature_weights (self h)) "climate_compatibility" = Ok 0.3
  /\ dict_item (feature_weights (self h)) "soil_compatibility" = Ok 0.25
  /\ dict_item (feature_weights (self h)) "yield_potential" = Ok 0.2
  /\ dict_item (feature_weights (self h)) "risk_tolerance" = Ok 0.15
  /\ dict_item (feature_weights (self h)) "market_factors" = Ok 0.1.
Proof. intros ->. repeat split. Qed.

(** The [try] block leaves the heap as it found it. *)
Lemma analyze_body_heap rt seed env farm prefs h :
  snd (_analyze_seed_compatibility_body rt seed env farm prefs h) = h.
Proof.
  unfold _analyze_seed_compatibility_body. run.
  assert (Y : exists y,
             (if is_trained (self h) then _predict_yield rt seed env
              else fun s => (Ok (_estimate_yield_simple rt seed env), s)) h
             = (Ok y, h)).
  { destruct (is_trained (self h)); [apply predict_yield_run | eauto]. }
  destruct Y as [y ->].
  destruct (confidence_level_run env seed h) as [c [-> _]].
  repeat match goal with
         | |- context [match ?x with Ok _ => _ | Raise _ => _ end] =>
             destruct x
         end; reflexivity.
Qed.

Lemma yield_step_run rt seed env h :
  exists y,
    (if is_trained (self h) then _predict_yield rt seed env
     else mret (_estimate_yield_simple rt seed env)) h = (Ok y, h)
    /\ (ML_AVAILABLE rt = false -> y = _estimate_yield_simple rt seed env).
Proof.
  destruct (is_trained (self h)) eqn:T.
  - destruct (ML_AVAILABLE rt) eqn:A.
    + destruct (predict_yield_run rt seed env h) as [y E].
      exists y. split; [exact E | discriminate].
    + exists (_estimate_yield_simple rt seed env). split; [| reflexivity].
      unfold _predict_yield. run. rewrite A. reflexivity.
  - exists (_estimate_yield_simple rt seed env). split; reflexivity.
Qed.

(** What the [try] block returns when it returns. *)
Lemma analyze_body_fields rt seed env farm prefs h r h' :
  _analyze_seed_compatibility_body rt seed env farm prefs h = (Ok r, h') ->
  seed_id r = Seed_id seed
  /\ climate_match_score r = _calculate_climate_compatibility rt seed env
  /\ soil_match_score r = _calculate_soil_compatibility rt seed env
  /\ risk_score r = _calculate_risk_score rt seed env
  /\ 0.3 <= confidence_level r <= 1
  /\ 0 <= compatibility_score r <= 1
  /\ (ML_AVAILABLE rt = false ->
      yield_prediction r = _estimate_yield_simple rt seed env).
Proof.
  unfold _analyze_seed_compatibility_body.
  destruct (yield_step_run rt seed env h) as [y [Y Yf]].
  destruct (confidence_level_run env seed h) as [c [C Cb]].
  run. unfold mret in Y. rewrite Y. rewrite C.
  repeat match goal with
         | |- context [match ?x with Ok _ => _ | Raise _ => _ end] =>
             destruct x
         end; intro H; inversion H; subst; clear H; cbn.
  repeat split; try tauto; apply clamp_unit.
Qed.

(** With the weights [__init__] sets, the [try] block returns. *)
Lemma analyze_body_default rt seed env farm prefs h :
  feature_weights (self h) = default_feature_weights ->
  exists r,
    _analyze_seed_compatibility_body rt seed env farm prefs h = (Ok r, h)
    /\ compatibility_score r =
       py_min 1 (py_max 0
         (climate_match_score r * 0.3 + soil_match_score r * 0.25
          + yield_prediction r / or_default (yield_potential seed) 1 * 0.2
          + (1 - risk_score r) * 0.15
          + _calculate_market_score seed prefs * 0.1)).
Proof.
  intro W. unfold _analyze_seed_compatibility_body.
  destruct (yield_step_run rt seed env h) as [y [Y _]].
  destruct (confidence_level_run env seed h) as [c [C _]].
  destruct (default_weight_items h W) as (W1 & W2 & W3 & W4 & W5).
  run. unfold mret in Y. rewrite Y, C, W1, W2, W3, W4, W5.
  rewrite py_div_ok by (apply or_default_nonzero; discriminate).
  eexists. split; reflexivity.
Qed.

(** ** Sorting *)

Lemma insert_desc_perm x l : Permutation (insert_desc x l) (x :: l).
Proof.
  induction l as [| y l IH]; simpl; [reflexivity |].
  destruct (Qltb _ _); [| reflexivity].
  rewrite IH. apply perm_swap.
Qed.

Lemma sort_desc_perm l : Permutation (sort_desc l) l.
Proof.
  induction l as [| x l IH]; simpl; [constructor |].
  rewrite insert_desc_perm. now constructor.
Qed.

Lemma insert_desc_sorted x l :
  StronglySorted ranked l -> StronglySorted ranked (insert_desc x l).
Proof.
  induction 1 as [| y l S IH F]; simpl.
  - repeat constructor.
  - destruct (Qltb _ _) eqn:E.
    + constructor; [exact IH |].
      eapply Permutation_Forall.
      * symmetry. apply insert_desc_perm.
      * constructor; [| exact F]. apply Qltb_true in E. unfold ranked. lra.
    + apply Qltb_false in E.
      constructor; [now constructor |].
      constructor; [exact E |].
      eapply Forall_impl; [| exact F].
      unfold ranked. intros z Hz. lra.
Qed.

Lemma sort_desc_sorted l : StronglySorted ranked (sort_desc l).
Proof.
  induction l as [| x l IH]; simpl; [constructor |].
  now apply insert_desc_sorted.
Qed.

Lemma In_firstn {A} (x : A) n l : In x (firstn n l) -> In x l.
Proof.
  revert l. induction n as [| n IH]; intros [| y l]; simpl; try tauto.
  intros [H | H]; [now left | right; now apply IH].
Qed.

Lemma firstn_sorted n l :
  StronglySorted ranked l -> StronglySorted ranked (firstn n l).
Proof.
  intro S. revert n. induction S as [| y l S IH F]; intros [| n]; simpl;
    try constructor.
  - apply IH.
  - apply Forall_forall. intros z Hz.
    rewrite Forall_forall in F. apply F.
    revert Hz. apply In_firstn.
Qed.

Lemma sort_desc_length l : List.length (sort_desc l) = List.length l.
Proof. apply Permutation_length, sort_desc_perm. Qed.

(** ** One seed *)

(** The method returns a record for every seed and engine state, logs
    one call, and leaves the engine object alone. *)
Lemma analyze_run rt seed env farm prefs h :
  exists r,
    _analyze_seed_compatibility rt seed env farm prefs h
    = (Ok r, log_analysis (Seed_id seed) h)
    /\ seed_id r = Seed_id seed
    /\ within_bounds r.
Proof.
  unfold _analyze_seed_compatibility. run.
  pose proof (analyze_body_heap rt seed env farm prefs
                (log_analysis (Seed_id seed) h)) as Hh.
  destruct (_analyze_seed_compatibility_body rt seed env farm prefs
              (log_analysis (Seed_id seed) h)) as [[r | e] h'] eqn:B;
    simpl in Hh; subst h'.
  - exists r. split; [reflexivity |].
    destruct (analyze_body_fields _ _ _ _ _ _ _ _ B)
      as (I & _ & _ & R & C & S & _).
    split; [exact I |]. unfold within_bounds. rewrite R.
    repeat split; try tauto; apply risk_score_unit.
  - exists (neutral_compatibility seed). split; [reflexivity |].
    split; [reflexivity |]. unfold within_bounds. cbn. lra.
Qed.

(** ** The loop over the seeds *)

Lemma log_analysis_app h ids i :
  log_analysis i {| self := self h; analysis_calls := analysis_calls h ++ ids |}
  = {| self := self h; analysis_calls := analysis_calls h ++ ids ++ [i] |}.
Proof. unfold log_analysis. cbn. now rewrite app_assoc. Qed.

Lemma analyze_loop_run rt env farm prefs seeds : forall h,
  exists rs,
    mfor (fun seed => _analyze_seed_compatibility rt seed env farm prefs) seeds h
    = (Ok rs, {| self := self h;
                 analysis_calls := analysis_calls h ++ map Seed_id seeds |})
    /\ map seed_id rs = map Seed_id seeds
    /\ Forall within_bounds rs.
Proof.
  induction seeds as [| seed seeds IH]; intro h.
  - exists []. simpl. rewrite app_nil_r. destruct h. repeat split. constructor.
  - destruct (analyze_run rt seed env farm prefs h) as (r & E & I & B).
    destruct (IH (log_analysis (Seed_id seed) h)) as (rs & Es & Is & Bs).
    exists (r :: rs). simpl. run. rewrite E. run. rewrite Es. cbn.
    rewrite <- app_assoc. repeat split.
    + now rewrite I, Is.
    + now constructor.
Qed.

Lemma generate_run rt w farm seeds season year prefs h :
  exists analysed,
    generate_recommendations rt w farm seeds season year prefs h
    = (Ok (firstn 10 (sort_desc analysed)),
       {| self := self h;
          analysis_calls := analysis_calls h ++ map Seed_id seeds |})
    /\ map seed_id analysed = map Seed_id seeds
    /\ Forall within_bounds analysed.
Proof.
  unfold generate_recommendations, generate_recommendations_with,
    generate_recommendations_body.
  destruct (analyze_loop_run rt
              (_analyze_environmental_conditions rt w farm season year)
              farm prefs seeds h) as (rs & E & I & B).
  exists rs. run. rewrite E. auto.
Qed.

(** ** The log does not matter *)

Lemma reads_ret {A} (a : A) : reads_only_self (mret a : M Heap A).
Proof. intro h. split; [reflexivity | intros; reflexivity]. Qed.

Lemma reads_raise {A} (e : exn) : reads_only_self (mraise e : M Heap A).
Proof. intro h. split; [reflexivity | intros; reflexivity]. Qed.

Lemma reads_lift {A} (r : result A) : reads_only_self (mlift r : M Heap A).
Proof. intro h. split; [reflexivity | intros; reflexivity]. Qed.

Lemma reads_gets {A} (f : SeedRecommendationEngine -> A) :
  reads_only_self (mgets (fun h => f (self h))).
Proof.
  intro h. split; [reflexivity |]. intros h' E. unfold mgets. cbn. now rewrite E.
Qed.

Lemma reads_bind {A B} (m : M Heap A) (k : A -> M Heap B) :
  reads_only_self m -> (forall a, reads_only_self (k a)) ->
  reads_only_self (mbind m k).
Proof.
  intros Hm Hk h. unfold mbind.
  destruct (Hm h) as [S F].
  destruct (m h) as [[a | e] s] eqn:E; cbn in S; subst s.
  - destruct (Hk a h) as [Sk Fk]. split; [exact Sk |].
    intros h' Eh. specialize (F h' Eh). destruct (Hm h') as [S' _].
    destruct (m h') as [r' s']. cbn in *. subst. now apply Fk.
  - split; [reflexivity |].
    intros h' Eh. specialize (F h' Eh). destruct (Hm h') as [S' _].
    destruct (m h') as [r' s']. cbn in *. now subst.
Qed.

Lemma reads_try {A} (m : M Heap A) (k : exn -> M Heap A) :
  reads_only_self m -> (forall e, reads_only_self (k e)) ->
  reads_only_self (mtry m k).
Proof.
  intros Hm Hk h. unfold mtry.
  destruct (Hm h) as [S F].
  destruct (m h) as [[a | e] s] eqn:E; cbn in S; subst s.
  - split; [reflexivity |].
    intros h' Eh. specialize (F h' Eh). destruct (Hm h') as [S' _].
    destruct (m h') as [r' s']. cbn in *. now subst.
  - destruct (Hk e h) as [Sk Fk]. split; [exact Sk |].
    intros h' Eh. specialize (F h' Eh). destruct (Hm h') as [S' _].
    destruct (m h') as [r' s']. cbn in *. subst. now apply Fk.
Qed.

Ltac reads :=
  repeat first
    [ apply reads_ret | apply reads_raise | apply reads_lift
    | apply (reads_gets (fun e => is_trained e))
    | apply (reads_gets (fun e => scalers e))
    | apply (reads_gets (fun e => models e))
    | apply (reads_gets (fun e => feature_weights e))
    | apply reads_bind; [| intro]
    | apply reads_try; [| intro]
    | match goal with
      | |- reads_only_self (if ?b then _ else _) => destruct b
      | |- reads_only_self (let '(_, _) := ?p in _) => destruct p
      end ].

Lemma predict_yield_reads rt seed env :
  reads_only_self (_predict_yield rt seed env).
Proof. unfold _predict_yield. reads. Qed.

Lemma confidence_level_reads env seed :
  reads_only_self (_calculate_confidence_level env seed).
Proof. unfold _calculate_confidence_level. reads. Qed.

Lemma analyze_body_reads rt seed env farm prefs :
  reads_only_self (_analyze_seed_compatibility_body rt seed env farm prefs).
Proof.
  unfold _analyze_seed_compatibility_body. reads.
Qed.

(** The record of a seed does not depend on the calls logged so far. *)
Lemma analyze_self rt seed env farm prefs h h' :
  self h' = self h ->
  fst (_analyze_seed_compatibility rt seed env farm prefs h')
  = fst (_analyze_seed_compatibility rt seed env farm prefs h).
Proof.
  intros E. unfold _analyze_seed_compatibility.
  unfold mbind, mmodify. cbn beta iota.
  assert (R : reads_only_self
                (mtry (_analyze_seed_compatibility_body rt seed env farm prefs)
                      (fun _ => mret (neutral_compatibility seed)))).
  { apply reads_try; [apply analyze_body_reads | intro; apply reads_ret]. }
  apply (R (log_analysis (Seed_id seed) h)). cbn. exact E.
Qed.

Lemma analyze_loop_explicit rt env farm prefs h0 seeds : forall h,
  self h = self h0 ->
  exists rs,
    mfor (fun seed => _analyze_seed_compatibility rt seed env farm prefs) seeds h
    = (Ok rs, {| self := self h;
                 analysis_calls := analysis_calls h ++ map Seed_id seeds |})
    /\ Forall2 (analysis_of rt env farm prefs h0) seeds rs.
Proof.
  induction seeds as [| seed seeds IH]; intros h E.
  - exists []. simpl. rewrite app_nil_r. destruct h. split; constructor.
  - destruct (analyze_run rt seed env farm prefs h) as (r & R & _).
    destruct (IH (log_analysis (Seed_id seed) h) E) as (rs & Rs & F).
    exists (r :: rs). simpl. run. rewrite R. run. rewrite Rs. cbn.
    rewrite <- app_assoc. split; [reflexivity |].
    constructor; [| exact F].
    unfold analysis_of. rewrite <- (analyze_self rt seed env farm prefs h0 h E).
    now rewrite R.
Qed.

Lemma generate_explicit rt w farm seeds season year prefs h :
  exists analysed,
    generate_recommendations rt w farm seeds season year prefs h
    = (Ok (firstn 10 (sort_desc analysed)),
       {| self := self h;
          analysis_calls := analysis_calls h ++ map Seed_id seeds |})
    /\ Forall2 (analysis_of rt
                  (_analyze_environmental_conditions rt w farm season year)
                  farm prefs h) seeds analysed.
Proof.
  unfold generate_recommendations, generate_recommendations_with,
    generate_recommendations_body.
  destruct (analyze_loop_explicit rt
              (_analyze_environmental_conditions rt w farm season year)
              farm prefs h seeds h eq_refl) as (rs & E & F).
  exists rs. run. rewrite E. auto.
Qed.

Lemma Forall2_length_eq {A B} (R : A -> B -> Prop) l1 l2 :
  Forall2 R l1 l2 -> List.length l1 = List.length l2.
Proof. induction 1; cbn; congruence. Qed.

Lemma analysis_of_id rt env farm prefs h seed r :
  analysis_of rt env farm prefs h seed r -> seed_id r = Seed_id seed.
Proof.
  unfold analysis_of. intro H.
  destruct (analyze_run rt seed env farm prefs h) as (r' & E & I & _).
  rewrite E in H. cbn in H. congruence.
Qed.

Lemma analysed_ids rt env farm prefs h seeds analysed :
  Forall2 (analysis_of rt env farm prefs h) seeds analysed ->
  map seed_id analysed = map Seed_id seeds.
Proof.
  induction 1 as [| s r ss rs H _ IH]; cbn; [reflexivity |].
  now rewrite (analysis_of_id _ _ _ _ _ _ _ H), IH.
Qed.

(** Every record of the returned list is the analysis of an input
    seed. *)
Lemma ranked_prefix_ids (analysed : list SeedCompatibility) (seeds : list Seed) :
  map seed_id analysed = map Seed_id seeds ->
  forall r, In r (firstn 10 (sort_desc analysed)) ->
            exists s, In s seeds /\ seed_id r = Seed_id s.
Proof.
  intros I r Hr. apply In_firstn in Hr.
  apply (Permutation_in _ (sort_desc_perm analysed)) in Hr.
  apply (in_map seed_id) in Hr. rewrite I in Hr.
  apply in_map_iff in Hr. destruct Hr as (s & Hs & Hin).
  exists s. split; [exact Hin | now symmetry].
Qed.

(** C1.  For every farm, seed list, season and year the call returns a
    list [recs].  With [analysed] the records the engine's
    [_analyze_seed_compatibility] returns for the input seeds, one per
    seed and in their order, [recs] followed by the records cut off is a
    permutation of [analysed] in non-increasing order of
    [compatibility_score]; [recs] has [min 10 (len seeds)] entries, and
    every [seed_id] in it is the id of an input seed. *)
Theorem generate_recommendations_ranked rt w farm seeds season year prefs h :
  let env := _analyze_environmental_conditions rt w farm season year in
  exists analysed recs rest h',
    generate_recommendations rt w farm seeds season year prefs h = (Ok recs, h')
    /\ Forall2 (analysis_of rt env farm prefs h) seeds analysed
    /\ Permutation analysed (recs ++ rest)
    /\ StronglySorted ranked (recs ++ rest)
    /\ List.length recs = Nat.min 10 (List.length seeds)
    /\ (forall r, In r recs -> exists s, In s seeds /\ seed_id r = Seed_id s).
Proof.
  cbv zeta.
  destruct (generate_explicit rt w farm seeds season year prefs h)
    as (analysed & E & F).
  pose proof (analysed_ids _ _ _ _ _ _ _ F) as I.
  exists analysed, (firstn 10 (sort_desc analysed)),
    (skipn 10 (sort_desc analysed)).
  eexists. split; [exact E |]. split; [exact F |].
  rewrite firstn_skipn.
  split; [symmetry; apply sort_desc_perm |].
  split; [apply sort_desc_sorted |].
  split.
  - rewrite length_firstn, sort_desc_length.
    rewrite <- (length_map seed_id analysed), I, length_map. reflexivity.
  - now apply ranked_prefix_ids.
Qed.

(** C8.  A call leaves the engine object as it found it (so
    [feature_weights], [models], [scalers], [is_trained] and
    [use_fallback] are unchanged), and [_analyze_seed_compatibility] is
    called once on each seed of the input list, in order. *)
Theorem generate_recommendations_frame rt w farm seeds season year prefs h :
  exists recs h',
    generate_recommendations rt w farm seeds season year prefs h = (Ok recs, h')
    /\ self h' = self h
    /\ analysis_calls h' = analysis_calls h ++ map Seed_id seeds.
Proof.
  destruct (generate_run rt w farm seeds season year prefs h)
    as (analysed & E & _).
  do 2 eexists. split; [exact E |]. split; reflexivity.
Qed.

(** C9.  The record [_analyze_seed_compatibility] returns, the record of
    its [except] branch, and every record [generate_recommendations]
    returns have [compatibility_score] and [risk_score] in [0, 1] and
    [confidence_level] in [0.3, 1]. *)
Theorem compatibility_record_bounds rt w seed env farm seeds season year prefs h :
  (exists r h',
      _analyze_seed_compatibility rt seed env farm prefs h = (Ok r, h')
      /\ within_bounds r)
  /\ within_bounds (neutral_compatibility seed)
  /\ (exists recs h',
         generate_recommendations rt w farm seeds season year prefs h
         = (Ok recs, h')
         /\ Forall within_bounds recs).
Proof.
  split; [| split].
  - destruct (analyze_run rt seed env farm prefs h) as (r & E & _ & B).
    eauto.
  - unfold within_bounds. cbn. lra.
  - destruct (generate_run rt w farm seeds season year prefs h)
      as (analysed & E & _ & B).
    do 2 eexists. split; [exact E |].
    apply Forall_forall. intros r Hr. apply In_firstn in Hr.
    apply (Permutation_in _ (sort_desc_perm analysed)) in Hr.
    rewrite Forall_forall in B. now apply B.
Qed.

(** ** One seed: the score *)

Lemma init_feature_weights rt :
  feature_weights (__init__ rt) = default_feature_weights.
Proof.
  unfold __init__, _initialize_models. now destruct (ML_AVAILABLE rt).
Qed.

Lemma estimate_yield_simple_eq rt seed env :
  _estimate_yield_simple rt seed env
  = or_default (yield_potential seed) 2
    * (_calculate_climate_compatibility rt seed env * 0.4
       + _calculate_soil_compatibility rt seed env * 0.4
       + (1 - _calculate_risk_score rt seed env) * 0.2).
Proof. reflexivity. Qed.

(** C3.  With the weights [__init__] sets, the record of a seed holds
    the values of [_calculate_climate_compatibility],
    [_calculate_soil_compatibility] and [_calculate_risk_score] and the
    yield [y] of [_predict_yield] (of [_estimate_yield_simple] on an
    engine that is not trained), and its overall score is the sum of 0.3
    times the climate score, 0.25 times the soil score, 0.2 times [y]
    over the yield potential (over 1 when the seed has none), 0.15 times
    one minus the risk and 0.1 times the market score, clamped into
    [0, 1]; the weights sum to 1. *)
Theorem compatibility_score_weighted rt seed env farm prefs h :
  feature_weights (self h) = default_feature_weights ->
  exists r h' y,
    _analyze_seed_compatibility rt seed env farm prefs h = (Ok r, h')
    /\ (if is_trained (self h)
        then fst (_predict_yield rt seed env h) = Ok y
        else y = _estimate_yield_simple rt seed env)
    /\ climate_match_score r = _calculate_climate_compatibility rt seed env
    /\ soil_match_score r = _calculate_soil_compatibility rt seed env
    /\ risk_score r = _calculate_risk_score rt seed env
    /\ yield_prediction r = y
    /\ compatibility_score r ==
       Qmin 1 (Qmax 0
         (0.3 * _calculate_climate_compatibility rt seed env
          + 0.25 * _calculate_soil_compatibility rt seed env
          + 0.2 * (y / or_default (yield_potential seed) 1)
          + 0.15 * (1 - _calculate_risk_score rt seed env)
          + 0.1 * _calculate_market_score seed prefs))
    /\ Qsum (map snd default_feature_weights) == 1.
Proof.
  intro W.
  set (h0 := log_analysis (Seed_id seed) h).
  destruct (analyze_body_default rt seed env farm prefs h0 W) as (r & B & S).
  destruct (analyze_body_fields _ _ _ _ _ _ _ _ B)
    as (_ & C & So & R & _ & _ & _).
  exists r, h0, (yield_prediction r).
  split.
  { unfold _analyze_seed_compatibility. run. fold h0. rewrite B. reflexivity. }
  split.
  { (* the yield step *)
    revert B. unfold _analyze_seed_compatibility_body. run.
    change (is_trained (self h0)) with (is_trained (self h)).
    destruct (is_trained (self h)) eqn:T.
    - destruct (predict_yield_run rt seed env h0) as [y Y].
      rewrite Y.
      destruct (predict_yield_reads rt seed env h0) as [_ P].
      specialize (P h eq_refl). rewrite Y in P. cbn in P.
      destruct (confidence_level_run env seed h0) as [c [Cf _]].
      rewrite Cf.
      repeat match goal with
             | |- context [match ?x with Ok _ => _ | Raise _ => _ end] =>
                 destruct x
             end; intro H; inversion H; subst; clear H; cbn. exact P.
    - destruct (confidence_level_run env seed h0) as [c [Cf _]].
      rewrite Cf.
      repeat match goal with
             | |- context [match ?x with Ok _ => _ | Raise _ => _ end] =>
                 destruct x
             end; intro H; inversion H; subst; clear H; cbn. reflexivity. }
  split; [exact C |]. split; [exact So |]. split; [exact R |].
  split; [reflexivity |]. split; [| reflexivity].
  rewrite S, C, So, R, py_min_is_Qmin, py_max_is_Qmax.
  apply Q.min_compat; [reflexivity |].
  apply Q.max_compat; [reflexivity |]. ring.
Qed.

Lemma compatibility_score_weighted_witness :
  feature_weights (self (fresh_heap rt_ml)) = default_feature_weights
  /\ exists r h' y,
      _analyze_seed_compatibility rt_ml longe_10h default_conditions
        kampala_farm None (fresh_heap rt_ml) = (Ok r, h')
      /\ (if is_trained (self (fresh_heap rt_ml))
          then fst (_predict_yield rt_ml longe_10h default_conditions
                      (fresh_heap rt_ml)) = Ok y
          else y = _estimate_yield_simple rt_ml longe_10h default_conditions)
      /\ climate_match_score r
         = _calculate_climate_compatibility rt_ml longe_10h default_conditions
      /\ soil_match_score r
         = _calculate_soil_compatibility rt_ml longe_10h default_conditions
      /\ risk_score r = _calculate_risk_score rt_ml longe_10h default_conditions
      /\ yield_prediction r = y
      /\ compatibility_score r ==
         Qmin 1 (Qmax 0
           (0.3 * _calculate_climate_compatibility rt_ml longe_10h
                    default_conditions
            + 0.25 * _calculate_soil_compatibility rt_ml longe_10h
                       default_conditions
            + 0.2 * (y / or_default (yield_potential longe_10h) 1)
            + 0.15 * (1 - _calculate_risk_score rt_ml longe_10h
                            default_conditions)
            + 0.1 * _calculate_market_score longe_10h None))
      /\ Qsum (map snd default_feature_weights) == 1.
Proof.
  split; [reflexivity |].
  apply (compatibility_score_weighted rt_ml longe_10h default_conditions
           kampala_farm None (fresh_heap rt_ml)).
  reflexivity.
Defined.

(** ** Exceptions *)

(** C5.  [_analyze_seed_compatibility] never raises; when its [try]
    block raises, it returns the neutral record of the seed, whose
    scores are 0.5, whose confidence is 0.3, whose yield is the seed's
    yield potential or 1.0, and whose only reason is "Analysis error
    occurred".  [generate_recommendations] never raises, and when its
    [try] block raises (whatever method it dispatches to for the
    per-seed analysis) it returns the empty list. *)
Theorem exceptions_are_contained rt w seed env farm seeds season year prefs h :
  (exists r h',
      _analyze_seed_compatibility rt seed env farm prefs h = (Ok r, h'))
  /\ (forall e h',
         _analyze_seed_compatibility_body rt seed env farm prefs
           (log_analysis (Seed_id seed) h) = (Raise e, h') ->
         _analyze_seed_compatibility rt seed env farm prefs h
         = (Ok (neutral_compatibility seed), h'))
  /\ (seed_id (neutral_compatibility seed) = Seed_id seed
      /\ compatibility_score (neutral_compatibility seed) = 0.5
      /\ climate_match_score (neutral_compatibility seed) = 0.5
      /\ soil_match_score (neutral_compatibility seed) = 0.5
      /\ risk_score (neutral_compatibility seed) = 0.5
      /\ confidence_level (neutral_compatibility seed) = 0.3
      /\ yield_prediction (neutral_compatibility seed)
         = or_default (yield_potential seed) 1
      /\ reasons (neutral_compatibility seed)
         = ["Analysis error occurred"%string])
  /\ (exists recs h',
         generate_recommendations rt w farm seeds season year prefs h
         = (Ok recs, h'))
  /\ (forall analyze e h',
         generate_recommendations_body rt w analyze farm seeds season year
           prefs h = (Raise e, h') ->
         generate_recommendations_with rt w analyze farm seeds season year
           prefs h = (Ok [], h')).
Proof.
  split; [| split; [| split; [| split]]].
  - destruct (analyze_run rt seed env farm prefs h) as (r & E & _). eauto.
  - intros e h' B. unfold _analyze_seed_compatibility. run. now rewrite B.
  - repeat split.
  - destruct (generate_run rt w farm seeds season year prefs h)
      as (analysed & E & _). eauto.
  - intros analyze e h' B. unfold generate_recommendations_with. run.
    now rewrite B.
Qed.

Lemma exceptions_are_contained_witness :
  (_analyze_seed_compatibility_body rt_ml longe_10h default_conditions
     kampala_farm None (log_analysis (Seed_id longe_10h) broken_heap)
   = (Raise (KeyError "climate_compatibility"),
      log_analysis (Seed_id longe_10h) broken_heap)
   /\ _analyze_seed_compatibility rt_ml longe_10h default_conditions
        kampala_farm None broken_heap
      = (Ok (neutral_compatibility longe_10h),
         log_analysis (Seed_id longe_10h) broken_heap))
  /\ (generate_recommendations_body rt_ml quiet_world failing_analysis
        kampala_farm [longe_10h] "A" 2025 None broken_heap
      = (Raise TypeError, broken_heap)
      /\ generate_recommendations_with rt_ml quiet_world failing_analysis
           kampala_farm [longe_10h] "A" 2025 None broken_heap
         = (Ok [], broken_heap)).
Proof.
  destruct (exceptions_are_contained rt_ml quiet_world longe_10h
              default_conditions kampala_farm [longe_10h] "A"%string 2025%Z
              None broken_heap) as (_ & A & _ & _ & G).
  split; (split; [reflexivity |]).
  - apply (A (KeyError "climate_compatibility")). reflexivity.
  - apply (G failing_analysis TypeError). reflexivity.
Defined.

(** ** Without the ML packages *)

Lemma mean_or_half_fallback rt (xs : list Q) :
  ML_AVAILABLE rt = false -> xs <> [] ->
  mean_or_half rt xs = Raise AttributeError.
Proof.
  intros A N. destruct xs as [| x xs]; [contradiction |].
  unfold mean_or_half, np_mean. now rewrite A.
Qed.

(** With [np] bound to [None], the three sub-score methods end in their
    [except] branch whatever the seed and the conditions are. *)
Lemma fallback_scores_constant rt seed env :
  ML_AVAILABLE rt = false ->
  _calculate_climate_compatibility rt seed env = 0.5
  /\ _calculate_soil_compatibility rt seed env = 0.5
  /\ _calculate_risk_score rt seed env = 0.5.
Proof.
  intro A. repeat split.
  - unfold _calculate_climate_compatibility.
    destruct (range_scores _ _ _) as [t |]; [| reflexivity].
    destruct (range_scores _ _ _) as [r |]; [| reflexivity].
    destruct (range_scores _ _ _) as [a |]; [| reflexivity].
    destruct (need (drought_tolerance seed)) as [dt |]; [| reflexivity].
    destruct (need (flood_tolerance seed)) as [ft |]; [| reflexivity].
    cbn [rbind]. rewrite mean_or_half_fallback; [reflexivity | exact A |].
    intro N. repeat (apply app_eq_nil in N; destruct N as [_ N]).
    discriminate.
  - unfold _calculate_soil_compatibility.
    destruct (range_scores _ _ _) as [p |]; [| reflexivity].
    repeat (destruct (nutrient_score _ _ _) as [? |]; [| reflexivity]).
    destruct (py_div _ _) as [om |]; [| reflexivity].
    cbn [rbind]. rewrite mean_or_half_fallback; [reflexivity | exact A |].
    intro N. apply app_eq_nil in N. destruct N as [_ N]. discriminate.
  - unfold _calculate_risk_score, np_mean_opt. now rewrite A.
Qed.

(** C2.  Without the ML packages the engine sets [use_fallback] and
    [train_models] returns the skipped status and changes nothing, but
    the sub-scores are not computed by the rules: [np] is bound to
    [None], [np.mean] raises in each of the three methods, and the
    climate, soil and risk scores are the 0.5 of the [except] branches.
    For Longe 10H under the default conditions the rules, as the same
    methods compute them when [np.mean] is there, give 439/500, 997/1200
    and 11291/40000; the engine records 0.5 three times, and a yield
    estimate of 6.5 times the factor made of them. *)
Theorem without_ml_packages :
  ML_AVAILABLE rt_fallback = false
  /\ use_fallback (__init__ rt_fallback) = true
  /\ (forall fit h, train_models rt_fallback fit h = (Ok (Skipped true), h))
  /\ (_calculate_climate_compatibility rt_ml longe_10h default_conditions
      == 439 # 500
      /\ _calculate_soil_compatibility rt_ml longe_10h default_conditions
         == 997 # 1200
      /\ _calculate_risk_score rt_ml longe_10h default_conditions
         == 11291 # 40000)
  /\ exists r h',
      _analyze_seed_compatibility rt_fallback longe_10h default_conditions
        kampala_farm None (fresh_heap rt_fallback) = (Ok r, h')
      /\ climate_match_score r = 0.5
      /\ soil_match_score r = 0.5
      /\ risk_score r = 0.5
      /\ yield_prediction r == 6.5 * (0.4 * 0.5 + 0.4 * 0.5 + 0.2 * (1 - 0.5)).
Proof.
  split; [reflexivity |]. split; [reflexivity |].
  split; [intros fit h; reflexivity |].
  split; [repeat split; vm_compute; reflexivity |].
  do 2 eexists. split; [vm_compute; reflexivity |].
  repeat split; vm_compute; reflexivity.
Qed.

(** ** Determinism *)

Lemma fetch_soilgrids_agree w1 w2 :
  same_answers w1 w2 -> fetch_soilgrids w1 = fetch_soilgrids w2.
Proof.
  intros (_ & _ & S & _). unfold fetch_soilgrids.
  induction soilgrids_properties as [| p ps IH]; [reflexivity |].
  cbn [flat_map]. rewrite (S p (or_introl eq_refl)).
  f_equal. apply IH. intros q Hq. apply S. now right.
Qed.

Lemma synthetic_soil_agree rt w1 w2 lat lon c :
  same_answers w1 w2 -> (c <= 2)%nat ->
  _generate_synthetic_soil_data rt w1 lat lon c
  = _generate_synthetic_soil_data rt w2 lat lon c.
Proof.
  intros (_ & _ & _ & D) C.
  unfold _generate_synthetic_soil_data, np_random_choice3, np_random_normal,
    np_random.
  destruct (HAS_NUMPY rt); [| destruct (Qltb 2 lat), (Qltb lat 0.5); reflexivity].
  unfold mbind, mret. cbn beta iota.
  destruct (Qltb 2 lat); [| destruct (Qltb lat 0.5)]; cbn beta iota;
    rewrite !D by lia; reflexivity.
Qed.

Lemma soil_lookup_agree rt w1 w2 lat lon :
  same_answers w1 w2 ->
  get_soil_data_from_coordinates rt w1 lat lon O
  = get_soil_data_from_coordinates rt w2 lat lon O.
Proof.
  intros A. pose proof A as (_ & _ & _ & D).
  unfold get_soil_data_from_coordinates.
  rewrite (fetch_soilgrids_agree _ _ A).
  unfold np_random_normal, np_random, mtry, mbind, mlift, mret, mraise.
  cbn beta iota.
  assert (S : forall c, (c <= 2)%nat ->
                _generate_synthetic_soil_data rt w1 lat lon c
                = _generate_synthetic_soil_data rt w2 lat lon c).
  { intros c C. now apply synthetic_soil_agree. }
  destruct (HAS_NUMPY rt); cbn beta iota;
    repeat match goal with
           | |- context [match soil_value ?a ?b ?c ?d with
                         | Ok _ => _ | Raise _ => _ end] =>
               destruct (soil_value a b c d)
           end;
    rewrite ?D by lia;
    first [reflexivity | apply S; lia].
Qed.

Lemma conditions_agree rt w1 w2 farm season year :
  same_answers w1 w2 ->
  _analyze_environmental_conditions rt w1 farm season year
  = _analyze_environmental_conditions rt w2 farm season year.
Proof.
  intros A. unfold _analyze_environmental_conditions.
  rewrite (soil_lookup_agree rt w1 w2 _ _ A).
  destruct A as (-> & -> & _). reflexivity.
Qed.

Lemma analysed_unique rt env farm prefs h seeds l1 : forall l2,
  Forall2 (analysis_of rt env farm prefs h) seeds l1 ->
  Forall2 (analysis_of rt env farm prefs h) seeds l2 -> l1 = l2.
Proof.
  intros l2 F1. revert l2.
  induction F1 as [| s r ss rs H _ IH]; intros l2 F2; inversion F2; subst;
    [reflexivity |].
  f_equal; [| now apply IH].
  unfold analysis_of in *. congruence.
Qed.

Lemma analysis_of_self rt env farm prefs h h' seeds l :
  self h' = self h ->
  Forall2 (analysis_of rt env farm prefs h') seeds l ->
  Forall2 (analysis_of rt env farm prefs h) seeds l.
Proof.
  intros E. induction 1 as [| s r ss rs H _ IH]; constructor; [| exact IH].
  unfold analysis_of in *. now rewrite <- (analyze_self _ _ _ _ _ h h' E).
Qed.

(** C6, as the code has it.  Two calls on the same farm, seeds,
    season, year and preferences return the same list whenever the
    services give both the same answers ([same_answers]), the second
    call being made on the engine the first one left, or on the engine
    the first one started from. *)
Theorem generate_recommendations_deterministic
        rt w1 w2 farm seeds season year prefs h :
  same_answers w1 w2 ->
  exists recs h1 h2,
    generate_recommendations rt w1 farm seeds season year prefs h = (Ok recs, h1)
    /\ generate_recommendations rt w2 farm seeds season year prefs h1
       = (Ok recs, h2)
    /\ generate_recommendations rt w2 farm seeds season year prefs h
       = (Ok recs, h1).
Proof.
  intros A.
  destruct (generate_explicit rt w1 farm seeds season year prefs h)
    as (l1 & E1 & F1).
  set (h1 := {| self := self h;
                analysis_calls := analysis_calls h ++ map Seed_id seeds |}) in *.
  destruct (generate_explicit rt w2 farm seeds season year prefs h1)
    as (l2 & E2 & F2).
  destruct (generate_explicit rt w2 farm seeds season year prefs h)
    as (l3 & E3 & F3).
  rewrite <- (conditions_agree rt w1 w2 farm season year A) in F2, F3.
  apply (analysis_of_self _ _ _ _ h h1) in F2; [| reflexivity].
  rewrite <- (analysed_unique _ _ _ _ _ _ _ _ F1 F2) in E2.
  rewrite <- (analysed_unique _ _ _ _ _ _ _ _ F1 F3) in E3.
  do 3 eexists. split; [exact E1 |]. split; [exact E2 | exact E3].
Qed.

Lemma generate_recommendations_deterministic_witness :
  same_answers quiet_world noisy_world
  /\ exists recs h1 h2,
      generate_recommendations rt_ml quiet_world kampala_farm
        [longe_10h; unrated_variety] "A" 2025 None (fresh_heap rt_ml)
      = (Ok recs, h1)
      /\ generate_recommendations rt_ml noisy_world kampala_farm
           [longe_10h; unrated_variety] "A" 2025 None h1 = (Ok recs, h2)
      /\ generate_recommendations rt_ml noisy_world kampala_farm
           [longe_10h; unrated_variety] "A" 2025 None (fresh_heap rt_ml)
         = (Ok recs, h1).
Proof.
  assert (A : same_answers quiet_world noisy_world).
  { split; [reflexivity |]. split; [reflexivity |]. split.
    - intros prop H. cbn in H.
      repeat (destruct H as [<- | H]; [reflexivity |]). contradiction.
    - intros i H. unfold noisy_world, quiet_world. cbn [random_draws].
      apply Nat.ltb_lt in H. now rewrite H. }
  split; [exact A |].
  apply (generate_recommendations_deterministic rt_ml quiet_world noisy_world
           kampala_farm [longe_10h; unrated_variety] "A"%string 2025%Z None
           (fresh_heap rt_ml) A).
Defined.

(** C6, as the claim words it, fails: the same farm, seed list, season,
    year, preferences and engine state give two different scores in two
    worlds that differ only in what the random generator yields while the
    soil service makes up its data. *)
Lemma generate_recommendations_counterexample :
  exists r1 r2 h1 h2,
    generate_recommendations rt_ml quiet_world kampala_farm [longe_10h]
      "A" 2025 None (fresh_heap rt_ml) = (Ok [r1], h1)
    /\ generate_recommendations rt_ml other_world kampala_farm [longe_10h]
         "A" 2025 None (fresh_heap rt_ml) = (Ok [r2], h2)
    /\ soil_match_score r1 == 107 # 120
    /\ soil_match_score r2 == 711 # 800
    /\ ~ compatibility_score r1 == compatibility_score r2.
Proof.
  do 4 eexists.
  split; [vm_compute; reflexivity |].
  split; [vm_compute; reflexivity |].
  split; [reflexivity |]. split; [reflexivity |].
  intro H. vm_compute in H. discriminate.
Qed.

(** ** [get_recommendations] and the database *)






(** The handler on the sample database: two rows are committed when the
    commit succeeds, none when it raises. *)
Example get_recommendations_commits :
  let '(outcome, a') :=
    get_recommendations rt_ml quiet_world no_faults sample_request
      sample_user sample_app in
  (exists entries, outcome = Ok entries /\ List.length entries = 2%nat)
  /\ map rec_seed_id (seed_recommendations (db a')) = [2%Z; 1%Z]
  /\ pending (db a') = [].
Proof.
  vm_compute. split; [eexists; split; reflexivity | split; reflexivity].
Qed.

Example get_recommendations_rolls_back :
  let '(outcome, a') :=
    get_recommendations rt_ml quiet_world commit_fault sample_request
      sample_user sample_app in
  outcome = Raise (HTTPException 500)
  /\ seed_recommendations (db a') = []
  /\ pending (db a') = [].
Proof. vm_compute. repeat split. Qed.

(** ** Routes *)





(** ** The farm routes *)







Section FarmRoutes.
Variable decode : string -> option User.
Variable round : Q -> Z -> Q.




Lemma others_untouched_refl u s : others_untouched u s s.
Proof. repeat split. Qed.




(** The three handlers that create a row of a farm raise [TypeError] for
    a farm of the user, and write nothing. *)
Lemma create_rows_raise q u s farm_id f :
  owned_farm farm_id u s = (Ok (Some f), db_query "farms" s) ->
  (exists p, q = CreateSoilProfile farm_id p)
  \/ (exists p, q = CreateClimateRecord farm_id p)
  \/ (exists p, q = CreateCropCycle farm_id p) ->
  farm_handler round q u s = (Raise TypeError, db_query "farms" s).
Proof.
  intros Eo [[p ->] | [[p ->] | [p ->]]]; cbn [farm_handler];
    unfold create_soil_profile, create_climate_record, create_crop_cycle;
    run; rewrite Eo; reflexivity.
Qed.

End FarmRoutes.




(** * Further properties *)

(** ** The range score outside positive bounds *)

Lemma Qdiv_neg_den (a b : Q) : 0 < a -> b < 0 -> a / b < 0.
Proof.
  intros Ha Hb.
  assert (E : a / b == - (a / - b)) by (field; lra).
  rewrite E. assert (0 < a / - b) by (apply Qdiv_pos; lra). lra.
Qed.

(** X1.  Below a negative lower bound the range score is greater than 1:
    the unit interval is kept only for positive bounds. *)
Theorem score_range_negative_bound (value min_val max_val : Q) :
  min_val < 0 -> value < min_val ->
  exists s, _score_range_compatibility value min_val max_val = Ok s /\ 1 < s.
Proof.
  intros Hneg Hlt. unfold _score_range_compatibility.
  assert (E1 : Qle_bool min_val value = false).
  { destruct (Qle_bool min_val value) eqn:E; [| reflexivity].
    apply Qle_bool_iff in E. lra. }
  rewrite E1. cbn [andb].
  assert (T : Qltb value min_val = true) by now apply Qltb_true.
  rewrite T, py_div_ok by lra. cbn [rbind].
  assert (D : (min_val - value) / min_val < 0) by (apply Qdiv_neg_den; lra).
  eexists. split; [reflexivity |].
  destruct (py_max_cases 0 (1 - (min_val - value) / min_val))
    as [[H E] | [H E]]; rewrite E; lra.
Qed.

Lemma score_range_negative_bound_witness :
  -5 < 0 /\ -10 < -5
  /\ exists s, _score_range_compatibility (-10) (-5) 30 = Ok s /\ 1 < s.
Proof.
  split; [reflexivity |]. split; [reflexivity |].
  apply (score_range_negative_bound (-10) (-5) 30); reflexivity.
Defined.

Lemma score_range_nonneg (value lo hi s : Q) :
  _score_range_compatibility value lo hi = Ok s -> 0 <= s.
Proof.
  unfold _score_range_compatibility.
  destruct (Qle_bool lo value && Qle_bool value hi).
  - intro H. inversion H. lra.
  - destruct (Qltb value lo).
    + destruct (py_div _ _) as [d |]; cbn [rbind]; intro H; inversion H.
      destruct (py_max_cases 0 (1 - d)) as [[? E] | [? E]]; rewrite E; lra.
    + destruct (py_div _ _) as [d |]; cbn [rbind]; intro H; inversion H.
      destruct (py_max_cases 0 (1 - d)) as [[? E] | [? E]]; rewrite E; lra.
Qed.

Lemma truthy_nonzero (o : option Q) :
  truthy o = true -> exists q, o = Some q /\ ~ q == 0.
Proof.
  destruct o as [q |]; [| discriminate]. cbn. intro H.
  exists q. split; [reflexivity |]. intro E.
  apply Qeq_bool_iff in E. rewrite E in H. discriminate.
Qed.

Lemma score_range_total (value lo hi : Q) :
  ~ lo == 0 -> ~ hi == 0 ->
  exists s, _score_range_compatibility value lo hi = Ok s.
Proof.
  intros Hl Hh. unfold _score_range_compatibility.
  destruct (Qle_bool lo value && Qle_bool value hi); [eauto |].
  destruct (Qltb value lo); rewrite py_div_ok by assumption; cbn; eauto.
Qed.

(** X2.  The unguarded function raises [ZeroDivisionError] at a zero
    lower bound, but the methods reach it only through the truthiness
    test on both bounds: a range whose bound is absent or zero adds no
    score, every other range adds exactly one score, which is not
    negative, and no exception is raised. *)
Theorem range_scores_guarded (value : Q) (lo hi : option Q) :
  (forall max_val,
      value < 0 ->
      _score_range_compatibility value 0 max_val = Raise ZeroDivisionError)
  /\ exists l,
      range_scores value lo hi = Ok l
      /\ List.length l = (if truthy lo && truthy hi then 1 else 0)%nat
      /\ Forall (fun s => 0 <= s) l.
Proof.
  split.
  - intros max_val H. unfold _score_range_compatibility.
    assert (E : Qle_bool 0 value = false).
    { destruct (Qle_bool 0 value) eqn:E; [| reflexivity].
      apply Qle_bool_iff in E. lra. }
    rewrite E. cbn [andb].
    assert (T : Qltb value 0 = true) by now apply Qltb_true.
    now rewrite T.
  - unfold range_scores.
    destruct (truthy lo) eqn:Tl; cbn [andb]; [| exists []; repeat split; constructor].
    destruct (truthy hi) eqn:Th; [| exists []; repeat split; constructor].
    destruct (truthy_nonzero _ Tl) as (l & -> & Nl).
    destruct (truthy_nonzero _ Th) as (h & -> & Nh).
    destruct (score_range_total value l h Nl Nh) as [s E].
    rewrite E. cbn [rbind]. exists [s]. repeat split.
    constructor; [| constructor]. eapply score_range_nonneg, E.
Qed.

Lemma range_scores_guarded_witness :
  -3 < 0
  /\ _score_range_compatibility (-3) 0 10 = Raise ZeroDivisionError
  /\ exists l,
      range_scores (-3) (Some 0) (Some 10) = Ok l
      /\ List.length l
         = (if truthy (Some 0) && truthy (Some 10) then 1%nat else 0%nat)
      /\ Forall (fun s => 0 <= s) l.
Proof.
  destruct (range_scores_guarded (-3) (Some 0) (Some 10)) as [Z G].
  split; [reflexivity |]. split; [apply Z; reflexivity | exact G].
Defined.

(** ** Sub-scores on the unit interval *)

Lemma Qsum_bounds (xs : list Q) :
  Forall unit_interval xs ->
  0 <= Qsum xs <= inject_Z (Z.of_nat (List.length xs)).
Proof.
  unfold Qsum.
  induction 1 as [| x xs Hx _ IH]; cbn [fold_right List.length].
  - change (inject_Z (Z.of_nat 0)) with 0. lra.
  - rewrite Nat2Z.inj_succ, <- Z.add_1_r, inject_Z_plus.
    change (inject_Z 1) with 1. unfold unit_interval in Hx. lra.
Qed.

Lemma np_mean_unit rt (xs : list Q) m :
  xs <> [] -> Forall unit_interval xs -> np_mean rt xs = Ok m -> unit_interval m.
Proof.
  intros N F. unfold np_mean. destruct (ML_AVAILABLE rt); [| discriminate].
  intro H. inversion H; subst. clear H.
  pose proof (Qsum_bounds xs F) as [L U].
  assert (P : 0 < inject_Z (Z.of_nat (List.length xs))).
  { destruct xs as [| x xs]; [contradiction |].
    cbn [List.length]. rewrite Nat2Z.inj_succ, <- Z.add_1_r, inject_Z_plus.
    assert (0 <= inject_Z (Z.of_nat (List.length xs))).
    { rewrite <- (Zle_Qle 0). lia. }
    change (inject_Z 1) with 1. lra. }
  split.
  - apply Qle_shift_div_l; [exact P | lra].
  - apply Qle_shift_div_r; [exact P | lra].
Qed.

Lemma mean_or_half_unit rt (xs : list Q) m :
  Forall unit_interval xs -> mean_or_half rt xs = Ok m -> unit_interval m.
Proof.
  intros F. destruct xs as [| x xs]; cbn [mean_or_half].
  - intro H. inversion H. unfold unit_interval. lra.
  - apply np_mean_unit; [discriminate | exact F].
Qed.

Lemma range_scores_unit (value : Q) (lo hi : option Q) l :
  bound_ok lo -> bound_ok hi ->
  range_scores value lo hi = Ok l -> Forall unit_interval l.
Proof.
  intros Bl Bh. unfold range_scores.
  destruct (truthy lo) eqn:Tl; cbn [andb];
    [| intro H; inversion H; constructor].
  destruct (truthy hi) eqn:Th; [| intro H; inversion H; constructor].
  destruct (truthy_nonzero _ Tl) as (a & -> & Na).
  destruct (truthy_nonzero _ Th) as (b & -> & Nb).
  cbn in Bl, Bh.
  assert (Pa : 0 < a) by (apply Qle_lteq in Bl; destruct Bl as [? | E];
                          [assumption | symmetry in E; contradiction]).
  assert (Pb : 0 < b) by (apply Qle_lteq in Bh; destruct Bh as [? | E];
                          [assumption | symmetry in E; contradiction]).
  unfold _score_range_compatibility.
  destruct (Qle_bool a value && Qle_bool value b) eqn:R; cbn [rbind].
  - intro H. inversion H. repeat constructor; lra.
  - destruct (Qltb value a) eqn:L; rewrite py_div_ok by lra; cbn [rbind];
      intro H; inversion H; constructor; [| constructor | | constructor].
    + apply Qltb_true in L.
      assert (0 < (a - value) / a) by (apply Qdiv_pos; lra).
      unfold unit_interval.
      destruct (py_max_cases 0 (1 - (a - value) / a)) as [[? E] | [? E]];
        rewrite E; lra.
    + apply Qltb_false in L.
      assert (V : b < value).
      { apply andb_false_iff in R. destruct R as [R | R].
        - exfalso. apply not_true_iff_false in R. apply R.
          now apply Qle_bool_iff.
        - apply Qnot_le_lt. intro C. apply Qle_bool_iff in C. congruence. }
      assert (0 < (value - b) / b) by (apply Qdiv_pos; lra).
      unfold unit_interval.
      destruct (py_max_cases 0 (1 - (value - b) / b)) as [[? E] | [? E]];
        rewrite E; lra.
Qed.

Lemma Forall_app_intro {A} (P : A -> Prop) l1 l2 :
  Forall P l1 -> Forall P l2 -> Forall P (l1 ++ l2).
Proof. intros. apply Forall_app. now split. Qed.

(** X3.  When the seed's range bounds are not negative, its drought and
    flood tolerances are on the 0-1 scale, the climate risk is in [0, 1]
    and the drainage score is not negative, the climate compatibility
    score is in [0, 1], with or without the ML packages. *)
Theorem climate_compatibility_unit rt seed env :
  bound_ok (optimal_temp_min seed) -> bound_ok (optimal_temp_max seed) ->
  bound_ok (min_rainfall seed) -> bound_ok (max_rainfall seed) ->
  bound_ok (altitude_min seed) -> bound_ok (altitude_max seed) ->
  tolerance_ok (drought_tolerance seed) -> tolerance_ok (flood_tolerance seed) ->
  0 <= climate_risk_score env <= 1 -> 0 <= drainage_score env ->
  0 <= _calculate_climate_compatibility rt seed env <= 1.
Proof.
  intros B1 B2 B3 B4 B5 B6 Td Tf Hr Hd.
  unfold _calculate_climate_compatibility.
  destruct (range_scores _ _ _) as [t |] eqn:Et; cbn [rbind try_except]; [| lra].
  destruct (range_scores _ (min_rainfall seed) _) as [r |] eqn:Er;
    cbn [rbind try_except]; [| lra].
  destruct (range_scores _ (altitude_min seed) _) as [a |] eqn:Ea;
    cbn [rbind try_except]; [| lra].
  destruct (drought_tolerance seed) as [dt |]; cbn [need rbind try_except]; [| lra].
  destruct (flood_tolerance seed) as [ft |]; cbn [need rbind try_except]; [| lra].
  destruct (mean_or_half rt _) as [m |] eqn:Em; cbn [try_except]; [| lra].
  apply (mean_or_half_unit rt _ m) in Em; [exact Em |].
  cbn in Td, Tf.
  repeat apply Forall_app_intro;
    try (eapply range_scores_unit; [| | eassumption]; assumption).
  constructor; [| constructor; [| constructor]]; unfold unit_interval.
  - split; [apply Qmult_le_0_compat; lra |].
    assert (dt * (1 - climate_risk_score env) <= 1 * 1).
    { apply Qmult_le_compat_nonneg; split; lra. }
    lra.
  - destruct (py_max_cases 0 (1 - drainage_score env)) as [[? E] | [? E]];
      rewrite E.
    + assert (Qabs (ft - (1 - drainage_score env)) <= 1)
        by (apply Qabs_Qle_condition; lra).
      pose proof (Qabs_nonneg (ft - (1 - drainage_score env))). lra.
    + assert (Qabs (ft - 0) <= 1) by (apply Qabs_Qle_condition; lra).
      pose proof (Qabs_nonneg (ft - 0)). lra.
Qed.

Lemma climate_compatibility_unit_witness :
  (bound_ok (optimal_temp_min longe_10h) /\ bound_ok (optimal_temp_max longe_10h)
   /\ bound_ok (min_rainfall longe_10h) /\ bound_ok (max_rainfall longe_10h)
   /\ bound_ok (altitude_min longe_10h) /\ bound_ok (altitude_max longe_10h)
   /\ tolerance_ok (drought_tolerance longe_10h)
   /\ tolerance_ok (flood_tolerance longe_10h)
   /\ 0 <= climate_risk_score default_conditions <= 1
   /\ 0 <= drainage_score default_conditions)
  /\ 0 <= _calculate_climate_compatibility rt_ml longe_10h default_conditions <= 1.
Proof.
  assert (H : bound_ok (optimal_temp_min longe_10h)
              /\ bound_ok (optimal_temp_max longe_10h)
              /\ bound_ok (min_rainfall longe_10h)
              /\ bound_ok (max_rainfall longe_10h)
              /\ bound_ok (altitude_min longe_10h)
              /\ bound_ok (altitude_max longe_10h)
              /\ tolerance_ok (drought_tolerance longe_10h)
              /\ tolerance_ok (flood_tolerance longe_10h)
              /\ 0 <= climate_risk_score default_conditions <= 1
              /\ 0 <= drainage_score default_conditions).
  { cbn. repeat split; lra. }
  split; [exact H |].
  destruct H as (H1 & H2 & H3 & H4 & H5 & H6 & H7 & H8 & H9 & H10).
  now apply (climate_compatibility_unit rt_ml longe_10h default_conditions).
Defined.

Lemma requirement_score_unit (r : option string) :
  0.3 <= _requirement_to_score r <= 0.9.
Proof.
  unfold _requirement_to_score, dict_get. destruct r as [r |]; [| lra].
  cbn [dict_lookup].
  repeat (destruct (String.eqb r _); [lra |]). lra.
Qed.

Lemma texture_compatibility_unit (crop : string) (t : Q) :
  0 <= t <= 1 -> 0 <= _calculate_texture_compatibility crop t <= 1.
Proof.
  intro H. unfold _calculate_texture_compatibility.
  destruct (String.eqb crop "rice"); [lra |].
  set (p := dict_get _ crop 0.7).
  assert (P : 0 <= p <= 1).
  { subst p. unfold dict_get. cbn [dict_lookup].
    repeat (destruct (String.eqb crop _); [lra |]). lra. }
  assert (0 <= t * p) by (apply Qmult_le_0_compat; lra).
  destruct (py_min_cases 1 (t * p)) as [[? E] | [? E]]; rewrite E; lra.
Qed.

Lemma nutrient_score_unit (r : option string) (available scale s : Q) :
  0 < scale -> 0 <= available ->
  nutrient_score r available scale = Ok s -> unit_interval s.
Proof.
  intros Hs Ha. unfold nutrient_score. rewrite py_div_ok by lra.
  cbn [rbind]. cbv zeta. intro H.
  apply (f_equal (fun x => match x with Ok y => y | Raise _ => 0 end)) in H.
  cbv beta iota in H. subst s.
  pose proof (requirement_score_unit r) as R.
  assert (D : 0 <= available / scale).
  { apply Qle_shift_div_l; [exact Hs | lra]. }
  set (a := py_min 1 (available / scale)).
  assert (A : 0 <= a <= 1).
  { subst a. destruct (py_min_cases 1 (available / scale)) as [[? E] | [? E]];
      rewrite E; lra. }
  assert (Qabs (_requirement_to_score r - a) <= 0.9)
    by (apply Qabs_Qle_condition; lra).
  pose proof (Qabs_nonneg (_requirement_to_score r - a)).
  unfold unit_interval. lra.
Qed.

(** X4.  When the seed's pH bounds are not negative, the soil's
    organic matter and nutrients are not negative and the texture score
    is in [0, 1], the soil compatibility score is in [0, 1], with or
    without the ML packages. *)
Theorem soil_compatibility_unit rt seed env :
  bound_ok (preferred_ph_min seed) -> bound_ok (preferred_ph_max seed) ->
  0 <= soil_nitrogen env -> 0 <= soil_phosphorus env ->
  0 <= soil_potassium env -> 0 <= soil_organic_matter env ->
  0 <= soil_texture_score env <= 1 ->
  0 <= _calculate_soil_compatibility rt seed env <= 1.
Proof.
  intros B1 B2 Hn Hp Hk Ho Ht. unfold _calculate_soil_compatibility.
  destruct (range_scores _ _ _) as [ph |] eqn:Eph; cbn [rbind try_except]; [| lra].
  destruct (nutrient_score (nitrogen_requirement seed) _ _) as [n |] eqn:En;
    cbn [rbind try_except]; [| lra].
  destruct (nutrient_score (phosphorus_requirement seed) _ _) as [p |] eqn:Ep;
    cbn [rbind try_except]; [| lra].
  destruct (nutrient_score (potassium_requirement seed) _ _) as [k |] eqn:Ek;
    cbn [rbind try_except]; [| lra].
  rewrite py_div_ok by lra. cbn [rbind].
  destruct (mean_or_half rt _) as [m |] eqn:Em; cbn [try_except]; [| lra].
  apply (mean_or_half_unit rt _ m) in Em; [exact Em |].
  apply Forall_app_intro;
    [eapply range_scores_unit; [| | exact Eph]; assumption |].
  cbn [app].
  apply nutrient_score_unit in En; [| lra | assumption].
  apply nutrient_score_unit in Ep; [| lra | assumption].
  apply nutrient_score_unit in Ek; [| lra | assumption].
  repeat (constructor; [assumption |]).
  constructor; [| constructor; [| constructor]].
  - assert (0 <= soil_organic_matter env / 4)
      by (apply Qle_shift_div_l; lra).
    unfold unit_interval.
    destruct (py_min_cases 1 (soil_organic_matter env / 4)) as [[? E] | [? E]];
      rewrite E; lra.
  - now apply texture_compatibility_unit.
Qed.

Lemma soil_compatibility_unit_witness :
  (bound_ok (preferred_ph_min longe_10h) /\ bound_ok (preferred_ph_max longe_10h)
   /\ 0 <= soil_nitrogen default_conditions
   /\ 0 <= soil_phosphorus default_conditions
   /\ 0 <= soil_potassium default_conditions
   /\ 0 <= soil_organic_matter default_conditions
   /\ 0 <= soil_texture_score default_conditions <= 1)
  /\ 0 <= _calculate_soil_compatibility rt_ml longe_10h default_conditions <= 1.
Proof.
  assert (H : bound_ok (preferred_ph_min longe_10h)
              /\ bound_ok (preferred_ph_max longe_10h)
              /\ 0 <= soil_nitrogen default_conditions
              /\ 0 <= soil_phosphorus default_conditions
              /\ 0 <= soil_potassium default_conditions
              /\ 0 <= soil_organic_matter default_conditions
              /\ 0 <= soil_texture_score default_conditions <= 1).
  { cbn. repeat split; lra. }
  split; [exact H |].
  destruct H as (H1 & H2 & H3 & H4 & H5 & H6 & H7).
  now apply (soil_compatibility_unit rt_ml longe_10h default_conditions).
Defined.

(** ** The market score *)

(** X5.  The market score is at least 0.7 and at most 0.9, and no key of
    the preferences other than the market preference changes it: it is
    above 0.85 (0.7 plus 0.2) exactly for an export preference on a seed
    in high demand, between 0.75 and 0.85 (0.7 plus 0.1) exactly for a
    local preference on a seed in medium or high demand that is not the
    former, and 0.7 in every other case, also without preferences. *)
Theorem market_score_values (seed : Seed) (preferences : option (dict pyval)) :
  let m := _calculate_market_score seed preferences in
  let pref := match preferences with
              | Some prefs => dict_get prefs "market_preference" PNone
              | None => PNone
              end in
  let export := pyval_is_str pref "export" && opt_str_is (market_demand seed) "high" in
  let local := pyval_is_str pref "local"
               && (opt_str_is (market_demand seed) "medium"
                   || opt_str_is (market_demand seed) "high") in
  0.7 <= m <= 0.9
  /\ (0.85 < m <-> export = true)
  /\ (0.75 < m <= 0.85 <-> export = false /\ local = true)
  /\ (m == 0.7 <-> export = false /\ local = false).
Proof.
  cbv zeta. unfold _calculate_market_score.
  destruct preferences as [[| kv prefs] |].
  - cbn. repeat split; try lra; try discriminate; try reflexivity;
      try (intros [_ H]; discriminate).
  - set (pref := dict_get (kv :: prefs) "market_preference" PNone).
    destruct (pyval_is_str pref "export" && opt_str_is (market_demand seed) "high").
    + change (py_min 1 (0.7 + 0.2)) with (0.7 + 0.2).
      repeat split; try lra; try discriminate; try reflexivity;
        try (intros [H _]; discriminate); intro H; exfalso; lra.
    + destruct (pyval_is_str pref "local"
                && (opt_str_is (market_demand seed) "medium"
                    || opt_str_is (market_demand seed) "high")).
      * change (py_min 1 (0.7 + 0.1)) with (0.7 + 0.1).
        repeat split; try lra; try discriminate; try reflexivity;
          try (intros [_ H]; discriminate); intro H; exfalso; lra.
      * change (py_min 1 0.7) with 0.7.
        repeat split; try lra; try discriminate; try reflexivity;
          try (intros [_ H]; discriminate); intro H; exfalso; lra.
  - cbn. repeat split; try lra; try discriminate; try reflexivity;
      try (intros [_ H]; discriminate).
Qed.

Lemma market_score_range (seed : Seed) (preferences : option (dict pyval)) :
  0.7 <= _calculate_market_score seed preferences <= 0.9.
Proof.
  unfold _calculate_market_score.
  destruct preferences as [[| kv prefs] |]; [lra | | lra].
  destruct (_ && _); [vm_compute; split; discriminate |].
  destruct (_ && _); vm_compute; split; discriminate.
Qed.

(** ** Without the ML packages: the ranking *)

Lemma truthy_or_default (o : option Q) (d : Q) :
  truthy o = true -> exists q, o = Some q /\ or_default o d = q /\ ~ q == 0.
Proof.
  intro T. destruct (truthy_nonzero o T) as (q & -> & N).
  exists q. repeat split; [| exact N]. cbn.
  destruct (Qeq_bool q 0) eqn:E; [| reflexivity].
  apply Qeq_bool_iff in E. contradiction.
Qed.

Lemma falsy_or_default (o : option Q) (d : Q) :
  truthy o = false -> or_default o d = d.
Proof.
  destruct o as [q |]; [| reflexivity]. cbn.
  destruct (Qeq_bool q 0); [reflexivity | discriminate].
Qed.

Lemma clamp_id (x : Q) : 0 <= x <= 1 -> py_min 1 (py_max 0 x) == x.
Proof.
  intro H. rewrite py_min_is_Qmin, py_max_is_Qmax.
  rewrite (Q.max_r 0 x) by lra. apply Q.min_r. lra.
Qed.

(** X6.  Without the ML packages (and with the weights of [__init__])
    the overall score of a seed does not depend on the farm or on the
    environment: it is 0.45 plus a tenth of the market score for a seed
    with a yield potential and 0.55 plus a tenth of the market score for
    a seed without one, so every seed without a yield potential scores
    above every seed with one. *)
Theorem fallback_ranking rt seed env farm prefs h :
  ML_AVAILABLE rt = false ->
  feature_weights (self h) = default_feature_weights ->
  exists r h',
    _analyze_seed_compatibility rt seed env farm prefs h = (Ok r, h')
    /\ compatibility_score r ==
       (if truthy (yield_potential seed) then 0.45 else 0.55)
       + 0.1 * _calculate_market_score seed prefs
    /\ (if truthy (yield_potential seed)
        then 0.52 <= compatibility_score r <= 0.54
        else 0.62 <= compatibility_score r <= 0.64).
Proof.
  intros A W.
  destruct (analyze_body_default rt seed env farm prefs
              (log_analysis (Seed_id seed) h) W) as (r & B & S).
  destruct (analyze_body_fields _ _ _ _ _ _ _ _ B)
    as (_ & C & So & R & _ & _ & Y).
  destruct (fallback_scores_constant rt seed env A) as (Fc & Fs & Fr).
  pose proof (market_score_range seed prefs) as M.
  exists r. eexists. split.
  { unfold _analyze_seed_compatibility.
    unfold mtry, mbind, mmodify, mret. cbn beta iota. rewrite B. reflexivity. }
  assert (E : compatibility_score r ==
              (if truthy (yield_potential seed) then 0.45 else 0.55)
              + 0.1 * _calculate_market_score seed prefs).
  { rewrite S, (Y A), C, So, R, estimate_yield_simple_eq, Fc, Fs, Fr.
    destruct (truthy (yield_potential seed)) eqn:T.
    - destruct (truthy_or_default _ 2 T) as (q & Eq & -> & N).
      destruct (truthy_or_default _ 1 T) as (q' & Eq' & -> & _).
      assert (q' = q) by congruence. subst q'.
      rewrite clamp_id.
      + field. exact N.
      + assert (D : q * (0.5 * 0.4 + 0.5 * 0.4 + (1 - 0.5) * 0.2) / q == 0.5)
          by (field; exact N).
        rewrite D. lra.
    - rewrite (falsy_or_default _ 2 T), (falsy_or_default _ 1 T).
      rewrite clamp_id.
      + field.
      + assert (D : 2 * (0.5 * 0.4 + 0.5 * 0.4 + (1 - 0.5) * 0.2) / 1 == 1)
          by reflexivity.
        rewrite D. lra. }
  split; [exact E |].
  destruct (truthy (yield_potential seed)); rewrite E; lra.
Qed.

Lemma fallback_ranking_witness :
  ML_AVAILABLE rt_fallback = false
  /\ feature_weights (self (fresh_heap rt_fallback)) = default_feature_weights
  /\ exists r h',
      _analyze_seed_compatibility rt_fallback unrated_variety default_conditions
        kampala_farm None (fresh_heap rt_fallback) = (Ok r, h')
      /\ compatibility_score r ==
         (if truthy (yield_potential unrated_variety) then 0.45 else 0.55)
         + 0.1 * _calculate_market_score unrated_variety None
      /\ (if truthy (yield_potential unrated_variety)
          then 0.52 <= compatibility_score r <= 0.54
          else 0.62 <= compatibility_score r <= 0.64).
Proof.
  split; [reflexivity |]. split; [reflexivity |].
  apply (fallback_ranking rt_fallback unrated_variety default_conditions
           kampala_farm None (fresh_heap rt_fallback)); reflexivity.
Defined.

(** X7.  Without the ML packages (and with the weights of [__init__])
    every record has climate, soil and risk scores of 0.5, whatever the
    seed and the environment, and a yield estimate of half the yield
    potential (of 1 for a seed without one). *)
Theorem sub_scores_without_ml rt seed env farm prefs h :
  ML_AVAILABLE rt = false ->
  feature_weights (self h) = default_feature_weights ->
  exists r h',
    _analyze_seed_compatibility rt seed env farm prefs h = (Ok r, h')
    /\ climate_match_score r = 0.5
    /\ soil_match_score r = 0.5
    /\ risk_score r = 0.5
    /\ yield_prediction r == or_default (yield_potential seed) 2 * 0.5.
Proof.
  intros A W.
  destruct (analyze_body_default rt seed env farm prefs
              (log_analysis (Seed_id seed) h) W) as (r & B & _).
  destruct (analyze_body_fields _ _ _ _ _ _ _ _ B)
    as (_ & C & So & R & _ & _ & Y).
  destruct (fallback_scores_constant rt seed env A) as (Fc & Fs & Fr).
  exists r. eexists. split.
  { unfold _analyze_seed_compatibility.
    unfold mtry, mbind, mmodify, mret. cbn beta iota. rewrite B. reflexivity. }
  rewrite C, So, R, (Y A), estimate_yield_simple_eq, Fc, Fs, Fr.
  repeat split; try reflexivity. ring.
Qed.

Lemma sub_scores_without_ml_witness :
  ML_AVAILABLE rt_fallback = false
  /\ feature_weights (self (fresh_heap rt_fallback)) = default_feature_weights
  /\ exists r h',
      _analyze_seed_compatibility rt_fallback longe_10h default_conditions
        kampala_farm None (fresh_heap rt_fallback) = (Ok r, h')
      /\ climate_match_score r = 0.5
      /\ soil_match_score r = 0.5
      /\ risk_score r = 0.5
      /\ yield_prediction r == or_default (yield_potential longe_10h) 2 * 0.5.
Proof.
  split; [reflexivity |]. split; [reflexivity |].
  apply (sub_scores_without_ml rt_fallback longe_10h default_conditions
           kampala_farm None (fresh_heap rt_fallback)); reflexivity.
Defined.

(** ** Confidence *)

Lemma confidence_level_cases env seed h :
  exists c,
    _calculate_confidence_level env seed h = (Ok c, h)
    /\ 0.5 <= c <= 1
    /\ (is_trained (self h) = false -> c <= 0.8)
    /\ (is_trained (self h) = true -> 0.7 <= c).
Proof.
  unfold _calculate_confidence_level.
  unfold mbind, mgets, mret. cbn beta iota.
  eexists. split; [reflexivity |].
  destruct (Qeq_bool (climate_risk_score env) 0.3);
    destruct (negb (truthy (yield_potential seed)));
    destruct (negb (truthy (optimal_temp_min seed))
              || negb (truthy (optimal_temp_max seed)));
    destruct (is_trained (self h));
    vm_compute; intuition discriminate.
Qed.

(** X8.  With the weights of [__init__] the confidence of a record is at
    least 0.5, so the floor of 0.3 in [_calculate_confidence_level] is
    never what it returns and a confidence of 0.3 marks the record of the
    [except] branch; an engine that is not trained gives at most 0.8, a
    trained one at least 0.7. *)
Theorem confidence_above_floor rt seed env farm prefs h :
  feature_weights (self h) = default_feature_weights ->
  exists r h',
    _analyze_seed_compatibility rt seed env farm prefs h = (Ok r, h')
    /\ 0.5 <= confidence_level r <= 1
    /\ (is_trained (self h) = false -> confidence_level r <= 0.8)
    /\ (is_trained (self h) = true -> 0.7 <= confidence_level r)
    /\ confidence_level (neutral_compatibility seed) = 0.3.
Proof.
  intro W.
  destruct (analyze_body_default rt seed env farm prefs
              (log_analysis (Seed_id seed) h) W) as (r & B & _).
  exists r. eexists. split.
  { unfold _analyze_seed_compatibility.
    unfold mtry, mbind, mmodify, mret. cbn beta iota. rewrite B. reflexivity. }
  revert B. unfold _analyze_seed_compatibility_body.
  destruct (yield_step_run rt seed env (log_analysis (Seed_id seed) h))
    as [y [Y _]].
  destruct (confidence_level_cases env seed (log_analysis (Seed_id seed) h))
    as (c & C & Cb & Cu & Ct).
  unfold mtry, mbind, mgets, mlift, mret, mraise, mmodify in *.
  cbn beta iota. rewrite Y, C.
  repeat match goal with
         | |- context [match ?x with Ok _ => _ | Raise _ => _ end] =>
             destruct x
         end; intro H; inversion H; subst; clear H.
  cbn in *. repeat split; tauto.
Qed.

Lemma confidence_above_floor_witness :
  feature_weights (self (fresh_heap rt_ml)) = default_feature_weights
  /\ exists r h',
      _analyze_seed_compatibility rt_ml unrated_variety default_conditions
        kampala_farm None (fresh_heap rt_ml) = (Ok r, h')
      /\ 0.5 <= confidence_level r <= 1
      /\ (is_trained (self (fresh_heap rt_ml)) = false ->
          confidence_level r <= 0.8)
      /\ (is_trained (self (fresh_heap rt_ml)) = true ->
          0.7 <= confidence_level r)
      /\ confidence_level (neutral_compatibility unrated_variety) = 0.3.
Proof.
  split; [reflexivity |].
  apply (confidence_above_floor rt_ml unrated_variety default_conditions
           kampala_farm None (fresh_heap rt_ml)); reflexivity.
Defined.

(** ** Loading models that are not there *)

Lemma analyze_body_explicit rt seed env farm prefs h y c :
  feature_weights (self h) = default_feature_weights ->
  (if is_trained (self h) then _predict_yield rt seed env
   else mret (_estimate_yield_simple rt seed env)) h = (Ok y, h) ->
  _calculate_confidence_level env seed h = (Ok c, h) ->
  _analyze_seed_compatibility_body rt seed env farm prefs h
  = (Ok {| seed_id := Seed_id seed;
           compatibility_score :=
             py_min 1 (py_max 0
               (_calculate_climate_compatibility rt seed env * 0.3
                + _calculate_soil_compatibility rt seed env * 0.25
                + y / or_default (yield_potential seed) 1 * 0.2
                + (1 - _calculate_risk_score rt seed env) * 0.15
                + _calculate_market_score seed prefs * 0.1));
           climate_match_score := _calculate_climate_compatibility rt seed env;
           soil_match_score := _calculate_soil_compatibility rt seed env;
           yield_prediction := y;
           risk_score := _calculate_risk_score rt seed env;
           confidence_level := c;
           reasons :=
             _generate_reasoning seed env
               (_calculate_climate_compatibility rt seed env)
               (_calculate_soil_compatibility rt seed env)
               (_calculate_risk_score rt seed env) |}, h).
Proof.
  intros W Y C. unfold _analyze_seed_compatibility_body.
  destruct (default_weight_items h W) as (W1 & W2 & W3 & W4 & W5).
  unfold mtry, mbind, mgets, mlift, mret, mraise, mmodify in *.
  cbn beta iota. rewrite Y, C, W1, W2, W3, W4, W5.
  rewrite py_div_ok by (apply or_default_nonzero; discriminate).
  reflexivity.
Qed.

Lemma predict_yield_unfitted rt seed env h :
  (ML_AVAILABLE rt = true ->
   dict_item (scalers (self h)) "environmental" = Ok unfitted_scaler) ->
  _predict_yield rt seed env h = (Ok (_estimate_yield_simple rt seed env), h).
Proof.
  intro U. unfold _predict_yield.
  unfold mtry, mbind, mgets, mlift, mret, mraise. cbn beta iota.
  destruct (ML_AVAILABLE rt) eqn:A; cbn [negb orb]; [| reflexivity].
  destruct (negb (is_trained (self h))); [reflexivity |].
  destruct (_seed_to_features seed); [| reflexivity].
  rewrite (U eq_refl). reflexivity.
Qed.

(** X9.  [load_models] on a directory without model files marks the
    fresh engine as trained and leaves its models as they were.  The
    engine then analyses every seed exactly as before (same scores, same
    yield estimate, same reasons: the unfitted model is never used),
    except that the confidence is 0.2 higher. *)
Theorem load_models_without_files rt seed env farm prefs :
  exists h1,
    load_models nothing_on_disk (fresh_heap rt) = (Ok tt, h1)
    /\ is_trained (self h1) = true
    /\ models (self h1) = models (__init__ rt)
    /\ scalers (self h1) = scalers (__init__ rt)
    /\ exists r0 r1 h0' h1',
        _analyze_seed_compatibility rt seed env farm prefs (fresh_heap rt)
        = (Ok r0, h0')
        /\ _analyze_seed_compatibility rt seed env farm prefs h1 = (Ok r1, h1')
        /\ compatibility_score r1 = compatibility_score r0
        /\ climate_match_score r1 = climate_match_score r0
        /\ soil_match_score r1 = soil_match_score r0
        /\ yield_prediction r1 = yield_prediction r0
        /\ risk_score r1 = risk_score r0
        /\ reasons r1 = reasons r0
        /\ confidence_level r1 == confidence_level r0 + 0.2.
Proof.
  eexists. split; [reflexivity |]. cbn [self is_trained models scalers set_self].
  split; [reflexivity |]. split; [reflexivity |]. split; [reflexivity |].
  set (h0 := log_analysis (Seed_id seed) (fresh_heap rt)).
  match goal with
  | |- context [_analyze_seed_compatibility rt seed env farm prefs ?h] =>
      match h with
      | fresh_heap rt => fail 1
      | _ => set (h1 := h)
      end
  end.
  set (g1 := log_analysis (Seed_id seed) h1).
  assert (W0 : feature_weights (self h0) = default_feature_weights)
    by apply init_feature_weights.
  assert (W1 : feature_weights (self g1) = default_feature_weights)
    by apply init_feature_weights.
  assert (T0 : is_trained (self h0) = false).
  { cbn. unfold __init__, _initialize_models. now destruct (ML_AVAILABLE rt). }
  assert (T1 : is_trained (self g1) = true) by reflexivity.
  destruct (confidence_level_cases env seed h0) as (c0 & C0 & _).
  destruct (confidence_level_cases env seed g1) as (c1 & C1 & _).
  assert (Y0 : (if is_trained (self h0) then _predict_yield rt seed env
                else mret (_estimate_yield_simple rt seed env)) h0
               = (Ok (_estimate_yield_simple rt seed env), h0))
    by now rewrite T0.
  assert (Y1 : (if is_trained (self g1) then _predict_yield rt seed env
                else mret (_estimate_yield_simple rt seed env)) g1
               = (Ok (_estimate_yield_simple rt seed env), g1)).
  { rewrite T1. apply predict_yield_unfitted. intro A. cbn.
    unfold __init__, _initialize_models. rewrite A. reflexivity. }
  pose proof (analyze_body_explicit rt seed env farm prefs h0 _ _ W0 Y0 C0) as B0.
  pose proof (analyze_body_explicit rt seed env farm prefs g1 _ _ W1 Y1 C1) as B1.
  do 4 eexists.
  split.
  { unfold _analyze_seed_compatibility.
    unfold mtry, mbind, mmodify, mret. cbn beta iota.
    fold h0. rewrite B0. reflexivity. }
  split.
  { unfold _analyze_seed_compatibility.
    unfold mtry, mbind, mmodify, mret. cbn beta iota.
    fold g1. rewrite B1. reflexivity. }
  cbn [compatibility_score climate_match_score soil_match_score
       yield_prediction risk_score reasons confidence_level].
  repeat (split; [reflexivity |]).
  revert C0 C1. unfold _calculate_confidence_level.
  unfold mbind, mgets, mret. cbn beta iota. rewrite T0, T1.
  intros [= <-] [= <-].
  destruct (Qeq_bool (climate_risk_score env) 0.3);
    destruct (negb (truthy (yield_potential seed)));
    destruct (negb (truthy (optimal_temp_min seed))
              || negb (truthy (optimal_temp_max seed)));
    reflexivity.
Qed.

(** ** The order of the returned list *)

Lemma insert_desc_filter (k : Q) x l :
  filter (scored k) (insert_desc x l) = filter (scored k) (x :: l).
Proof.
  induction l as [| y l IH]; [reflexivity |].
  cbn [insert_desc]. destruct (Qltb _ _) eqn:L; [| reflexivity].
  cbn [filter] in *. rewrite IH.
  destruct (scored k x) eqn:Sx; [| reflexivity].
  destruct (scored k y) eqn:Sy; [| reflexivity].
  exfalso. unfold scored in *.
  apply Qeq_bool_iff in Sx, Sy. apply Qltb_true in L. lra.
Qed.

Lemma sort_desc_filter (k : Q) l :
  filter (scored k) (sort_desc l) = filter (scored k) l.
Proof.
  induction l as [| x l IH]; [reflexivity |].
  cbn [sort_desc fold_right]. fold (sort_desc l).
  rewrite insert_desc_filter. cbn [filter]. now rewrite IH.
Qed.

Lemma sorted_app_ranked l1 l2 :
  StronglySorted ranked (l1 ++ l2) ->
  forall a b, In a l1 -> In b l2 -> ranked a b.
Proof.
  induction l1 as [| x l1 IH]; intros S a b Ha Hb; [destruct Ha |].
  cbn in S. inversion S as [| ? ? S' F]; subst.
  destruct Ha as [-> | Ha].
  - rewrite Forall_forall in F. apply F. apply in_or_app. now right.
  - now apply (IH S').
Qed.

(** X10.  The ranking is stable and keeps the best.  With [analysed]
    the records of the input seeds, in their order, the returned list
    followed by the records cut off holds the records of any one score
    in the order of their seeds in the input, and every record cut off
    has a score no greater than every record returned. *)
Theorem ranking_stable_and_best rt w farm seeds season year prefs h :
  let env := _analyze_environmental_conditions rt w farm season year in
  exists analysed recs rest h',
    generate_recommendations rt w farm seeds season year prefs h = (Ok recs, h')
    /\ Forall2 (analysis_of rt env farm prefs h) seeds analysed
    /\ List.length recs = Nat.min 10 (List.length seeds)
    /\ (forall k, filter (scored k) (recs ++ rest) = filter (scored k) analysed)
    /\ (forall kept dropped,
           In kept recs -> In dropped rest ->
           compatibility_score dropped <= compatibility_score kept).
Proof.
  cbv zeta.
  destruct (generate_explicit rt w farm seeds season year prefs h)
    as (analysed & E & F).
  exists analysed, (firstn 10 (sort_desc analysed)),
    (skipn 10 (sort_desc analysed)).
  eexists. split; [exact E |]. split; [exact F |].
  split.
  - rewrite length_firstn, sort_desc_length.
    now rewrite <- (Forall2_length_eq _ _ _ F).
  - rewrite firstn_skipn. split; [intro k; apply sort_desc_filter |].
    intros kept dropped Hk Hd.
    apply (sorted_app_ranked (firstn 10 (sort_desc analysed))
                             (skipn 10 (sort_desc analysed))); try assumption.
    rewrite firstn_skipn. apply sort_desc_sorted.
Qed.

(** ** The soil service *)

Lemma classify_texture_named (sand silt clay : Q) :
  In (_classify_texture sand silt clay) texture_names.
Proof.
  unfold _classify_texture.
  destruct (if Qltb 0 (sand + silt + clay) then _ else _) as [[s' t'] c'].
  destruct (find _ texture_classes) as [[[[name a] b] c] |] eqn:F.
  - apply find_some in F. destruct F as [Hin _].
    unfold texture_names.
    apply (in_map (fun c => let '(name, _, _, _) := c in name)) in Hin.
    exact Hin.
  - destruct (Qltb 40 c'); [cbn; tauto |].
    destruct (Qltb 70 s'); cbn; tauto.
Qed.

Lemma estimate_drainage_level (t : string) (om : Q) :
  In (_estimate_drainage t om) drainage_levels.
Proof.
  unfold _estimate_drainage, dict_get. cbn [dict_lookup].
  repeat (destruct (String.eqb t _);
          [destruct (Qltb 4 om); cbn; tauto |]).
  destruct (Qltb 4 om); cbn; tauto.
Qed.

Lemma choice3_in rt w (o1 o2 o3 : string) p1 p2 n r n' :
  np_random_choice3 rt w o1 o2 o3 p1 p2 n = (Ok r, n') ->
  r = o1 \/ r = o2 \/ r = o3.
Proof.
  unfold np_random_choice3, np_random, mbind, mret, mraise.
  destruct (HAS_NUMPY rt); [| discriminate].
  intros [= <- _]. destruct (Qltb _ p1); [tauto |].
  destruct (Qltb _ (p1 + p2)); tauto.
Qed.

Lemma synthetic_soil_run rt w lat lon n :
  HAS_NUMPY rt = true ->
  exists sd,
    _generate_synthetic_soil_data rt w lat lon n = (Ok sd, (n + 10)%nat)
    /\ 4 <= ph_level sd <= 8
    /\ 1 <= organic_matter sd
    /\ In (texture sd) texture_names
    /\ In (drainage sd) drainage_levels.
Proof.
  intro N. unfold _generate_synthetic_soil_data, np_random_choice3,
    np_random_normal, np_random, mbind, mret, mraise.
  rewrite N. cbn beta iota.
  replace (n + 10)%nat with (S (S (S (S (S (S (S (S (S (S n)))))))))) by lia.
  destruct (Qltb 2 lat); [| destruct (Qltb lat 0.5)];
    cbn beta iota; (eexists; split; [reflexivity |]);
    cbn [ph_level organic_matter texture drainage];
    (split; [| split; [| split; [| apply estimate_drainage_level]]]).
  all: try (match goal with
            | |- _ <= py_max 4 (py_min 8 ?x) <= _ =>
                destruct (py_max_cases 4 (py_min 8 x)) as [[? E] | [? E]];
                rewrite E;
                destruct (py_min_cases 8 x) as [[? E'] | [? E']];
                rewrite ?E' in *; lra
            | |- _ <= py_max 1 ?x =>
                destruct (py_max_cases 1 x) as [[? E] | [? E]]; rewrite E; lra
            end).
  all: repeat match goal with
              | |- context [if ?b then _ else _] => destruct b
              end; cbn; tauto.
Qed.

Lemma synthetic_soil_without_numpy rt w lat lon n :
  HAS_NUMPY rt = false ->
  _generate_synthetic_soil_data rt w lat lon n = (Raise NameError, n).
Proof.
  intro N. unfold _generate_synthetic_soil_data, np_random_normal, np_random,
    mbind, mret, mraise.
  rewrite N. destruct (Qltb 2 lat); [| destruct (Qltb lat 0.5)]; reflexivity.
Qed.

Lemma soil_lookup_with_numpy rt w lat lon n :
  HAS_NUMPY rt = true ->
  exists sd n',
    get_soil_data_from_coordinates rt w lat lon n = (Ok sd, n')
    /\ In (texture sd) texture_names
    /\ In (drainage sd) drainage_levels.
Proof.
  intro N. unfold get_soil_data_from_coordinates, mtry.
  match goal with
  | |- context [match ?b n with _ => _ end] =>
      destruct (b n) as [[sd | e] n1] eqn:B
  end.
  - exists sd, n1. split; [reflexivity |].
    revert B. unfold np_random_normal, np_random, mbind, mlift, mret, mraise.
    rewrite N. cbn beta iota.
    repeat match goal with
           | |- context [match ?x with Ok _ => _ | Raise _ => _ end] =>
               destruct x
           end; intro H; inversion H; subst; clear H.
    cbn [texture drainage].
    split; [apply classify_texture_named | apply estimate_drainage_level].
  - destruct (synthetic_soil_run rt w lat lon n1 N) as (sd & E & _ & _ & T & D).
    exists sd. eexists. split; [exact E |]. split; assumption.
Qed.

Lemma soil_lookup_without_numpy rt w lat lon n :
  HAS_NUMPY rt = false ->
  exists n',
    get_soil_data_from_coordinates rt w lat lon n = (Raise NameError, n').
Proof.
  intro N. unfold get_soil_data_from_coordinates, mtry.
  match goal with
  | |- context [match ?b n with _ => _ end] =>
      destruct (b n) as [[sd | e] n1] eqn:B
  end.
  - exfalso. revert B.
    unfold np_random_normal, np_random, mbind, mlift, mret, mraise.
    rewrite N. cbn beta iota.
    repeat match goal with
           | |- context [match ?x with Ok _ => _ | Raise _ => _ end] =>
               destruct x
           end; intro H; inversion H.
  - exists n1. apply synthetic_soil_without_numpy, N.
Qed.

(** X11.  With numpy the soil lookup never raises (a failed SoilGrids
    call falls back to made-up data), and whatever it returns has a
    texture of the classification table and one of the four drainage
    levels, so the defaults of [_texture_to_score] and
    [_drainage_to_score] are never used on it.  Without numpy the lookup
    raises [NameError] whatever SoilGrids answers. *)
Theorem soil_lookup_outcome rt w lat lon n :
  (HAS_NUMPY rt = true ->
   exists sd n',
     get_soil_data_from_coordinates rt w lat lon n = (Ok sd, n')
     /\ In (texture sd) texture_names
     /\ In (drainage sd) drainage_levels)
  /\ (HAS_NUMPY rt = false ->
      exists n',
        get_soil_data_from_coordinates rt w lat lon n = (Raise NameError, n')).
Proof.
  split; [apply soil_lookup_with_numpy | apply soil_lookup_without_numpy].
Qed.

Lemma soil_lookup_outcome_witness :
  (HAS_NUMPY rt_ml = true
   /\ exists sd n',
       get_soil_data_from_coordinates rt_ml quiet_world 0.3 32.6 O = (Ok sd, n')
       /\ In (texture sd) texture_names
       /\ In (drainage sd) drainage_levels)
  /\ (HAS_NUMPY rt_fallback = false
      /\ exists n',
          get_soil_data_from_coordinates rt_fallback quiet_world 0.3 32.6 O
          = (Raise NameError, n')).
Proof.
  split; (split; [reflexivity |]).
  - apply (soil_lookup_outcome rt_ml quiet_world 0.3 32.6 O). reflexivity.
  - apply (soil_lookup_outcome rt_fallback quiet_world 0.3 32.6 O). reflexivity.
Defined.

(** ** The environment *)

(** X12.  Without numpy the environmental analysis returns the
    hard-coded default conditions whatever the farm (its elevation
    included), the season, the year and the answers of the services
    are. *)
Theorem conditions_without_numpy rt w farm season year :
  HAS_NUMPY rt = false ->
  _analyze_environmental_conditions rt w farm season year = default_conditions.
Proof.
  intro N. unfold _analyze_environmental_conditions.
  destruct (soil_lookup_without_numpy rt w (latitude farm) (longitude farm) O N)
    as [n' E].
  rewrite E. reflexivity.
Qed.

Lemma conditions_without_numpy_witness :
  HAS_NUMPY rt_fallback = false
  /\ _analyze_environmental_conditions rt_fallback other_world kampala_farm
       "B" 2030 = default_conditions.
Proof.
  split; [reflexivity |].
  apply (conditions_without_numpy rt_fallback other_world kampala_farm
           "B"%string 2030%Z).
  reflexivity.
Defined.

Lemma seasonal_key_default (season : string) :
  season <> "B"%string -> _get_seasonal_key season = "wet_season_1"%string.
Proof.
  intro N. unfold _get_seasonal_key, dict_get. cbn [dict_lookup].
  destruct (String.eqb season "A"); [reflexivity |].
  destruct (String.eqb_spec season "B"); [contradiction |].
  destruct (String.eqb season "perennial"); reflexivity.
Qed.

(** X13.  Every season other than "B" (the perennial season, and any
    unknown name) is analysed as season "A": the conditions are read from
    the first wet season. *)
Theorem season_defaults_to_A rt w farm season year :
  season <> "B"%string ->
  _analyze_environmental_conditions rt w farm season year
  = _analyze_environmental_conditions rt w farm "A" year.
Proof.
  intro N. unfold _analyze_environmental_conditions.
  rewrite (seasonal_key_default season N).
  rewrite (seasonal_key_default "A") by discriminate.
  reflexivity.
Qed.

Lemma season_defaults_to_A_witness :
  "perennial"%string <> "B"%string
  /\ _analyze_environmental_conditions rt_ml quiet_world kampala_farm
       "perennial" 2025
     = _analyze_environmental_conditions rt_ml quiet_world kampala_farm "A" 2025.
Proof.
  split; [discriminate |].
  apply (season_defaults_to_A rt_ml quiet_world kampala_farm
           "perennial"%string 2025%Z).
  discriminate.
Defined.

Lemma texture_to_score_range (t : string) : 0.4 <= _texture_to_score t <= 1.
Proof.
  unfold _texture_to_score, dict_get. cbn [dict_lookup].
  repeat (destruct (String.eqb t _); [lra |]). lra.
Qed.

Lemma drainage_to_score_range (d : string) : 0.3 <= _drainage_to_score d <= 1.
Proof.
  unfold _drainage_to_score, dict_get. cbn [dict_lookup].
  repeat (destruct (String.eqb d _); [lra |]). lra.
Qed.

(** X14.  The conditions handed to the scoring always have a texture
    score in [0.4, 1], a drainage score in [0.3, 1] and an altitude that
    is the farm's elevation, or 1200 when the farm has none (or has 0, or
    when the analysis fell back to the defaults). *)
Theorem conditions_soil_scores rt w farm season year :
  let env := _analyze_environmental_conditions rt w farm season year in
  0.4 <= soil_texture_score env <= 1
  /\ 0.3 <= drainage_score env <= 1
  /\ (altitude env = or_default (elevation farm) 1200 \/ altitude env = 1200)
  /\ ~ altitude env == 0.
Proof.
  cbv zeta. unfold _analyze_environmental_conditions.
  destruct (fst (get_soil_data_from_coordinates rt w _ _ O)) as [sd | e];
    cbn [rbind try_except soil_texture_score drainage_score altitude
         default_conditions].
  - split; [apply texture_to_score_range |].
    split; [apply drainage_to_score_range |].
    split; [now left |]. apply or_default_nonzero. discriminate.
  - split; [lra |]. split; [lra |]. split; [now right | discriminate].
Qed.

(** ** [get_recommendations]: refusals *)

Lemma find_all_false {A} (f : A -> bool) (l : list A) :
  (forall x, In x l -> f x = false) -> find f l = None.
Proof.
  induction l as [| a l IH]; intro H; [reflexivity |].
  cbn. rewrite (H a (or_introl eq_refl)). apply IH.
  intros x Hx. apply H. now right.
Qed.

Lemma filter_all_false {A} (f : A -> bool) (l : list A) :
  (forall x, In x l -> f x = false) -> filter f l = [].
Proof.
  induction l as [| a l IH]; intro H; [reflexivity |].
  cbn. rewrite (H a (or_introl eq_refl)). apply IH.
  intros x Hx. apply H. now right.
Qed.

(** X15.  A request for recommendations on a farm that is not the
    user's (no farm with that id belongs to the user) is answered with
    HTTP 404; the seeds are not queried, the engine is not called, and
    nothing is added to the session. *)
Theorem recommendations_for_foreign_farm rt w faults request user a :
  (forall f, In f (farms_table (db a)) ->
             Farm_id f = req_farm_id request ->
             owner_id f <> User_id user) ->
  get_recommendations rt w faults request user a
  = (Raise (HTTPException 404), on_db (db_query "farms") a).
Proof.
  intro H. unfold get_recommendations, on_session, owned_farm.
  unfold mtry, mbind, mgets, mret, mraise, mmodify. cbn.
  rewrite find_all_false; [reflexivity |].
  intros f Hf. apply andb_false_iff.
  destruct (Z.eqb_spec (Farm_id f) (req_farm_id request)) as [E | E];
    [right | now left].
  apply Z.eqb_neq. now apply H.
Qed.

Lemma recommendations_for_foreign_farm_witness :
  (forall f, In f (farms_table (db sample_app)) ->
             Farm_id f = 2%Z -> owner_id f <> User_id sample_user)
  /\ get_recommendations rt_ml quiet_world no_faults
       {| req_farm_id := 2; req_season := "A"; req_year := 2025;
          preferred_crops := None; budget_constraint := None;
          risk_tolerance := None; market_preference := None;
          include_experimental := false |}
       sample_user sample_app
     = (Raise (HTTPException 404), on_db (db_query "farms") sample_app).
Proof.
  assert (H : forall f, In f (farms_table (db sample_app)) ->
                        Farm_id f = 2%Z -> owner_id f <> User_id sample_user).
  { cbn. intros f [<- | [<- | []]]; cbn; intros; discriminate. }
  split; [exact H |].
  apply (recommendations_for_foreign_farm rt_ml quiet_world no_faults
           {| req_farm_id := 2; req_season := "A"; req_year := 2025;
              preferred_crops := None; budget_constraint := None;
              risk_tolerance := None; market_preference := None;
              include_experimental := false |} sample_user sample_app).
  exact H.
Defined.

(** X16.  Called for a farm the user owns when no seed is available, the
    function [get_recommendations] raises its own [HTTPException] 404
    ("No suitable seeds found") inside the [try] block and catches it in
    its [except Exception]: what it raises is [HTTPException] 500, and
    nothing is committed.  (The router has no route for the function.) *)
Theorem no_seed_is_a_server_error rt w faults request user a farm :
  find (fun f => Z.eqb (Farm_id f) (req_farm_id request)
                 && Z.eqb (owner_id f) (User_id user)) (farms_table (db a))
  = Some farm ->
  seed_query_raises faults = false ->
  (forall s, In s (seeds_table (db a)) -> is_available s <> Some true) ->
  exists a',
    get_recommendations rt w faults request user a
    = (Raise (HTTPException 500), a')
    /\ seed_recommendations (db a') = seed_recommendations (db a)
    /\ pending (db a') = []
    /\ recommendation_engine a' = recommendation_engine a.
Proof.
  intros F Q N. unfold get_recommendations, on_session, owned_farm.
  unfold mtry, mbind, mgets, mret, mraise, mmodify. cbn. rewrite F.
  unfold get_recommendations_body, available_seeds_query.
  unfold mtry, mbind, mgets, mret, mraise, mmodify. cbn. rewrite Q.
  rewrite filter_all_false.
  - destruct (preferred_crops request) as [[| c cs] |]; cbn;
      eexists; repeat split.
  - intros s Hs. specialize (N s Hs).
    destruct (is_available s) as [[|] |]; congruence.
Qed.

Lemma no_seed_is_a_server_error_witness :
  let a := {| db := {| farms_table := [kampala_farm]; seeds_table := [];
                       seed_recommendations := []; soil_profiles := [];
                       climate_records := []; crop_cycles := [];
                       pending := [];
                       queried := [] |};
              recommendation_engine := fresh_heap rt_ml |} in
  find (fun f => Z.eqb (Farm_id f) (req_farm_id sample_request)
                 && Z.eqb (owner_id f) (User_id sample_user))
       (farms_table (db a)) = Some kampala_farm
  /\ seed_query_raises no_faults = false
  /\ (forall s, In s (seeds_table (db a)) -> is_available s <> Some true)
  /\ exists a',
      get_recommendations rt_ml quiet_world no_faults sample_request
        sample_user a = (Raise (HTTPException 500), a')
      /\ seed_recommendations (db a') = seed_recommendations (db a)
      /\ pending (db a') = []
      /\ recommendation_engine a' = recommendation_engine a.
Proof.
  cbv zeta.
  split; [reflexivity |]. split; [reflexivity |].
  split; [intros s [] |].
  apply (no_seed_is_a_server_error rt_ml quiet_world no_faults sample_request
           sample_user _ kampala_farm);
    [reflexivity | reflexivity | intros s []].
Defined.

(** ** The farm handlers: round trips *)






(** ** Soil suitability *)

Section SoilSuitability.
Import SoilAnalysis.

Lemma lookup_known (crop : string) req :
  dict_lookup crop_requirements crop = Some req -> known_crop req.
Proof.
  unfold known_crop, crop_requirements. cbn [dict_lookup map snd].
  repeat (destruct (String.eqb crop _);
          [intros [= <-]; cbn; tauto |]).
  discriminate.
Qed.

Lemma known_crop_positive req :
  known_crop req -> 0 < organic_matter_min req /\ 0 < depth_min req.
Proof.
  unfold known_crop. cbn.
  intros H. repeat (destruct H as [<- | H]; [cbn; lra |]). contradiction.
Qed.

Ltac component_goal :=
  unfold paired, graded;
  cbn [component weight score limitations advice List.length].

Lemma ph_component_paired soil req : paired (ph_component soil req).
Proof.
  unfold ph_component. destruct (ph_range req) as [lo hi].
  destruct (Qle_bool lo _ && Qle_bool _ hi); [| destruct (Qltb _ _)];
    component_goal; split; lia.
Qed.

Lemma ph_component_graded soil req :
  graded 0.2 0 1 (ph_component soil req).
Proof.
  unfold ph_component. destruct (ph_range req) as [lo hi].
  destruct (Qle_bool lo _) eqn:L1; cbn [andb].
  - destruct (Qle_bool _ hi) eqn:L2.
    + component_goal. repeat split; try lra.
    + replace (Qltb (ph_level soil) lo) with false.
      2:{ symmetry. apply Qltb_false. now apply Qle_bool_iff. }
      assert (hi < ph_level soil).
      { apply Qltb_true. unfold Qltb. now rewrite L2. }
      component_goal.
      pose proof (Qdiv_pos (ph_level soil - hi) 2 ltac:(lra) ltac:(lra)).
      destruct (py_max_cases 0 (1 - (ph_level soil - hi) / 2))
        as [[? E] | [? E]]; rewrite E;
        repeat split; try lra; discriminate.
  - assert (L : ph_level soil < lo).
    { apply Qltb_true. unfold Qltb. now rewrite L1. }
    replace (Qltb (ph_level soil) lo) with true
      by (symmetry; now apply Qltb_true).
    component_goal.
    pose proof (Qdiv_pos (lo - ph_level soil) 2 ltac:(lra) ltac:(lra)).
    destruct (py_max_cases 0 (1 - (lo - ph_level soil) / 2))
      as [[? E] | [? E]]; rewrite E;
      repeat split; try lra; discriminate.
Qed.

Lemma organic_matter_component_paired soil req c :
  organic_matter_component soil req = Ok c -> paired c /\ weight c = 0.15.
Proof.
  unfold organic_matter_component.
  destruct (Qle_bool _ _); destruct (py_div _ _); cbn; try discriminate;
    intros [= <-]; component_goal; repeat split; lia.
Qed.

Lemma organic_matter_component_run soil req :
  0 < organic_matter_min req ->
  organic_matter_component soil req =
  Ok (if Qle_bool (organic_matter_min req) (organic_matter soil)
      then component
             (py_min 1 (organic_matter soil / (organic_matter_min req * 2)))
             0.15 [] []
      else component (organic_matter soil / organic_matter_min req) 0.15
             ["Low organic matter"%string]
             ["Increase organic matter through compost, manure, or cover crops"%string]).
Proof.
  intros P. unfold organic_matter_component.
  destruct (Qle_bool _ _); rewrite py_div_ok by lra; reflexivity.
Qed.

Lemma organic_matter_component_graded soil req c :
  0 < organic_matter_min req -> 0 <= organic_matter soil ->
  organic_matter_component soil req = Ok c -> graded 0.15 0 0.5 c.
Proof.
  intros P N. rewrite organic_matter_component_run by exact P.
  intros [= <-].
  destruct (Qle_bool _ _) eqn:L.
  - apply Qle_bool_iff in L. component_goal.
    assert (0.5 <= organic_matter soil / (organic_matter_min req * 2)).
    { apply Qle_shift_div_l; lra. }
    destruct (py_min_cases 1 (organic_matter soil / (organic_matter_min req * 2)))
      as [[? E] | [? E]]; rewrite E; repeat split; lra.
  - assert (L' : organic_matter soil < organic_matter_min req).
    { apply Qltb_true. unfold Qltb. now rewrite L. }
    component_goal.
    assert (organic_matter soil / organic_matter_min req <= 1).
    { apply Qle_shift_div_r; lra. }
    assert (0 <= organic_matter soil / organic_matter_min req).
    { apply Qle_shift_div_l; lra. }
    repeat split; try lra; discriminate.
Qed.

Lemma organic_matter_clean soil req c :
  0 < organic_matter_min req ->
  organic_matter_component soil req = Ok c ->
  limitations c = [] -> 0.5 <= score c <= 1.
Proof.
  intros P. rewrite organic_matter_component_run by exact P.
  intros [= <-].
  destruct (Qle_bool _ _) eqn:L; [| discriminate].
  apply Qle_bool_iff in L. intros _. cbn [component score].
  assert (0.5 <= organic_matter soil / (organic_matter_min req * 2)).
  { apply Qle_shift_div_l; lra. }
  destruct (py_min_cases 1 (organic_matter soil / (organic_matter_min req * 2)))
    as [[? E] | [? E]]; rewrite E; lra.
Qed.

Lemma texture_component_paired soil req : paired (texture_component soil req).
Proof.
  unfold texture_component. destruct (str_in _ _); component_goal; split; lia.
Qed.

Lemma texture_component_graded soil req :
  graded 0.15 0.6 1 (texture_component soil req).
Proof.
  unfold texture_component. destruct (str_in _ _); component_goal;
    repeat split; try lra; discriminate.
Qed.

Lemma drainage_component_paired soil req c :
  drainage_component soil req = Ok c -> paired c /\ weight c = 0.15.
Proof.
  unfold drainage_component.
  destruct (str_in _ _).
  - intros [= <-]. component_goal. repeat split; lia.
  - destruct (py_min_list _); cbn; [| discriminate].
    destruct (py_max_list _); cbn; [| discriminate].
    destruct (Qltb _ _); destruct (py_div _ _); cbn; try discriminate;
      intros [= <-]; component_goal; repeat split; lia.
Qed.

(** With a drainage level of the classifier, the drainage score of a
    crop of the table is between 0.3 and 1. *)
Lemma drainage_component_graded soil req :
  known_crop req -> In (drainage soil) drainage_levels ->
  exists c, drainage_component soil req = Ok c /\ graded 0.15 0.3 1 c.
Proof.
  unfold known_crop, drainage_levels, drainage_component. cbn [map snd crop_requirements In].
  intros K D.
  repeat (destruct K as [<- | K]; [| try contradiction]);
    repeat (destruct D as [<- | D]; [| try contradiction]);
    (eexists; split; [vm_compute; reflexivity |];
     component_goal; repeat split; try discriminate;
     unfold Qle; cbn; lia).
Qed.

(** Whatever the drainage is called, the drainage step of a crop of the
    table does not raise. *)
Lemma drainage_component_total soil req :
  known_crop req -> exists c, drainage_component soil req = Ok c.
Proof.
  unfold known_crop, drainage_component, drainage_level, dict_get.
  cbn [map snd crop_requirements In dict_lookup].
  intros K.
  repeat (destruct K as [<- | K]; [| try contradiction]);
    cbn [preferred_drainage str_in existsb map dict_lookup];
    repeat (destruct (String.eqb (drainage soil) _); cbn [orb]);
    eexists; vm_compute; reflexivity.
Qed.

Lemma drainage_clean soil req c :
  drainage_component soil req = Ok c -> limitations c = [] -> score c = 1.
Proof.
  unfold drainage_component.
  destruct (str_in _ _).
  - intros [= <-]. reflexivity.
  - destruct (py_min_list _); cbn; [| discriminate].
    destruct (py_max_list _); cbn; [| discriminate].
    destruct (Qltb _ _); destruct (py_div _ _); cbn; try discriminate;
      intros [= <-]; discriminate.
Qed.

Lemma nutrient_paired a t l r : paired (reported (nutrient a t l r)).
Proof.
  unfold reported, nutrient.
  destruct (Qle_bool _ _); cbn [score component];
    destruct (Qltb _ _); component_goal; split; lia.
Qed.

Lemma nutrient_weight a t l r : weight (reported (nutrient a t l r)) = 0.15.
Proof.
  unfold reported, nutrient.
  destruct (Qle_bool _ _); cbn [score component];
    destruct (Qltb _ _); reflexivity.
Qed.

Lemma nutrient_upper a t l r :
  0 < t -> score (reported (nutrient a t l r)) <= 1.
Proof.
  intros P. unfold reported, nutrient.
  destruct (Qle_bool _ _) eqn:L; cbn [score component].
  - destruct (Qltb _ _); cbn; lra.
  - assert (a < t) by (apply Qltb_true; unfold Qltb; now rewrite L).
    assert (a / t <= 1) by (apply Qle_shift_div_r; lra).
    destruct (Qltb _ _); cbn [score component]; lra.
Qed.

Lemma nutrient_lower a t l r :
  0 < t -> 0 <= a -> 0 <= score (reported (nutrient a t l r)).
Proof.
  intros P N. unfold reported, nutrient.
  destruct (Qle_bool _ _) eqn:L; cbn [score component].
  - destruct (Qltb _ _); cbn; lra.
  - assert (0 <= a / t) by (apply Qle_shift_div_l; lra).
    destruct (Qltb _ _); cbn [score component]; lra.
Qed.

Lemma nutrient_clean a t l r :
  limitations (reported (nutrient a t l r)) = [] ->
  0.7 <= score (reported (nutrient a t l r)).
Proof.
  unfold reported, nutrient.
  destruct (Qle_bool _ _) eqn:L; cbn [score component].
  - destruct (Qltb _ _); cbn; lra.
  - destruct (Qltb _ _) eqn:E; cbn [score component limitations].
    + discriminate.
    + intros _. now apply Qltb_false in E.
Qed.

Lemma threshold_positive (d : dict Q) k default :
  Forall (fun kv => 0 < snd kv) d -> 0 < default -> 0 < dict_get d k default.
Proof.
  intros F P. unfold dict_get.
  induction F as [| [k' v] d Hv _ IH]; cbn [dict_lookup]; [exact P |].
  destruct (String.eqb k k'); [exact Hv | exact IH].
Qed.

Lemma depth_component_paired soil req c :
  depth_component soil req = Ok c -> paired c /\ weight c = 0.1.
Proof.
  unfold depth_component.
  destruct (Qle_bool _ _); [| destruct (py_div _ _); cbn; try discriminate];
    intros [= <-]; component_goal; repeat split; lia.
Qed.

Lemma depth_component_graded soil req :
  0 < depth_min req ->
  exists c, depth_component soil req = Ok c /\ graded 0.1 0.3 1 c.
Proof.
  intros P. unfold depth_component.
  destruct (Qle_bool _ _) eqn:L.
  - eexists. split; [reflexivity |]. component_goal.
    repeat split; lra.
  - rewrite py_div_ok by lra. eexists. split; [reflexivity |].
    assert (depth soil < depth_min req)
      by (apply Qltb_true; unfold Qltb; now rewrite L).
    assert (depth soil / depth_min req <= 1) by (apply Qle_shift_div_r; lra).
    component_goal.
    destruct (py_max_cases 0.3 (depth soil / depth_min req))
      as [[? E] | [? E]]; rewrite E; repeat split; try lra; discriminate.
Qed.

Lemma depth_clean soil req c :
  depth_component soil req = Ok c -> limitations c = [] -> score c = 1.
Proof.
  unfold depth_component.
  destruct (Qle_bool _ _); [| destruct (py_div _ _); cbn; try discriminate];
    intros [= <-]; [reflexivity | discriminate].
Qed.

(** The eight components of a run that does not raise. *)
Lemma score_components_inv soil req cs :
  score_components soil req = Ok cs ->
  exists om dr dp,
    organic_matter_component soil req = Ok om
    /\ drainage_component soil req = Ok dr
    /\ depth_component soil req = Ok dp
    /\ cs = [ph_component soil req; om; texture_component soil req; dr]
            ++ map reported (_evaluate_nutrients soil req) ++ [dp].
Proof.
  unfold score_components.
  destruct (organic_matter_component soil req) as [om |]; cbn; [| discriminate].
  destruct (drainage_component soil req) as [dr |]; cbn; [| discriminate].
  destruct (depth_component soil req) as [dp |]; cbn; [| discriminate].
  intros [= <-]. exists om, dr, dp. repeat split; reflexivity.
Qed.

Lemma score_components_weights soil req cs :
  score_components soil req = Ok cs ->
  map weight cs = [0.2; 0.15; 0.15; 0.15; 0.15; 0.15; 0.15; 0.1].
Proof.
  intros H. apply score_components_inv in H.
  destruct H as (om & dr & dp & Hom & Hdr & Hdp & ->).
  apply organic_matter_component_paired in Hom as [_ Wom].
  apply drainage_component_paired in Hdr as [_ Wdr].
  apply depth_component_paired in Hdp as [_ Wdp].
  unfold _evaluate_nutrients. cbn [map app].
  rewrite !nutrient_weight, Wom, Wdr, Wdp.
  destruct (ph_component_graded soil req) as [-> _].
  destruct (texture_component_graded soil req) as [-> _].
  reflexivity.
Qed.

Lemma score_components_paired soil req cs :
  score_components soil req = Ok cs ->
  Forall paired cs /\ List.length cs = 8%nat.
Proof.
  intros H. apply score_components_inv in H.
  destruct H as (om & dr & dp & Hom & Hdr & Hdp & ->).
  apply organic_matter_component_paired in Hom as [Pom _].
  apply drainage_component_paired in Hdr as [Pdr _].
  apply depth_component_paired in Hdp as [Pdp _].
  unfold _evaluate_nutrients. cbn [map app]. split; [| reflexivity].
  repeat first [ apply Forall_cons | apply Forall_nil ];
    first [ assumption | apply ph_component_paired
          | apply texture_component_paired | apply nutrient_paired ].
Qed.

Lemma paired_lengths cs :
  Forall paired cs ->
  List.length (flat_map limitations cs) = List.length (flat_map advice cs)
  /\ (List.length (flat_map limitations cs) <= List.length cs)%nat.
Proof.
  induction 1 as [| c cs [E L] _ [IH1 IH2]]; cbn [flat_map List.length].
  - split; [reflexivity | lia].
  - rewrite !length_app. split; lia.
Qed.

(** A run over given components. *)
Lemma assess_run soil req cs :
  score_components soil req = Ok cs ->
  assess soil req =
  Ok {| suitability_score :=
          Qsum (map (fun c => score c * weight c) cs) / Qsum (map weight cs);
        limiting_factors := flat_map limitations cs;
        recommendations := flat_map advice cs;
        confidence_level := _calculate_confidence soil |}.
Proof.
  intros H. unfold assess. rewrite H. cbn.
  rewrite (score_components_weights _ _ _ H).
  reflexivity.
Qed.

(** The weighted sum of the eight components, spelled out. *)
Lemma weighted_sum ph om tx dr n p k dp :
  weight ph = 0.2 -> weight om = 0.15 -> weight tx = 0.15 ->
  weight dr = 0.15 -> weight n = 0.15 -> weight p = 0.15 ->
  weight k = 0.15 -> weight dp = 0.1 ->
  Qsum (map (fun c => score c * weight c) [ph; om; tx; dr; n; p; k; dp])
  / Qsum (map weight [ph; om; tx; dr; n; p; k; dp])
  == (0.2 * score ph + 0.15 * score om + 0.15 * score tx + 0.15 * score dr
      + 0.15 * score n + 0.15 * score p + 0.15 * score k + 0.1 * score dp)
     / 1.2.
Proof.
  intros W1 W2 W3 W4 W5 W6 W7 W8. unfold Qsum.
  cbn [map fold_right]. rewrite W1, W2, W3, W4, W5, W6, W7, W8.
  field.
Qed.

Lemma flat_map_nil {A B} (f : A -> list B) (xs : list A) :
  flat_map f xs = [] -> Forall (fun x => f x = []) xs.
Proof.
  induction xs as [| x xs IH]; cbn [flat_map]; intros H; [constructor |].
  apply app_eq_nil in H as [H1 H2]. constructor; auto.
Qed.

(** The run of [analyze_soil_suitability] for a crop of the table: no
    step raises, and the record is made of the eight components. *)
Lemma analyze_known soil crop req :
  dict_lookup crop_requirements crop = Some req ->
  exists om dr dp,
    organic_matter_component soil req = Ok om
    /\ drainage_component soil req = Ok dr
    /\ depth_component soil req = Ok dp
    /\ let cs := [ph_component soil req; om; texture_component soil req; dr]
                  ++ map reported (_evaluate_nutrients soil req) ++ [dp] in
       analyze_soil_suitability soil crop =
       {| suitability_score :=
            Qsum (map (fun c => score c * weight c) cs) / Qsum (map weight cs);
          limiting_factors := flat_map limitations cs;
          recommendations := flat_map advice cs;
          confidence_level := _calculate_confidence soil |}.
Proof.
  intros L. pose proof (lookup_known _ _ L) as K.
  destruct (known_crop_positive _ K) as [Pom Pdp].
  destruct (drainage_component_total soil req K) as [dr Hdr].
  destruct (depth_component_graded soil req Pdp) as [dp [Hdp _]].
  pose proof (organic_matter_component_run soil req Pom) as Hom.
  eexists _, dr, dp. split; [exact Hom |]. split; [exact Hdr |].
  split; [exact Hdp |]. cbv zeta.
  unfold analyze_soil_suitability. rewrite L.
  erewrite assess_run; [reflexivity |].
  unfold score_components. rewrite Hom, Hdr, Hdp. reflexivity.
Qed.

Lemma calculate_confidence_range soil :
  0.5 <= _calculate_confidence soil <= 1.
Proof.
  unfold _calculate_confidence. cbv zeta.
  destruct (Qeq_bool (ph_level soil) 6.5), (Qeq_bool (organic_matter soil) 2.5),
    (Qeq_bool (nitrogen soil) 20),
    (Qltb (phosphorus soil) 10 || Qltb 100 (phosphorus soil)),
    (Qltb (potassium soil) 50 || Qltb 300 (potassium soil));
    vm_compute; split; discriminate.
Qed.

Lemma nutrients_upper soil req :
  Forall (fun c => score c <= 1) (map reported (_evaluate_nutrients soil req)).
Proof.
  unfold _evaluate_nutrients. cbn [map].
  repeat first [ apply Forall_cons | apply Forall_nil ];
    apply nutrient_upper; apply threshold_positive;
    repeat first [ apply Forall_cons | apply Forall_nil ]; cbn; lra.
Qed.

Lemma nutrients_lower soil req :
  0 <= nitrogen soil -> 0 <= phosphorus soil -> 0 <= potassium soil ->
  Forall (fun c => 0 <= score c) (map reported (_evaluate_nutrients soil req)).
Proof.
  intros N P K. unfold _evaluate_nutrients. cbn [map].
  repeat first [ apply Forall_cons | apply Forall_nil ];
    (apply nutrient_lower; [| assumption]); apply threshold_positive;
    repeat first [ apply Forall_cons | apply Forall_nil ]; cbn; lra.
Qed.

(** X18. Every result of [analyze_soil_suitability] carries exactly one
    recommendation per limiting factor, and at most eight of them. *)
Theorem limiting_factors_paired soil crop :
  let r := analyze_soil_suitability soil crop in
  List.length (limiting_factors r) = List.length (recommendations r)
  /\ (List.length (limiting_factors r) <= 8)%nat.
Proof.
  cbv zeta. unfold analyze_soil_suitability.
  destruct (dict_lookup crop_requirements crop) as [req |];
    [| cbn; split; lia].
  unfold assess.
  destruct (score_components soil req) as [cs |] eqn:H;
    [| cbn; split; lia].
  cbn [rbind]. rewrite (score_components_weights _ _ _ H).
  destruct (score_components_paired _ _ _ H) as [F Len].
  destruct (paired_lengths _ F) as [E B].
  cbn. split; [exact E | lia].
Qed.

(** X19. For a crop of the requirement table and a soil whose organic
    matter, nitrogen, phosphorus and potassium are not negative and
    whose drainage is one of the four levels, the suitability score is
    between 0.1375 and 1 and the confidence between 0.5 and 1. *)
Theorem soil_suitability_range soil crop req :
  dict_lookup crop_requirements crop = Some req ->
  0 <= organic_matter soil -> 0 <= nitrogen soil ->
  0 <= phosphorus soil -> 0 <= potassium soil ->
  In (drainage soil) drainage_levels ->
  let r := analyze_soil_suitability soil crop in
  0.1375 <= suitability_score r <= 1
  /\ 0.5 <= SoilAnalysis.confidence_level r <= 1.
Proof.
  intros L Nom Nn Np Nk D. cbv zeta.
  pose proof (lookup_known _ _ L) as K.
  destruct (known_crop_positive _ K) as [Pom Pdp].
  destruct (analyze_known soil crop req L)
    as (om & dr & dp & Hom & Hdr & Hdp & E).
  cbv zeta in E. rewrite E. cbn [suitability_score SoilAnalysis.confidence_level].
  split; [| apply calculate_confidence_range].
  destruct (ph_component_graded soil req) as (Wph & Bph & _).
  destruct (organic_matter_component_graded soil req om Pom Nom Hom)
    as (Wom & Bom & _).
  destruct (texture_component_graded soil req) as (Wtx & Btx & _).
  destruct (drainage_component_graded soil req K D) as (dr' & Hdr' & Wdr & Bdr & _).
  assert (dr' = dr) by congruence. subst dr'.
  destruct (depth_component_graded soil req Pdp) as (dp' & Hdp' & Wdp & Bdp & _).
  assert (dp' = dp) by congruence. subst dp'.
  pose proof (nutrients_upper soil req) as U.
  pose proof (nutrients_lower soil req Nn Np Nk) as Lo.
  unfold _evaluate_nutrients in *. cbn [map] in U, Lo.
  simpl (map reported _). cbn [app].
  inversion_clear U as [| ? ? Un U']. inversion_clear U' as [| ? ? Up U''].
  inversion_clear U'' as [| ? ? Uk _].
  inversion_clear Lo as [| ? ? Ln Lo']. inversion_clear Lo' as [| ? ? Lp Lo''].
  inversion_clear Lo'' as [| ? ? Lk _].
  rewrite weighted_sum; try assumption; try apply nutrient_weight.
  split; [apply Qle_shift_div_l | apply Qle_shift_div_r]; lra.
Qed.

Lemma soil_suitability_range_witness :
  0.1375 <= suitability_score (analyze_soil_suitability sample_soil "maize") <= 1
  /\ 0.5 <= SoilAnalysis.confidence_level
             (analyze_soil_suitability sample_soil "maize") <= 1.
Proof.
  eapply (soil_suitability_range sample_soil "maize");
    [reflexivity | cbn; lra .. | cbn; tauto].
Defined.

(** X20. A result without limiting factor has a score of at least
    0.82, which [get_soil_analysis] reports as Excellent. *)
Theorem no_limiting_factor_is_excellent soil crop :
  let r := analyze_soil_suitability soil crop in
  limiting_factors r = [] ->
  0.82 <= suitability_score r <= 1
  /\ suitability_level (suitability_score r) = "Excellent"%string.
Proof.
  cbv zeta.
  destruct (dict_lookup crop_requirements crop) as [req |] eqn:L.
  2:{ unfold analyze_soil_suitability. rewrite L. discriminate. }
  pose proof (lookup_known _ _ L) as K.
  destruct (known_crop_positive _ K) as [Pom Pdp].
  destruct (analyze_known soil crop req L)
    as (om & dr & dp & Hom & Hdr & Hdp & E).
  cbv zeta in E. rewrite E. cbn [suitability_score limiting_factors].
  intros Clean. apply flat_map_nil in Clean.
  unfold _evaluate_nutrients in *. simpl (map reported _) in *.
  cbn [app] in *.
  inversion_clear Clean as [| ? ? Cph C1]. inversion_clear C1 as [| ? ? Com C2].
  inversion_clear C2 as [| ? ? Ctx C3]. inversion_clear C3 as [| ? ? Cdr C4].
  inversion_clear C4 as [| ? ? Cn C5]. inversion_clear C5 as [| ? ? Cp C6].
  inversion_clear C6 as [| ? ? Ck C7]. inversion_clear C7 as [| ? ? Cdp _].
  destruct (ph_component_graded soil req) as (Wph & Bph & Sph).
  destruct (texture_component_graded soil req) as (Wtx & Btx & Stx).
  destruct (organic_matter_component_paired soil req om Hom) as [_ Wom].
  destruct (drainage_component_paired soil req dr Hdr) as [_ Wdr].
  destruct (depth_component_paired soil req dp Hdp) as [_ Wdp].
  specialize (Sph Cph). specialize (Stx Ctx).
  pose proof (organic_matter_clean soil req om Pom Hom Com) as Som.
  pose proof (drainage_clean soil req dr Hdr Cdr) as Sdr.
  pose proof (depth_clean soil req dp Hdp Cdp) as Sdp.
  pose proof (nutrient_clean _ _ _ _ Cn) as Sn.
  pose proof (nutrient_clean _ _ _ _ Cp) as Sp.
  pose proof (nutrient_clean _ _ _ _ Ck) as Sk.
  pose proof (nutrients_upper soil req) as U.
  unfold _evaluate_nutrients in U. cbn [map] in U.
  inversion_clear U as [| ? ? Un U']. inversion_clear U' as [| ? ? Up U''].
  inversion_clear U'' as [| ? ? Uk _].
  match goal with
  | |- ?lo <= ?s <= ?hi /\ _ => assert (B : lo <= s <= hi)
  end.
  { rewrite weighted_sum; try assumption; try apply nutrient_weight.
    rewrite Sdr, Sdp.
    split; [apply Qle_shift_div_l | apply Qle_shift_div_r]; lra. }
  split; [exact B |].
  unfold suitability_level.
  replace (Qltb 0.8 _) with true; [reflexivity |].
  symmetry. apply Qltb_true. lra.
Qed.

Lemma no_limiting_factor_is_excellent_witness :
  0.82 <= suitability_score (analyze_soil_suitability sample_soil "maize") <= 1
  /\ suitability_level
       (suitability_score (analyze_soil_suitability sample_soil "maize"))
     = "Excellent"%string.
Proof.
  apply (no_limiting_factor_is_excellent sample_soil "maize").
  vm_compute. reflexivity.
Defined.

(** X21. The organic-matter score jumps down at the crop's minimum: of
    two soils that differ in organic matter only, one below the minimum
    and one at or above it but at most one and a half times the first,
    the one with less organic matter gets a suitability score that is
    higher by 0.02 or more. *)
Theorem organic_matter_threshold_drop soil crop req (below above : Q) :
  dict_lookup crop_requirements crop = Some req ->
  below < organic_matter_min req -> organic_matter_min req <= above ->
  above <= 1.5 * below ->
  suitability_score
    (analyze_soil_suitability (with_organic_matter soil above) crop) + 0.02
  <= suitability_score
       (analyze_soil_suitability (with_organic_matter soil below) crop).
Proof.
  intros L B A T.
  pose proof (lookup_known _ _ L) as K.
  destruct (known_crop_positive _ K) as [Pom Pdp].
  destruct (analyze_known (with_organic_matter soil above) crop req L)
    as (om1 & dr1 & dp1 & Hom1 & Hdr1 & Hdp1 & E1).
  destruct (analyze_known (with_organic_matter soil below) crop req L)
    as (om2 & dr2 & dp2 & Hom2 & Hdr2 & Hdp2 & E2).
  cbv zeta in E1, E2. rewrite E1, E2. cbn [suitability_score].
  change (drainage_component (with_organic_matter soil below) req)
    with (drainage_component (with_organic_matter soil above) req) in Hdr2.
  change (depth_component (with_organic_matter soil below) req)
    with (depth_component (with_organic_matter soil above) req) in Hdp2.
  assert (dr2 = dr1) by congruence. assert (dp2 = dp1) by congruence.
  subst dr2 dp2.
  change (ph_component (with_organic_matter soil below) req)
    with (ph_component (with_organic_matter soil above) req).
  change (texture_component (with_organic_matter soil below) req)
    with (texture_component (with_organic_matter soil above) req).
  change (_evaluate_nutrients (with_organic_matter soil below) req)
    with (_evaluate_nutrients (with_organic_matter soil above) req).
  destruct (ph_component_graded (with_organic_matter soil above) req)
    as (Wph & _).
  destruct (texture_component_graded (with_organic_matter soil above) req)
    as (Wtx & _).
  destruct (organic_matter_component_paired _ req om1 Hom1) as [_ Wom1].
  destruct (organic_matter_component_paired _ req om2 Hom2) as [_ Wom2].
  destruct (drainage_component_paired _ req dr1 Hdr1) as [_ Wdr].
  destruct (depth_component_paired _ req dp1 Hdp1) as [_ Wdp].
  rewrite organic_matter_component_run in Hom1, Hom2 by exact Pom.
  cbn [organic_matter with_organic_matter] in Hom1, Hom2.
  replace (Qle_bool (organic_matter_min req) above) with true in Hom1
    by (symmetry; now apply Qle_bool_iff).
  replace (Qle_bool (organic_matter_min req) below) with false in Hom2.
  2:{ symmetry. apply Qltb_true in B. unfold Qltb in B.
      now destruct (Qle_bool _ _). }
  injection Hom1 as <-. injection Hom2 as <-.
  unfold _evaluate_nutrients. simpl (map reported _). cbn [app].
  rewrite !weighted_sum; try assumption; try apply nutrient_weight;
    try reflexivity.
  cbn [score component].
  set (m := organic_matter_min req) in *.
  assert (P1 : 1 <= above / m) by (apply Qle_shift_div_l; lra).
  assert (P2 : above / m <= 1.5 * (below / m)).
  { setoid_replace (1.5 * (below / m)) with (1.5 * below / m) by (field; lra).
    unfold Qdiv. apply Qmult_le_compat_r; [exact T |].
    apply Qinv_le_0_compat. lra. }
  assert (P3 : above / (m * 2) == above / m * (1 # 2)) by (field; lra).
  assert (S2 : py_min 1 (above / (m * 2)) <= above / (m * 2)).
  { destruct (py_min_cases 1 (above / (m * 2)))
      as [[? E] | [? E]]; rewrite E; lra. }
  match goal with
  | |- ?X / 1.2 + 0.02 <= ?Y / 1.2 =>
      assert (D : X + 0.024 <= Y) by lra;
      setoid_replace (X / 1.2 + 0.02) with ((X + 0.024) / 1.2) by field;
      unfold Qdiv; apply Qmult_le_compat_r;
        [exact D | apply Qinv_le_0_compat; lra]
  end.
Qed.

Lemma organic_matter_threshold_drop_witness :
  suitability_score
    (analyze_soil_suitability (with_organic_matter sample_soil 2) "maize")
  + 0.02
  <= suitability_score
       (analyze_soil_suitability (with_organic_matter sample_soil 1.9) "maize").
Proof.
  eapply (organic_matter_threshold_drop sample_soil "maize");
    [reflexivity | cbn; lra ..].
Defined.

End SoilSuitability.

(** ** Climate projections and risks *)

Section ClimateService.
Import Climate.

Lemma Qsum_between (lo hi : Q) (xs : list Q) :
  Forall (fun x => lo <= x <= hi) xs ->
  lo * inject_Z (Z.of_nat (List.length xs)) <= Qsum xs
  /\ Qsum xs <= hi * inject_Z (Z.of_nat (List.length xs)).
Proof.
  unfold Qsum.
  induction 1 as [| x xs Hx _ IH]; cbn [fold_right List.length].
  - change (inject_Z (Z.of_nat 0)) with 0. lra.
  - rewrite Nat2Z.inj_succ, <- Z.add_1_r, inject_Z_plus.
    change (inject_Z 1) with 1. lra.
Qed.

Lemma mean_between (lo hi : Q) (xs : list Q) :
  xs <> [] -> Forall (fun x => lo <= x <= hi) xs ->
  lo <= Qsum xs / inject_Z (Z.of_nat (List.length xs)) <= hi.
Proof.
  intros N F. destruct (Qsum_between lo hi xs F) as [L U].
  assert (P : 0 < inject_Z (Z.of_nat (List.length xs))).
  { destruct xs as [| x xs]; [contradiction |].
    cbn [List.length]. rewrite <- (Zlt_Qlt 0). lia. }
  split; [apply Qle_shift_div_l | apply Qle_shift_div_r]; lra.
Qed.

Lemma py_min_le_l (a b : Q) : py_min a b <= a.
Proof.
  destruct (py_min_cases a b) as [[? E] | [? E]]; rewrite E; lra.
Qed.

Lemma project_run rt w cy (k : Z) (c : nat) :
  HAS_NUMPY rt = true ->
  exists p, project rt w cy k c = (Ok p, S (S c))
            /\ year p = (cy + k)%Z
            /\ ((1 <= k)%Z -> well_formed p).
Proof.
  intros N. unfold project, np_random_normal, np_random. rewrite N.
  unfold mbind, mret. cbn beta iota. eexists. split; [reflexivity |].
  split; [reflexivity |]. intros K.
  assert (1 <= inject_Z k) by (rewrite <- (Zle_Qle 1); exact K).
  unfold well_formed, dict_get.
  cbn [extreme_events_probability confidence_level dict_lookup
       String.eqb Ascii.eqb Bool.eqb].
  repeat split;
    match goal with
    | |- context [py_min ?a ?b] =>
        destruct (py_min_cases a b) as [[? E] | [? E]]; rewrite E; lra
    | |- context [py_max ?a ?b] =>
        destruct (py_max_cases a b) as [[? E] | [? E]]; rewrite E; lra
    end.
Qed.

Lemma projections_run rt w cy (ks : list Z) (c : nat) :
  HAS_NUMPY rt = true ->
  exists ps, mfor (project rt w cy) ks c
             = (Ok ps, (c + 2 * List.length ks)%nat)
             /\ map year ps = map (Z.add cy) ks
             /\ (Forall (fun k => (1 <= k)%Z) ks -> Forall well_formed ps).
Proof.
  intros N. revert c.
  induction ks as [| k ks IH]; intros c; cbn [mfor List.length map].
  - exists []. unfold mret. rewrite Nat.add_0_r. repeat split. constructor.
  - destruct (project_run rt w cy k c N) as (p & Hp & Yp & Wp).
    destruct (IH (S (S c))) as (ps & Hps & Yps & Wps).
    exists (p :: ps). unfold mbind at 1. rewrite Hp.
    unfold mbind at 1. rewrite Hps. unfold mret.
    split; [f_equal; lia |]. cbn [map]. split; [congruence |].
    intros F. inversion_clear F. constructor; auto.
Qed.

Lemma year_offsets_positive (years_ahead : Z) :
  Forall (fun k => (1 <= k)%Z) (year_offsets years_ahead).
Proof.
  unfold year_offsets. apply Forall_forall. intros k H.
  apply in_map_iff in H as (i & <- & H). apply in_seq in H. lia.
Qed.

(** X22. With numpy, [get_climate_projections] does not raise: it
    returns one projection for each year after the current one, in
    order, up to [years_ahead] years (none when [years_ahead] is not
    positive), takes two draws per projection, and whatever is drawn
    every projection has a drought probability between 0.07 and 0.9, a
    flood probability between 0.04 and 0.8, a heat-wave probability
    between 0.05 and 0.9 and a confidence between 0.6 and 0.88. *)
Theorem climate_projections_shape rt w cy (years_ahead : Z) (c : nat) :
  HAS_NUMPY rt = true ->
  exists ps,
    get_climate_projections rt w cy years_ahead c
    = (Ok ps, (c + 2 * Z.to_nat years_ahead)%nat)
    /\ map year ps
       = map (fun i => (cy + Z.of_nat i)%Z) (seq 1 (Z.to_nat years_ahead))
    /\ Forall well_formed ps.
Proof.
  intros N.
  destruct (projections_run rt w cy (year_offsets years_ahead) c N)
    as (ps & H & Y & W).
  exists ps. unfold get_climate_projections, mtry. rewrite H.
  unfold year_offsets in *. rewrite length_map, length_seq in *.
  split; [reflexivity |]. split.
  - rewrite Y, map_map. reflexivity.
  - apply W. apply (year_offsets_positive years_ahead).
Qed.

Lemma climate_projections_shape_witness :
  exists ps,
    get_climate_projections rt_ml quiet_world 2026 2 O = (Ok ps, 4%nat)
    /\ map year ps = [2027%Z; 2028%Z]
    /\ Forall well_formed ps.
Proof.
  apply (climate_projections_shape rt_ml quiet_world 2026 2 O). reflexivity.
Defined.

Lemma np_mean_with_numpy rt xs :
  HAS_NUMPY rt = true ->
  np_mean rt xs = Ok (Qsum xs / inject_Z (Z.of_nat (List.length xs))).
Proof. intros N. unfold np_mean. now rewrite N. Qed.

Lemma np_mean_without_numpy rt xs :
  HAS_NUMPY rt = false -> np_mean rt xs = Raise NameError.
Proof. intros N. unfold np_mean. now rewrite N. Qed.

(** X23. Whatever the patterns and the projections, and with or without
    numpy, [calculate_climate_risks] returns the five risk indices, in
    the same order, and none of them exceeds 1. *)
Theorem climate_risks_at_most_one rt patterns projections :
  let risks := calculate_climate_risks rt patterns projections in
  map fst risks = risk_names /\ Forall (fun kv => snd kv <= 1) risks.
Proof.
  cbv zeta. unfold calculate_climate_risks.
  destruct projections as [| p ps].
  { cbn. split; [reflexivity |]. repeat constructor; cbn; lra. }
  destruct (HAS_NUMPY rt) eqn:N.
  2:{ rewrite np_mean_without_numpy by exact N. cbn.
      split; [reflexivity |]. repeat constructor; cbn; lra. }
  rewrite !np_mean_with_numpy by exact N. cbn [rbind].
  destruct (monthly patterns) as [| m ms].
  - cbn [rbind try_except map fst]. split; [reflexivity |].
    repeat apply Forall_cons; try apply Forall_nil; cbn [snd];
      try apply py_min_le_l; try lra.
    match goal with
    | |- py_min 1 ?a * _ + py_min 1 ?b * _ + py_min 1 ?c * _ + _ <= _ =>
        pose proof (py_min_le_l 1 a); pose proof (py_min_le_l 1 b);
        pose proof (py_min_le_l 1 c)
    end.
    lra.
  - cbn [rbind try_except map fst]. split; [reflexivity |].
    repeat apply Forall_cons; try apply Forall_nil; cbn [snd];
      try apply py_min_le_l.
    match goal with
    | |- py_min 1 ?a * _ + py_min 1 ?b * _ + py_min 1 ?c * _
         + py_min 1 ?d * _ <= _ =>
        pose proof (py_min_le_l 1 a); pose proof (py_min_le_l 1 b);
        pose proof (py_min_le_l 1 c); pose proof (py_min_le_l 1 d)
    end.
    lra.
Qed.

(** X24. Without numpy the projections are empty and the risks computed
    from them are all zero, so the overall risk read from them is 0;
    the fallback values of [calculate_climate_risks] are what it
    returns for any other list of projections. *)
Theorem climate_risks_without_numpy rt w cy (years_ahead : Z) (c : nat)
        patterns :
  HAS_NUMPY rt = false ->
  get_climate_projections rt w cy years_ahead c = (Ok [], c)
  /\ calculate_climate_risks rt patterns [] = no_risks
  /\ dict_get (calculate_climate_risks rt patterns []) "overall_risk" 0.3 = 0
  /\ forall projections,
       projections <> [] ->
       calculate_climate_risks rt patterns projections = fallback_risks.
Proof.
  intros N. split; [| split; [reflexivity | split; [reflexivity |]]].
  - unfold get_climate_projections, mtry, year_offsets.
    destruct (Z.to_nat years_ahead) as [| n]; [reflexivity |].
    cbn [seq map mfor]. unfold mbind at 1.
    unfold project, np_random_normal, np_random. rewrite N.
    unfold mbind, mraise, mret. reflexivity.
  - intros [| p ps] H; [contradiction |].
    unfold calculate_climate_risks.
    rewrite np_mean_without_numpy by exact N. reflexivity.
Qed.

Lemma climate_risks_without_numpy_witness :
  get_climate_projections rt_fallback quiet_world 2026 2 O = (Ok [], O)
  /\ calculate_climate_risks rt_fallback (seasonal_patterns quiet_world) []
     = no_risks
  /\ dict_get (calculate_climate_risks rt_fallback
                 (seasonal_patterns quiet_world) []) "overall_risk" 0.3 = 0
  /\ forall projections,
       projections <> [] ->
       calculate_climate_risks rt_fallback (seasonal_patterns quiet_world)
         projections = fallback_risks.
Proof.
  apply (climate_risks_without_numpy rt_fallback quiet_world 2026 2 O).
  reflexivity.
Defined.

Lemma event_probabilities_between event lo hi ps :
  Forall (fun p => lo <= dict_get (extreme_events_probability p) event 0 <= hi)
         ps ->
  Forall (fun x => lo <= x <= hi) (event_probabilities event ps).
Proof.
  unfold event_probabilities. induction 1; cbn [map]; constructor; auto.
Qed.

(** X25. With numpy, the risks computed from the projections of
    [get_climate_projections] for one year ahead or more have a drought
    risk between 0.03 and 1 and a flood risk between 0.025 and 0.6,
    whatever is drawn. *)
Theorem service_risks_range rt w cy (years_ahead : Z) (c : nat) patterns :
  HAS_NUMPY rt = true -> (1 <= years_ahead)%Z ->
  exists ps,
    fst (get_climate_projections rt w cy years_ahead c) = Ok ps
    /\ let risks := calculate_climate_risks rt patterns ps in
       0.03 <= dict_get risks "drought_risk" 0 <= 1
       /\ 0.025 <= dict_get risks "flood_risk" 0 <= 0.6.
Proof.
  intros N Y.
  destruct (projections_run rt w cy (year_offsets years_ahead) c N)
    as (ps & H & Yr & W).
  specialize (W (year_offsets_positive years_ahead)).
  exists ps. unfold get_climate_projections, mtry. rewrite H.
  split; [reflexivity |]. cbv zeta.
  assert (NE : ps <> []).
  { intros ->. apply (f_equal (@List.length _)) in Yr.
    unfold year_offsets in Yr. rewrite !length_map, length_seq in Yr.
    cbn in Yr. lia. }
  assert (D : Forall (fun x => 0.07 <= x <= 0.9)
                     (event_probabilities "drought" ps)).
  { apply event_probabilities_between.
    eapply Forall_impl; [| exact W]. intros p Hp. apply Hp. }
  assert (F : Forall (fun x => 0.04 <= x <= 0.8)
                     (event_probabilities "flood" ps)).
  { apply event_probabilities_between.
    eapply Forall_impl; [| exact W]. intros p Hp. apply Hp. }
  assert (ND : event_probabilities "drought" ps <> []).
  { unfold event_probabilities. destruct ps; [contradiction | discriminate]. }
  assert (NF : event_probabilities "flood" ps <> []).
  { unfold event_probabilities. destruct ps; [contradiction | discriminate]. }
  pose proof (mean_between _ _ _ ND D) as MD.
  pose proof (mean_between _ _ _ NF F) as MF.
  unfold calculate_climate_risks.
  destruct ps as [| p ps']; [contradiction |].
  rewrite !np_mean_with_numpy by exact N. cbn [rbind].
  set (precip := Qsum (map precipitation_change (p :: ps')) / _) in *.
  set (dm := Qsum (event_probabilities "drought" (p :: ps')) / _) in *.
  set (fm := Qsum (event_probabilities "flood" (p :: ps')) / _) in *.
  assert (A : 0 <= Qabs precip / 20).
  { apply Qle_shift_div_l; [lra |]. pose proof (Qabs_nonneg precip). lra. }
  assert (Z0 : 0 / 100 == 0) by reflexivity.
  set (shift := Qabs precip / 20) in *. set (none := 0 / 100) in *.
  destruct (monthly patterns) as [| m ms];
    cbn [rbind try_except]; unfold dict_get;
    cbn [dict_lookup String.eqb Ascii.eqb Bool.eqb];
    (split;
     [ destruct (py_min_cases 1 (shift * 0.5 + dm * 0.5))
         as [[? E] | [? E]]; rewrite E; lra
     | destruct (py_min_cases 1 (fm * 0.7 + none * 0.3))
         as [[? E] | [? E]]; rewrite E; lra ]).
Qed.

Lemma service_risks_range_witness :
  exists ps,
    fst (get_climate_projections rt_ml quiet_world 2026 2 O) = Ok ps
    /\ let risks :=
         calculate_climate_risks rt_ml (seasonal_patterns quiet_world) ps in
       0.03 <= dict_get risks "drought_risk" 0 <= 1
       /\ 0.025 <= dict_get risks "flood_risk" 0 <= 0.6.
Proof.
  apply (service_risks_range rt_ml quiet_world 2026 2 O); [reflexivity | lia].
Defined.

(** X26. Without numpy no adaptation recommendation is given, whatever
    the patterns, the projections and the crop: the risks are then all
    zero or the fallback values, and neither exceeds a threshold of
    [get_adaptation_recommendations]. *)
Theorem no_adaptation_without_numpy rt patterns projections crop_type :
  HAS_NUMPY rt = false ->
  get_adaptation_recommendations
    (calculate_climate_risks rt patterns projections) crop_type = [].
Proof.
  intros N. unfold calculate_climate_risks.
  destruct projections as [| p ps]; [reflexivity |].
  rewrite np_mean_without_numpy by exact N. reflexivity.
Qed.

Lemma no_adaptation_without_numpy_witness :
  get_adaptation_recommendations
    (calculate_climate_risks rt_fallback (seasonal_patterns quiet_world) [])
    "maize" = [].
Proof.
  apply (no_adaptation_without_numpy rt_fallback). reflexivity.
Defined.

End ClimateService.
